(** * nion.data.Core: calibration propagation of the transform catalog

    A shallow embedding of [nion/data/Core.py].  Python floats are IEEE
    binary64 numbers (Rocq's primitive floats), Python ints are [Z],
    tuples and lists are [list], [None] is [option]'s [None].  A call
    either returns or raises; calls into the numeric routines of numpy
    and scipy (transforms, filters, array arithmetic) are recorded, in
    order, in a log, so that one can tell when the numeric work is done.
    The clock ([datetime.datetime.utcnow()]) is left out: no result
    below depends on the timestamp. *)

From Stdlib Require Import ZArith List String Ascii Bool Lia.
From Stdlib Require Import PrimFloat SpecFloat FloatOps.
Import ListNotations.

Set Warnings "-inexact-float".

Local Open Scope string_scope.
Local Open Scope Z_scope.

(** ** Python values: floats, ints, exceptions *)

Module Py.

Inductive exn : Type :=
| AssertionError
| NotImplementedError
| ZeroDivisionError
| ValueError
| OverflowError
| TypeError
| IndexError.

Inductive outcome (A : Type) : Type :=
| Ok (a : A)
| Raise (e : exn).
Arguments Ok {A} a.
Arguments Raise {A} e.

(** [float(n)] for a Python int: the nearest binary64 number. *)
Definition float_of_int (n : Z) : float :=
  SF2Prim (binary_normalize prec emax n 0 false).

(** [x == 0.0] on floats (true for both zeros, false for NaN). *)
Definition is_zero (x : float) : bool := PrimFloat.eqb x 0%float.

(** [int(x)] for a Python float: truncation toward zero; NaN raises
    ValueError and an infinity raises OverflowError. *)
Definition trunc (x : float) : outcome Z :=
  match Prim2SF x with
  | S754_zero _ => Ok 0
  | S754_finite s m e =>
      let a := match e with
               | Z0 => Zpos m
               | Zpos p => Z.shiftl (Zpos m) (Zpos p)
               | Zneg p => Z.shiftr (Zpos m) (Zpos p)
               end in
      Ok (if s then - a else a)
  | S754_infinity _ => Raise OverflowError
  | S754_nan => Raise ValueError
  end.

(** [math.floor(x)]. *)
Definition floor (x : float) : outcome Z :=
  match Prim2SF x with
  | S754_zero _ => Ok 0
  | S754_finite s m e =>
      match e with
      | Z0 => Ok (if s then Zneg m else Zpos m)
      | Zpos p => Ok (if s then - Z.shiftl (Zpos m) (Zpos p)
                      else Z.shiftl (Zpos m) (Zpos p))
      | Zneg p => Ok (Z.shiftr (if s then Zneg m else Zpos m) (Zpos p))
      end
  | S754_infinity _ => Raise OverflowError
  | S754_nan => Raise ValueError
  end.

Definition is_infinite (x : float) : bool :=
  match Prim2SF x with S754_infinity _ => true | _ => false end.

(** [math.pow(n, 2)] for a Python int [n]: the square of [float(n)];
    OverflowError when [n] or the square is out of range. *)
Definition pow2 (n : Z) : outcome float :=
  let x := float_of_int n in
  if is_infinite x then Raise OverflowError
  else if is_infinite (x * x)%float then Raise OverflowError
  else Ok (x * x)%float.

(** [math.sqrt(x)]: ValueError below zero. *)
Definition sqrt (x : float) : outcome float :=
  if PrimFloat.ltb x 0%float then Raise ValueError else Ok (PrimFloat.sqrt x).

(** Python's [seq[i]] with a possibly negative index. *)
Definition getitem {A : Type} (l : list A) (i : Z) : outcome A :=
  let n := Z.of_nat (List.length l) in
  let j := if i <? 0 then i + n else i in
  if (j <? 0) || (n <=? j) then Raise IndexError
  else match nth_error l (Z.to_nat j) with
       | Some a => Ok a
       | None => Raise IndexError
       end.

(** One bound of a Python slice [a:b] over a sequence of length [n]. *)
Definition slice_bound (n i : Z) : Z :=
  if i <? 0 then Z.max (i + n) 0 else Z.min i n.

(** Python's [seq[a:b]]. *)
Definition slice {A : Type} (l : list A) (a b : Z) : list A :=
  let n := Z.of_nat (List.length l) in
  let a' := slice_bound n a in
  let b' := slice_bound n b in
  firstn (Z.to_nat (b' - a')) (skipn (Z.to_nat a') l).

(** [s.startswith(p)] and [s[n:]] on strings. *)
Definition startswith (s p : string) : bool := String.prefix p s.

Fixpoint drop (n : nat) (s : string) : string :=
  match n, s with
  | O, _ => s
  | S n', String _ s' => drop n' s'
  | S _, EmptyString => EmptyString
  end.

End Py.
Import Py.

(** ** Arrays and the numeric kernel *)

Inductive dtype : Type :=
| int8 | int16 | int32 | int64
| uint8 | uint16 | uint32 | uint64
| float32 | float64
| complex64 | complex128
| object_.

Definition dtype_eqb (a b : dtype) : bool :=
  match a, b with
  | int8, int8 | int16, int16 | int32, int32 | int64, int64
  | uint8, uint8 | uint16, uint16 | uint32, uint32 | uint64, uint64
  | float32, float32 | float64, float64
  | complex64, complex64 | complex128, complex128
  | object_, object_ => true
  | _, _ => false
  end.

Inductive scalar : Type :=
| SInt (z : Z)
| SFloat (x : float)
| SComplex (re im : float).

(** A dense array: its shape, its element type and its elements in
    row-major (C) order. *)
Record ndarray : Type := mk_ndarray {
  nd_shape : list Z;
  nd_dtype : dtype;
  nd_buf : list scalar
}.

(** A log entry: one call into a numeric routine of numpy or scipy, with
    the arrays it was given. *)
Inductive event : Type :=
| KernelCall (name : string) (args : list ndarray).

(** A computation: the kernel calls it made, and how it ended. *)
Definition M (A : Type) : Type := (list event * outcome A)%type.

Definition ret {A : Type} (a : A) : M A := ([], Ok a).

Definition raise {A : Type} (e : exn) : M A := ([], Raise e).

Definition bind {A B : Type} (m : M A) (f : A -> M B) : M B :=
  match m with
  | (t, Ok a) => let (t', r) := f a in ((t ++ t')%list, r)
  | (t, Raise e) => (t, Raise e)
  end.

Definition lift {A : Type} (o : outcome A) : M A := ([], o).

(** A kernel call: logged, returns the kernel's result. *)
Definition invoke (name : string) (arg res : ndarray) : M ndarray :=
  ([KernelCall name [arg]], Ok res).

Definition invoke_n {A : Type} (name : string) (args : list ndarray) (res : A) : M A :=
  ([KernelCall name args], Ok res).

Definition assert (b : bool) : M unit :=
  if b then ret tt else raise AssertionError.

Definition calls {A : Type} (m : M A) : list event := fst m.
Definition result {A : Type} (m : M A) : outcome A := snd m.

Declare Scope py_scope.
Delimit Scope py_scope with py.
Notation "x <- m ;; k" := (bind m (fun x => k))
  (at level 100, m at next level, right associativity) : py_scope.
Notation "m ;;; k" := (bind m (fun _ => k))
  (at level 100, right associativity) : py_scope.
Local Open Scope py_scope.

(** A list comprehension whose element expression may raise. *)
Fixpoint mapM {A B : Type} (f : A -> M B) (l : list A) : M (list B) :=
  match l with
  | [] => ret []
  | a :: l' => b <- f a ;; bs <- mapM f l' ;; ret (b :: bs)
  end.

(** [x / y] on Python floats. *)
Definition truediv (x y : float) : M float :=
  if is_zero y then raise ZeroDivisionError else ret (x / y)%float.

(** The external numeric kernel (numpy, scipy): what each routine does
    to the elements.  The shape and element type of each result are
    fixed where the routine is called. *)
Record NumericKernel : Type := {
  k_fft : ndarray -> list scalar;
  k_fft2 : ndarray -> list scalar;
  k_ifft : ndarray -> list scalar;
  k_ifft2 : ndarray -> list scalar;
  k_fftshift : ndarray -> list scalar;
  k_ifftshift : ndarray -> list scalar;
  k_multiply : ndarray -> float -> list scalar;
  k_sobel : ndarray -> list scalar;
  k_laplace : ndarray -> list scalar;
  k_gaussian_filter : ndarray -> float -> list scalar;
  k_median_filter : ndarray -> Z -> list scalar;
  k_uniform_filter : ndarray -> Z -> list scalar;
  k_convert_to_grayscale : ndarray -> list scalar;
  k_result_type : list dtype -> dtype;
  k_linspace : float -> float -> Z -> list scalar;
  k_line_grid : Z * Z -> float -> float -> ndarray -> ndarray
                -> list scalar * list scalar;
  k_map_coordinates : ndarray -> ndarray -> ndarray -> list scalar;
  k_sum_axis0 : ndarray -> list scalar;
  k_true_divide : ndarray -> float -> list scalar
}.

(** ** numpy indexing, on row-major buffers *)

Module Numpy.

(** The number of elements of an array of the given shape. *)
Definition size_of (shape : list Z) : Z := fold_right Z.mul 1 shape.

(** Cut a buffer into [n] consecutive blocks of [k] elements. *)
Fixpoint chunks {A : Type} (k n : nat) (l : list A) : list (list A) :=
  match n with
  | O => []
  | S n' => firstn k l :: chunks k n' (skipn k l)
  end.

(** The blocks of an array along its first axis. *)
Definition blocks (shape : list Z) (buf : list scalar) : list (list scalar) :=
  match shape with
  | [] => []
  | n0 :: rest => chunks (Z.to_nat (size_of rest)) (Z.to_nat n0) buf
  end.

(** [d[a:b]]: a slice of the first axis. *)
Definition slice_axis0 (d : ndarray) (a b : Z) : outcome ndarray :=
  match nd_shape d with
  | [] => Raise IndexError
  | n0 :: rest =>
      let sel := Py.slice (blocks (nd_shape d) (nd_buf d)) a b in
      Ok (mk_ndarray (Z.of_nat (List.length sel) :: rest) (nd_dtype d) (List.concat sel))
  end.

(** [d[a:b, c:e]]: a slice of the first two axes. *)
Definition slice_axis01 (d : ndarray) (a b c e : Z) : outcome ndarray :=
  match nd_shape d with
  | n0 :: n1 :: rest =>
      let rows := Py.slice (blocks (nd_shape d) (nd_buf d)) a b in
      let cut := fun row => Py.slice (blocks (n1 :: rest) row) c e in
      let n1' := Z.of_nat (List.length (Py.slice (repeat tt (Z.to_nat n1)) c e)) in
      Ok (mk_ndarray (Z.of_nat (List.length rows) :: n1' :: rest) (nd_dtype d)
            (List.concat (map (fun row => List.concat (cut row)) rows)))
  | _ => Raise IndexError
  end.

(** [numpy.reshape(d, shape)]: at most one extent may be -1 (it is
    computed from the element count); the element count must not
    change, else ValueError. *)
Definition reshape (d : ndarray) (shape : list Z) : outcome ndarray :=
  let total := size_of (nd_shape d) in
  let unknown := List.length (filter (fun n => n =? -1) shape) in
  let known := size_of (filter (fun n => negb (n =? -1)) shape) in
  if existsb (fun n => n <? -1) shape then Raise ValueError
  else match unknown with
       | O => if known =? total
              then Ok (mk_ndarray shape (nd_dtype d) (nd_buf d))
              else Raise ValueError
       | S O => if (known =? 0) || negb (total mod known =? 0)
                then Raise ValueError
                else Ok (mk_ndarray
                           (map (fun n => if n =? -1 then total / known else n) shape)
                           (nd_dtype d) (nd_buf d))
       | _ => Raise ValueError
       end.

(** [d[..., k]]: the plane of channel [k] of an array whose last axis
    is the channel axis. *)
Definition channel (d : ndarray) (k : nat) : ndarray :=
  let c := Z.to_nat (last (nd_shape d) 0) in
  let npix := Z.to_nat (size_of (removelast (nd_shape d))) in
  mk_ndarray (removelast (nd_shape d)) (nd_dtype d)
    (map (fun px => nth k px (SInt 0)) (chunks c npix (nd_buf d))).

(** The uint8 array [a] after [a = numpy.empty(shape + (c,), numpy.uint8)]
    and [a[..., k] = planes[k]] for each of the [c] planes: the planes,
    interleaved. *)
Definition stack_channels (shape : list Z) (planes : list ndarray) : ndarray :=
  let npix := Z.to_nat (size_of shape) in
  mk_ndarray (shape ++ [Z.of_nat (List.length planes)]) uint8
    (flat_map (fun i => map (fun p => nth i (nd_buf p) (SInt 0)) planes)
       (seq 0 npix)).

(** Whether the shape [s] may be joined to [s0] along [axis]: the same
    number of axes and the same extent on every other axis. *)
Definition joinable (axis : nat) (s0 s : list Z) : bool :=
  Nat.eqb (List.length s) (List.length s0)
  && forallb (fun iab : nat * (Z * Z) =>
                Nat.eqb (fst iab) axis || (fst (snd iab) =? snd (snd iab)))
       (combine (seq 0 (List.length s0)) (combine s0 s)).

(** The shape of the arrays joined along [axis]: the extents on that
    axis add up. *)
Definition joined_shape (axis : nat) (shapes : list (list Z)) : list Z :=
  match shapes with
  | [] => []
  | s0 :: _ =>
      map (fun ia : nat * Z =>
             if Nat.eqb (fst ia) axis
             then fold_right Z.add 0 (map (fun s => nth axis s 0) shapes)
             else snd ia)
        (combine (seq 0 (List.length s0)) s0)
  end.

(** The elements of the arrays joined along [axis], in row-major order. *)
Definition joined_buf (axis : nat) (arrays : list ndarray) : list scalar :=
  match arrays with
  | [] => []
  | a0 :: _ =>
      let outer := Z.to_nat (size_of (firstn axis (nd_shape a0))) in
      let pieces := fun a : ndarray =>
        chunks (Z.to_nat (size_of (skipn axis (nd_shape a)))) outer (nd_buf a) in
      flat_map (fun i => flat_map (fun a => nth i (pieces a) []) arrays)
        (seq 0 outer)
  end.

(** [numpy.atleast_2d(a)], as [numpy.vstack] applies it. *)
Definition atleast_2d (a : ndarray) : ndarray :=
  match nd_shape a with
  | [] => mk_ndarray [1; 1] (nd_dtype a) (nd_buf a)
  | [n] => mk_ndarray [1; n] (nd_dtype a) (nd_buf a)
  | _ => a
  end.

(** One item of a shape handed to numpy: an int, or (by mistake) a
    tuple. *)
Inductive shape_item : Type :=
| DimInt (n : Z)
| DimTuple (t : list Z).

(** [numpy.zeros(shape, dtype)]: every item of the shape must be an
    int (TypeError otherwise) and none may be negative (ValueError). *)
Definition zeros (shape : list shape_item) (dt : dtype) : outcome ndarray :=
  if existsb (fun i => match i with DimTuple _ => true | DimInt _ => false end) shape
  then Raise TypeError
  else
    let dims := flat_map (fun i => match i with DimInt n => [n] | DimTuple _ => [] end)
                  shape in
    if existsb (fun n => n <? 0) dims then Raise ValueError
    else Ok (mk_ndarray dims dt
               (repeat (match dt with
                        | float32 | float64 => SFloat 0%float
                        | complex64 | complex128 => SComplex 0%float 0%float
                        | _ => SInt 0
                        end) (Z.to_nat (size_of dims)))).

(** [d[:, y, x]] on a three-axis array, [y] and [x] within the extents. *)
Definition pick_column (d : ndarray) (y x : Z) : outcome ndarray :=
  match nd_shape d with
  | [n0; n1; n2] =>
      if (y <? 0) || (n1 <=? y) || (x <? 0) || (n2 <=? x) then Raise IndexError
      else Ok (mk_ndarray [n0] (nd_dtype d)
                 (map (fun k => nth (Z.to_nat ((Z.of_nat k * n1 + y) * n2 + x))
                                  (nd_buf d) (SInt 0))
                    (seq 0 (Z.to_nat n0))))
  | _ => Raise IndexError
  end.

(** An array of at least two axes as rows of pixels: [h] rows of [w]
    pixels of [c] elements each, [c] being the element count of the
    axes after the second (1 for a two-axis array). *)
Definition grid_of (h w c : nat) (buf : list scalar) : list (list (list scalar)) :=
  map (chunks c w) (chunks (w * c) h buf).

Definition buf_of (g : list (list (list scalar))) : list scalar :=
  List.concat (map (@List.concat scalar) g).

(** Columns become rows: row [j] of the result holds pixel [j] of every
    row. *)
Definition transpose_grid {A : Type} (w : nat) (g : list (list (list A)))
  : list (list (list A)) :=
  map (fun j => map (fun row => nth j row []) g) (seq 0 w).

(** [numpy.transpose(d, [1, 0])] and [numpy.transpose(d, [1, 0, 2])]:
    the first two axes change places. *)
Definition transpose_10 (d : ndarray) : outcome ndarray :=
  match nd_shape d with
  | n0 :: n1 :: rest =>
      let c := Z.to_nat (size_of rest) in
      Ok (mk_ndarray (n1 :: n0 :: rest) (nd_dtype d)
            (buf_of (transpose_grid (Z.to_nat n1)
                       (grid_of (Z.to_nat n0) (Z.to_nat n1) c (nd_buf d)))))
  | _ => Raise ValueError
  end.

(** [numpy.fliplr(d)]: every row reversed. *)
Definition fliplr (d : ndarray) : outcome ndarray :=
  match nd_shape d with
  | n0 :: n1 :: rest =>
      let c := Z.to_nat (size_of rest) in
      Ok (mk_ndarray (nd_shape d) (nd_dtype d)
            (buf_of (map (@rev (list scalar))
                       (grid_of (Z.to_nat n0) (Z.to_nat n1) c (nd_buf d)))))
  | _ => Raise ValueError
  end.

(** [numpy.flipud(d)]: the rows in reverse order. *)
Definition flipud (d : ndarray) : outcome ndarray :=
  match nd_shape d with
  | n0 :: rest =>
      Ok (mk_ndarray (nd_shape d) (nd_dtype d)
            (List.concat (rev (blocks (nd_shape d) (nd_buf d)))))
  | [] => Raise ValueError
  end.


(** [255 - x] on an element of a uint8 array. *)
Definition uint8_rsub (x : scalar) : scalar :=
  match x with
  | SInt z => SInt ((255 - z) mod 256)
  | other => other
  end.

(** [px] with its element [k] replaced by [v]. *)
Definition set_nth (k : nat) (px : list scalar) (v : scalar) : list scalar :=
  if (k <? List.length px)%nat then (firstn k px ++ v :: skipn (S k) px)%list else px.

(** The array [a] after [a[..., k] = plane]. *)
Definition set_channel (a : ndarray) (k : nat) (plane : ndarray) : ndarray :=
  let c := Z.to_nat (last (nd_shape a) 0) in
  let npix := Z.to_nat (size_of (removelast (nd_shape a))) in
  let pixels := chunks c npix (nd_buf a) in
  mk_ndarray (nd_shape a) (nd_dtype a)
    (flat_map (fun i => set_nth k (nth i pixels []) (nth i (nd_buf plane) (SInt 0)))
       (seq 0 npix)).

(** An axis given to a numpy reduction, counted from the end when
    negative: AxisError (a ValueError) when there is no such axis. *)
Definition normalize_axis (nd : nat) (axis : Z) : outcome nat :=
  let ax := if axis <? 0 then axis + Z.of_nat nd else axis in
  if (ax <? 0) || (Z.of_nat nd <=? ax) then Raise ValueError else Ok (Z.to_nat ax).

(** The shape without the axes listed. *)
Definition remove_axes {A : Type} (axes : list nat) (l : list A) : list A :=
  map snd (filter (fun ia : nat * A => negb (existsb (Nat.eqb (fst ia)) axes))
             (combine (seq 0 (List.length l)) l)).



End Numpy.

(** ** Calibration *)

Module Calibration.

(** Modelled from the spec: the calibration value type of
    [nion.data.Calibration] (its source is not part of Core.py), the
    triple (offset, scale, units) of the affine map
    [physical = offset + index * scale]. *)
Record Calibration : Type := mk {
  offset : float;
  scale : float;
  units : string
}.

(** [Calibration.Calibration()]: the uncalibrated value (0.0, 1.0, ""). *)
Definition uncalibrated : Calibration := mk 0%float 1%float "".

End Calibration.

Abbreviation Calib := Calibration.Calibration.

(** ** Image: shape and element-type predicates *)

Module Image.

(** Modelled from the spec: [nion.data.Image] is not part of Core.py.
    The supported element types are the integer, float and complex
    ones. *)
Definition is_supported_dtype (dt : dtype) : bool :=
  negb (dtype_eqb dt object_).

(** Modelled from the spec: an RGB payload is a 2-D uint8 image with a
    trailing axis of 3 channels. *)
Definition is_shape_and_dtype_rgb (shape : list Z) (dt : dtype) : bool :=
  dtype_eqb dt uint8 && (List.length shape =? 3)%nat && (last shape 0 =? 3).

(** Modelled from the spec: an RGBA payload is a 2-D uint8 image with a
    trailing axis of 4 channels. *)
Definition is_shape_and_dtype_rgba (shape : list Z) (dt : dtype) : bool :=
  dtype_eqb dt uint8 && (List.length shape =? 3)%nat && (last shape 0 =? 4).

(** Modelled from the spec: a colour image is an RGB or an RGBA one. *)
Definition is_shape_and_dtype_rgb_type (shape : list Z) (dt : dtype) : bool :=
  is_shape_and_dtype_rgb shape dt || is_shape_and_dtype_rgba shape dt.

(** Modelled from the spec: the data axes are the axes of the shape
    without the colour-channel axis. *)
Definition dimensional_shape_from_shape_and_dtype
    (shape : list Z) (dt : dtype) : list Z :=
  if is_shape_and_dtype_rgb_type shape dt then removelast shape else shape.

(** Modelled from the spec: the validity predicate: a supported element
    type, at least one data axis and a non-zero extent on every axis. *)
Definition is_shape_and_dtype_valid
    (shape : option (list Z)) (dt : option dtype) : bool :=
  match shape, dt with
  | Some s, Some t =>
      is_supported_dtype t
      && negb (Nat.eqb (List.length (dimensional_shape_from_shape_and_dtype s t)) 0)
      && forallb (fun n => 0 <? n) s
  | _, _ => false
  end.

(** Modelled from the spec: rank 1 and rank 2 count the data axes of a
    valid payload. *)
Definition is_shape_and_dtype_1d (shape : list Z) (dt : dtype) : bool :=
  is_shape_and_dtype_valid (Some shape) (Some dt)
  && (List.length (dimensional_shape_from_shape_and_dtype shape dt) =? 1)%nat.

Definition is_shape_and_dtype_2d (shape : list Z) (dt : dtype) : bool :=
  is_shape_and_dtype_valid (Some shape) (Some dt)
  && (List.length (dimensional_shape_from_shape_and_dtype shape dt) =? 2)%nat.

(** The same predicates on an array, through its shape and element
    type. *)
Definition is_data_valid (d : ndarray) : bool :=
  is_shape_and_dtype_valid (Some (nd_shape d)) (Some (nd_dtype d)).

Definition is_data_1d (d : ndarray) : bool :=
  is_shape_and_dtype_1d (nd_shape d) (nd_dtype d).

Definition is_data_2d (d : ndarray) : bool :=
  is_shape_and_dtype_2d (nd_shape d) (nd_dtype d).

Definition is_data_rgb (d : ndarray) : bool :=
  is_shape_and_dtype_rgb (nd_shape d) (nd_dtype d).

Definition is_data_rgba (d : ndarray) : bool :=
  is_shape_and_dtype_rgba (nd_shape d) (nd_dtype d).

Definition is_data_rgb_type (d : ndarray) : bool :=
  is_shape_and_dtype_rgb_type (nd_shape d) (nd_dtype d).

End Image.

(** ** DataAndMetadata *)

Module DataAndMetadata.

(** Modelled from the spec: the Calibrated Array Value of
    [nion.data.DataAndMetadata] (not part of Core.py): payload,
    intensity calibration, one dimensional calibration per data axis
    and free-form metadata.  The payload field holds an array, or
    [None] when the computation could not run. *)
Record DataAndMetadata : Type := mk {
  data : option ndarray;
  intensity_calibration : Calib;
  dimensional_calibrations : option (list Calib);
  metadata : list (string * string)
}.

(** Modelled from the spec: [data_shape] and [data_dtype] are those of
    the payload, None when there is none. *)
Definition data_shape (dm : DataAndMetadata) : option (list Z) :=
  option_map nd_shape (data dm).

Definition data_dtype (dm : DataAndMetadata) : option dtype :=
  option_map nd_dtype (data dm).

(** Modelled from the spec: [new_data_and_metadata(data,
    intensity_calibration, dimensional_calibrations, metadata,
    timestamp)] packages a result; its first argument is an array (or
    None), already computed by the caller. *)
Definition new_data_and_metadata (d : option ndarray) (ic : Calib)
    (dc : option (list Calib)) (md : list (string * string)) : DataAndMetadata :=
  mk d ic dc md.



(** The number of data axes of a payload. *)
Definition rank (d : ndarray) : nat :=
  List.length (Image.dimensional_shape_from_shape_and_dtype (nd_shape d) (nd_dtype d)).

End DataAndMetadata.

Abbreviation DM := DataAndMetadata.DataAndMetadata.

(** ** The transform catalog *)

Module Core.
Import DataAndMetadata.

Section Catalog.

Variable K : NumericKernel.

(** numpy and scipy routines as the catalog calls them. *)
Definition scipy_fftpack_fft (d : ndarray) : M ndarray :=
  invoke "scipy.fftpack.fft" d (mk_ndarray (nd_shape d) complex128 (k_fft K d)).

Definition scipy_fftpack_fft2 (d : ndarray) : M ndarray :=
  invoke "scipy.fftpack.fft2" d (mk_ndarray (nd_shape d) complex128 (k_fft2 K d)).

Definition scipy_fftpack_ifft (d : ndarray) : M ndarray :=
  invoke "scipy.fftpack.ifft" d (mk_ndarray (nd_shape d) complex128 (k_ifft K d)).

Definition scipy_fftpack_ifft2 (d : ndarray) : M ndarray :=
  invoke "scipy.fftpack.ifft2" d (mk_ndarray (nd_shape d) complex128 (k_ifft2 K d)).

Definition scipy_fftpack_fftshift (d : ndarray) : M ndarray :=
  invoke "scipy.fftpack.fftshift" d
    (mk_ndarray (nd_shape d) (nd_dtype d) (k_fftshift K d)).

Definition scipy_fftpack_ifftshift (d : ndarray) : M ndarray :=
  invoke "scipy.fftpack.ifftshift" d
    (mk_ndarray (nd_shape d) (nd_dtype d) (k_ifftshift K d)).

(** [numpy.multiply(d, scaling)] and [d * scaling] with a float factor. *)
Definition numpy_multiply (d : ndarray) (scaling : float) : M ndarray :=
  invoke "numpy.multiply" d
    (mk_ndarray (nd_shape d)
       (match nd_dtype d with
        | complex64 | complex128 => nd_dtype d
        | _ => float64
        end)
       (k_multiply K d scaling)).

(** [numpy.sqrt(n)] of a Python int. *)
Definition numpy_sqrt (n : Z) : float := PrimFloat.sqrt (float_of_int n).

(** The closure [calculate_data] of [function_fft]. *)
Definition function_fft_calculate_data (dm : DM) : M (option ndarray) :=
  match data dm with
  | None => ret None
  | Some d =>
      if negb (Image.is_data_valid d) then ret None
      else if Image.is_data_1d d then
        n0 <- lift (getitem (nd_shape d) 0) ;;
        let scaling := (1 / numpy_sqrt n0)%float in
        a <- scipy_fftpack_fft d ;;
        b <- numpy_multiply a scaling ;;
        c <- scipy_fftpack_fftshift b ;;
        ret (Some c)
      else if Image.is_data_2d d then
        let data_copy := d in
        n1 <- lift (getitem (nd_shape d) 1) ;;
        n0 <- lift (getitem (nd_shape d) 0) ;;
        let scaling := (1 / numpy_sqrt (n1 * n0))%float in
        a <- scipy_fftpack_fft2 data_copy ;;
        b <- numpy_multiply a scaling ;;
        c <- scipy_fftpack_fftshift b ;;
        ret (Some c)
      else raise NotImplementedError
  end.

(** One element of the list comprehension of [function_fft]. *)
Definition fft_calibration (cn : Calib * Z) : M Calib :=
  let (dimensional_calibration, data_shape_n) := cn in
  o <- truediv (-0.5)%float (Calibration.scale dimensional_calibration) ;;
  s <- truediv 1%float
         (Calibration.scale dimensional_calibration * float_of_int data_shape_n)%float ;;
  ret (Calibration.mk o s ("1/" ++ Calibration.units dimensional_calibration)).

Definition function_fft (dm : DM) : M (option DM) :=
  let data_shape := data_shape dm in
  let data_dtype := data_dtype dm in
  let src_dimensional_calibrations := dimensional_calibrations dm in
  match data_shape, data_dtype, src_dimensional_calibrations with
  | Some shape, Some dt, Some src =>
      if negb (Image.is_shape_and_dtype_valid data_shape data_dtype) then ret None
      else
        assert (Nat.eqb (List.length src)
                  (List.length (Image.dimensional_shape_from_shape_and_dtype shape dt))) ;;;
        cals <- mapM fft_calibration (combine src shape) ;;
        d <- function_fft_calculate_data dm ;;
        ret (Some (new_data_and_metadata d Calibration.uncalibrated (Some cals) []))
  | _, _, _ => ret None
  end.

(** [remove_one_slash], local to [function_ifft]. *)
Definition remove_one_slash (s : string) : string :=
  if startswith s "1/" then drop 2 s else "1/" ++ s.

(** The closure [calculate_data] of [function_ifft]. *)
Definition function_ifft_calculate_data (dm : DM) : M (option ndarray) :=
  match data dm with
  | None => ret None
  | Some d =>
      if negb (Image.is_data_valid d) then ret None
      else if Image.is_data_1d d then
        n0 <- lift (getitem (nd_shape d) 0) ;;
        let scaling := numpy_sqrt n0 in
        a <- scipy_fftpack_ifft d ;;
        b <- numpy_multiply a scaling ;;
        c <- scipy_fftpack_fftshift b ;;
        ret (Some c)
      else if Image.is_data_2d d then
        let data_copy := d in
        n1 <- lift (getitem (nd_shape d) 1) ;;
        n0 <- lift (getitem (nd_shape d) 0) ;;
        let scaling := numpy_sqrt (n1 * n0) in
        a <- scipy_fftpack_ifftshift data_copy ;;
        b <- numpy_multiply a scaling ;;
        c <- scipy_fftpack_ifft2 b ;;
        ret (Some c)
      else raise NotImplementedError
  end.

(** One element of the list comprehension of [function_ifft]. *)
Definition ifft_calibration (cn : Calib * Z) : M Calib :=
  let (dimensional_calibration, data_shape_n) := cn in
  s <- truediv 1%float
         (Calibration.scale dimensional_calibration * float_of_int data_shape_n)%float ;;
  ret (Calibration.mk 0%float s
         (remove_one_slash (Calibration.units dimensional_calibration))).

Definition function_ifft (dm : DM) : M (option DM) :=
  let data_shape := data_shape dm in
  let data_dtype := data_dtype dm in
  let src_dimensional_calibrations := dimensional_calibrations dm in
  match data_shape, data_dtype, src_dimensional_calibrations with
  | Some shape, Some dt, Some src =>
      if negb (Image.is_shape_and_dtype_valid data_shape data_dtype) then ret None
      else
        assert (Nat.eqb (List.length src)
                  (List.length (Image.dimensional_shape_from_shape_and_dtype shape dt))) ;;;
        cals <- mapM ifft_calibration (combine src shape) ;;
        d <- function_ifft_calculate_data dm ;;
        ret (Some (new_data_and_metadata d Calibration.uncalibrated (Some cals) []))
  | _, _, _ => ret None
  end.

(** [bounds] of [function_crop]: ((top, left), (height, width)), as
    fractions of the extents. *)
Definition bounds_t : Type := ((float * float) * (float * float))%type.

(** [(int(data_shape[0] * bounds[0][0]), int(data_shape[1] * bounds[0][1])),
     (int(data_shape[0] * bounds[1][0]), int(data_shape[1] * bounds[1][1]))]. *)
Definition crop_bounds_int (shape : list Z) (bounds : bounds_t)
  : M ((Z * Z) * (Z * Z)) :=
  let '((b00, b01), (b10, b11)) := bounds in
  n0 <- lift (getitem shape 0) ;;
  y <- lift (trunc (float_of_int n0 * b00)%float) ;;
  n1 <- lift (getitem shape 1) ;;
  x <- lift (trunc (float_of_int n1 * b01)%float) ;;
  n0' <- lift (getitem shape 0) ;;
  h <- lift (trunc (float_of_int n0' * b10)%float) ;;
  n1' <- lift (getitem shape 1) ;;
  w <- lift (trunc (float_of_int n1' * b11)%float) ;;
  ret ((y, x), (h, w)).

(** The closure [calculate_data] of [function_crop]. *)
Definition function_crop_calculate_data (dm : DM) (bounds : bounds_t)
  : M (option ndarray) :=
  match data dm with
  | None => ret None
  | Some d =>
      if negb (Image.is_data_valid d) then ret None
      else
        bounds_int <- crop_bounds_int (nd_shape d) bounds ;;
        let '((y, x), (h, w)) := bounds_int in
        c <- lift (Numpy.slice_axis01 d y (y + h) x (x + w)) ;;
        ret (Some c)
  end.

(** The body of the loop of [function_crop] over
    [enumerate(dimensional_calibrations)]. *)
Definition crop_calibration (shape : list Z) (bounds : bounds_t)
    (ic : Z * Calib) : M Calib :=
  let (index, dimensional_calibration) := ic in
  let '((b00, b01), _) := bounds in
  n <- lift (getitem shape index) ;;
  b <- lift (getitem [b00; b01] index) ;;
  ret (Calibration.mk
         (Calibration.offset dimensional_calibration
          + float_of_int n * b * Calibration.scale dimensional_calibration)%float
         (Calibration.scale dimensional_calibration)
         (Calibration.units dimensional_calibration)).

(** [enumerate(l)]. *)
Definition enumerate {A : Type} (l : list A) : list (Z * A) :=
  combine (map Z.of_nat (seq 0 (List.length l))) l.

Definition function_crop (dm : DM) (bounds : bounds_t) : M (option DM) :=
  let data_shape := data_shape dm in
  let data_dtype := data_dtype dm in
  match data_shape, data_dtype, dimensional_calibrations dm with
  | Some shape, Some dt, Some cals =>
      if negb (Image.is_shape_and_dtype_valid data_shape data_dtype) then ret None
      else
        crop_bounds_int shape bounds ;;;
        cropped_dimensional_calibrations <-
          mapM (crop_calibration shape bounds) (enumerate cals) ;;
        d <- function_crop_calculate_data dm bounds ;;
        ret (Some (new_data_and_metadata d (intensity_calibration dm)
                     (Some cropped_dimensional_calibrations) (metadata dm)))
  | _, _, _ => ret None
  end.

(** [int(data_shape[0] * interval[0]), int(data_shape[0] * interval[1])]. *)
Definition crop_interval_int (shape : list Z) (interval : float * float)
  : M (Z * Z) :=
  let (i0, i1) := interval in
  n0 <- lift (getitem shape 0) ;;
  a <- lift (trunc (float_of_int n0 * i0)%float) ;;
  n0' <- lift (getitem shape 0) ;;
  b <- lift (trunc (float_of_int n0' * i1)%float) ;;
  ret (a, b).

(** The closure [calculate_data] of [function_crop_interval]. *)
Definition function_crop_interval_calculate_data (dm : DM) (interval : float * float)
  : M (option ndarray) :=
  match data dm with
  | None => ret None
  | Some d =>
      if negb (Image.is_data_valid d) then ret None
      else
        interval_int <- crop_interval_int (nd_shape d) interval ;;
        c <- lift (Numpy.slice_axis0 d (fst interval_int) (snd interval_int)) ;;
        ret (Some c)
  end.

Definition function_crop_interval (dm : DM) (interval : float * float)
  : M (option DM) :=
  let data_shape := data_shape dm in
  let data_dtype := data_dtype dm in
  match data_shape, data_dtype, dimensional_calibrations dm with
  | Some shape, Some dt, Some cals =>
      if negb (Image.is_shape_and_dtype_valid data_shape data_dtype) then ret None
      else
        interval_int <- crop_interval_int shape interval ;;
        dimensional_calibration <- lift (getitem cals 0) ;;
        n0 <- lift (getitem shape 0) ;;
        let cropped_calibration :=
          Calibration.mk
            (Calibration.offset dimensional_calibration
             + float_of_int (n0 * fst interval_int)
               * Calibration.scale dimensional_calibration)%float
            (Calibration.scale dimensional_calibration)
            (Calibration.units dimensional_calibration) in
        d <- function_crop_interval_calculate_data dm interval ;;
        ret (Some (new_data_and_metadata d (intensity_calibration dm)
                     (Some [cropped_calibration]) (metadata dm)))
  | _, _, _ => ret None
  end.

(** The closure [calculate_data] of [function_reshape]. *)
Definition function_reshape_calculate_data (dm : DM) (shape : list Z)
  : M (option ndarray) :=
  match data dm with
  | None => ret None
  | Some d =>
      if negb (Image.is_data_valid d) then ret None
      else c <- lift (Numpy.reshape d shape) ;; ret (Some c)
  end.

(** The loop of the branch "going to one more dimension": [index]
    counts the source calibrations used so far. *)
Fixpoint reshape_one_more (shape : list Z) (cals : list Calib) (index : Z)
  : M (list Calib) :=
  match shape with
  | [] => ret []
  | dimension :: shape' =>
      if dimension =? -1 then
        rest <- reshape_one_more shape' cals index ;;
        ret (Calibration.uncalibrated :: rest)
      else
        c <- lift (getitem cals index) ;;
        rest <- reshape_one_more shape' cals (index + 1) ;;
        ret (c :: rest)
  end.

(** The loop of the branch "going to one fewer dimension", over
    [zip(data_shape, dimensional_calibrations)]. *)
Fixpoint reshape_one_fewer (zipped : list (Z * Calib)) : list Calib :=
  match zipped with
  | [] => []
  | (dimension, dimensional_calibration) :: zipped' =>
      if dimension =? 1 then reshape_one_fewer zipped'
      else dimensional_calibration :: reshape_one_fewer zipped'
  end.

(** [total_old_pixels] and [total_new_pixels] are computed by the source
    and never read; they are left out. *)
Definition function_reshape (dm : DM) (shape : list Z) : M (option DM) :=
  let data_shape := data_shape dm in
  let data_dtype := data_dtype dm in
  match data_shape, data_dtype, dimensional_calibrations dm with
  | Some dshape, Some dt, Some cals =>
      if negb (Image.is_shape_and_dtype_valid data_shape data_dtype) then ret None
      else
        new_dimensional_calibrations <-
          (if (Nat.eqb (List.length dshape + 1) (List.length shape))
              && existsb (fun n => n =? -1) shape
           then reshape_one_more shape cals 0
           else if (Z.of_nat (List.length dshape) - 1 =? Z.of_nat (List.length shape))
                   && existsb (fun n => n =? 1) dshape
           then ret (reshape_one_fewer (combine dshape cals))
           else ret (map (fun _ => Calibration.uncalibrated) shape)) ;;
        d <- function_reshape_calculate_data dm shape ;;
        ret (Some (new_data_and_metadata d (intensity_calibration dm)
                     (Some new_dimensional_calibrations) (metadata dm)))
  | _, _, _ => ret None
  end.


Definition scipy_ndimage_sobel (d : ndarray) : M ndarray :=
  invoke "scipy.ndimage.sobel" d
    (mk_ndarray (nd_shape d) (nd_dtype d) (k_sobel K d)).

Definition scipy_ndimage_laplace (d : ndarray) : M ndarray :=
  invoke "scipy.ndimage.laplace" d
    (mk_ndarray (nd_shape d) (nd_dtype d) (k_laplace K d)).

Definition scipy_ndimage_gaussian_filter (d : ndarray) (sigma : float) : M ndarray :=
  invoke "scipy.ndimage.gaussian_filter" d
    (mk_ndarray (nd_shape d) (nd_dtype d) (k_gaussian_filter K d sigma)).

Definition scipy_ndimage_median_filter (d : ndarray) (size : Z) : M ndarray :=
  invoke "scipy.ndimage.median_filter" d
    (mk_ndarray (nd_shape d) (nd_dtype d) (k_median_filter K d size)).

Definition scipy_ndimage_uniform_filter (d : ndarray) (size : Z) : M ndarray :=
  invoke "scipy.ndimage.uniform_filter" d
    (mk_ndarray (nd_shape d) (nd_dtype d) (k_uniform_filter K d size)).

(** The body shared, word for word, by the closures [calculate_data] of
    [function_sobel], [function_laplace], [function_median_filter] and
    [function_uniform_filter], [flt] being the scipy routine of each:
    an RGB payload is filtered channel by channel; so is an RGBA
    payload, whose fourth channel is copied; any other payload is
    filtered whole. *)
Definition filter_calculate_data (flt : ndarray -> M ndarray) (dm : DM)
  : M (option ndarray) :=
  match data dm with
  | None => ret None
  | Some d =>
      if negb (Image.is_data_valid d) then ret None
      else if Image.is_shape_and_dtype_rgb (nd_shape d) (nd_dtype d) then
        c0 <- flt (Numpy.channel d 0) ;;
        c1 <- flt (Numpy.channel d 1) ;;
        c2 <- flt (Numpy.channel d 2) ;;
        ret (Some (Numpy.stack_channels (removelast (nd_shape d)) [c0; c1; c2]))
      else if Image.is_shape_and_dtype_rgba (nd_shape d) (nd_dtype d) then
        c0 <- flt (Numpy.channel d 0) ;;
        c1 <- flt (Numpy.channel d 1) ;;
        c2 <- flt (Numpy.channel d 2) ;;
        ret (Some (Numpy.stack_channels (removelast (nd_shape d))
                     [c0; c1; c2; Numpy.channel d 3]))
      else
        c <- flt d ;; ret (Some c)
  end.

Definition function_sobel (dm : DM) : M DM :=
  d <- filter_calculate_data scipy_ndimage_sobel dm ;;
  ret (new_data_and_metadata d (intensity_calibration dm)
         (dimensional_calibrations dm) (metadata dm)).

Definition function_laplace (dm : DM) : M DM :=
  d <- filter_calculate_data scipy_ndimage_laplace dm ;;
  ret (new_data_and_metadata d (intensity_calibration dm)
         (dimensional_calibrations dm) (metadata dm)).

(** The closure [calculate_data] of [function_gaussian_blur]: no branch
    on the colour encoding. *)
Definition function_gaussian_blur_calculate_data (dm : DM) (sigma : float)
  : M (option ndarray) :=
  match data dm with
  | None => ret None
  | Some d =>
      if negb (Image.is_data_valid d) then ret None
      else c <- scipy_ndimage_gaussian_filter d sigma ;; ret (Some c)
  end.

Definition function_gaussian_blur (dm : DM) (sigma : float) : M DM :=
  d <- function_gaussian_blur_calculate_data dm sigma ;;
  ret (new_data_and_metadata d (intensity_calibration dm)
         (dimensional_calibrations dm) (metadata dm)).

(** [max(min(int(size), 999), 1)], [size] being a Python int. *)
Definition filter_size (size : Z) : Z := Z.max (Z.min size 999) 1.

Definition function_median_filter (dm : DM) (size : Z) : M DM :=
  let size := filter_size size in
  d <- filter_calculate_data (fun a => scipy_ndimage_median_filter a size) dm ;;
  ret (new_data_and_metadata d (intensity_calibration dm)
         (dimensional_calibrations dm) (metadata dm)).

Definition function_uniform_filter (dm : DM) (size : Z) : M DM :=
  let size := filter_size size in
  d <- filter_calculate_data (fun a => scipy_ndimage_uniform_filter a size) dm ;;
  ret (new_data_and_metadata d (intensity_calibration dm)
         (dimensional_calibrations dm) (metadata dm)).

(** [numpy.concatenate(arrays, axis)]: ValueError unless there is an
    array, the axis exists, and the arrays agree on every other axis. *)
Definition numpy_concatenate (arrays : list ndarray) (axis : Z) : M ndarray :=
  match arrays with
  | [] => raise ValueError
  | a0 :: _ =>
      let nd := Z.of_nat (List.length (nd_shape a0)) in
      let ax := if axis <? 0 then axis + nd else axis in
      if (ax <? 0) || (nd <=? ax) then raise ValueError
      else if negb (forallb (fun a => Numpy.joinable (Z.to_nat ax) (nd_shape a0) (nd_shape a))
                      arrays)
      then raise ValueError
      else ([KernelCall "numpy.concatenate" arrays],
            Ok (mk_ndarray (Numpy.joined_shape (Z.to_nat ax) (map nd_shape arrays))
                  (k_result_type K (map nd_dtype arrays))
                  (Numpy.joined_buf (Z.to_nat ax) arrays)))
  end.

(** [numpy.vstack(arrays)]. *)
Definition numpy_vstack (arrays : list ndarray) : M ndarray :=
  match numpy_concatenate (map Numpy.atleast_2d arrays) 0 with
  | (_, Ok r) => ([KernelCall "numpy.vstack" arrays], Ok r)
  | (_, Raise e) => raise e
  end.

Definition shape_eqb (s s' : list Z) : bool :=
  Nat.eqb (List.length s) (List.length s')
  && forallb (fun ab : Z * Z => fst ab =? snd ab) (combine s s').

Definition is_None {A : Type} (x : option A) : bool :=
  match x with None => true | Some _ => false end.

(** [t is None] for a tuple [t] (a slice of a shape): never. *)
Definition tuple_is_None (t : list Z) : bool := false.

(** [[dm.data for dm in l]], once no payload is None. *)
Definition data_list (l : list DM) : list ndarray :=
  flat_map (fun dm => match data dm with Some d => [d] | None => [] end) l.

(** The closure [calculate_data] of [function_concatenate]:
    [partial_shape] is the shape of the first input. *)
Definition function_concatenate_calculate_data (l : list DM)
    (partial_shape : list Z) (axis : Z) : M (option ndarray) :=
  if existsb (fun dm => is_None (data dm)) l then ret None
  else if forallb (fun dm => match data_shape dm with
                             | Some s => shape_eqb (tl s) (tl partial_shape)
                             | None => false
                             end) l
  then c <- numpy_concatenate (data_list l) axis ;; ret (Some c)
  else ret None.

Definition function_concatenate (l : list DM) (axis : Z) : M (option DM) :=
  match l with
  | [] => ret None
  | first :: _ =>
      if existsb (fun dm => is_None (data dm)) l then ret None
      else
        match data_shape first, dimensional_calibrations first with
        | None, _ => raise TypeError
        | Some partial_shape, cals =>
            if existsb (fun dm => match data_shape dm with
                                  | Some s => negb (shape_eqb s (tl partial_shape))
                                              && tuple_is_None (tl partial_shape)
                                  | None => tuple_is_None (tl partial_shape)
                                  end) l
            then ret None
            else
              match cals with
              | None => raise TypeError
              | Some cals =>
                  let dimensional_calibrations :=
                    map (fun ic : Z * Calib =>
                           if negb (fst ic =? axis) then Calibration.uncalibrated
                           else snd ic)
                      (enumerate cals) in
                  d <- function_concatenate_calculate_data l partial_shape axis ;;
                  ret (Some (new_data_and_metadata d (intensity_calibration first)
                               (Some dimensional_calibrations) []))
              end
        end
  end.

Definition function_hstack (l : list DM) : M (option DM) :=
  match l with
  | [] => ret None
  | first :: _ =>
      match data_shape first with
      | None => raise TypeError
      | Some partial_shape =>
          if (2 <=? List.length partial_shape)%nat
          then function_concatenate l 1
          else function_concatenate l 0
      end
  end.

(** The closure [calculate_data] of [function_vstack]. *)
Definition function_vstack_calculate_data (l : list DM) (partial_shape : list Z)
  : M (option ndarray) :=
  if existsb (fun dm => is_None (data dm)) l then ret None
  else
    n0 <- lift (getitem partial_shape 0) ;;
    same <- mapM (fun dm => match data_shape dm with
                            | Some s => m <- lift (getitem s 0) ;; ret (m =? n0)
                            | None => raise TypeError
                            end) l ;;
    if forallb (fun b : bool => b) same
    then c <- numpy_vstack (data_list l) ;; ret (Some c)
    else ret None.

Definition function_vstack (l : list DM) : M (option DM) :=
  match l with
  | [] => ret None
  | first :: _ =>
      match data_shape first with
      | None => raise TypeError
      | Some partial_shape =>
          if (2 <=? List.length partial_shape)%nat
          then function_concatenate l 0
          else if existsb (fun dm => is_None (data dm)) l then ret None
          else
            n0 <- lift (getitem partial_shape 0) ;;
            (* [dm.data_shape[0] != partial_shape[0] is None]: an int is
               never None, so no input is rejected here *)
            mapM (fun dm => match data_shape dm with
                            | Some s => lift (getitem s 0)
                            | None => raise TypeError
                            end) l ;;;
            match dimensional_calibrations first with
            | None => raise TypeError
            | Some cals =>
                c0 <- lift (getitem cals 0) ;;
                d <- function_vstack_calculate_data l partial_shape ;;
                ret (Some (new_data_and_metadata d (intensity_calibration first)
                             (Some [Calibration.uncalibrated; c0]) []))
            end
      end
  end.

(** The closure [calculate_data] of [function_pick].  The points of
    [nion.utils.Geometry] are not part of Core.py: [IntPoint(y, x)]
    holds [int(y)] and [int(x)]. *)
Definition function_pick_calculate_data (dm : DM) (position : float * float)
  : M (option ndarray) :=
  match data dm with
  | None => ret None
  | Some d =>
      if negb (Image.is_data_valid d) then ret None
      else
        let data_shape := nd_shape d in
        if negb (Nat.eqb (List.length data_shape) 3) then ret None
        else
          n1 <- lift (getitem data_shape 1) ;;
          n2 <- lift (getitem data_shape 2) ;;
          y <- lift (trunc (fst position * float_of_int n1)%float) ;;
          x <- lift (trunc (snd position * float_of_int n2)%float) ;;
          if (0 <=? y) && (y <? n1) && (0 <=? x) && (x <? n2)
          then c <- lift (Numpy.pick_column d y x) ;; ret (Some c)
          else
            c <- lift (Numpy.zeros [Numpy.DimTuple (Py.slice data_shape 0 (-2))]
                         (nd_dtype d)) ;;
            ret (Some c)
  end.

Definition function_pick (dm : DM) (position : float * float) : M (option DM) :=
  let data_shape := data_shape dm in
  let data_dtype := data_dtype dm in
  match data_shape, data_dtype, dimensional_calibrations dm with
  | Some shape, Some dt, Some cals =>
      if negb (Image.is_shape_and_dtype_valid data_shape data_dtype) then ret None
      else if negb (Nat.eqb (List.length shape) 3) then ret None
      else
        let dimensional_calibrations := Py.slice cals 0 (-2) in
        d <- function_pick_calculate_data dm position ;;
        ret (Some (new_data_and_metadata d (intensity_calibration dm)
                     (Some dimensional_calibrations) (metadata dm)))
  | _, _, _ => ret None
  end.

Definition numpy_linspace (start stop : float) (num : Z) : M ndarray :=
  if num <? 0 then raise ValueError
  else invoke_n "numpy.linspace" []
         (mk_ndarray [num] float64 (k_linspace K start stop num)).

(** [get_coordinates(start, end, n)], local to [function_line_profile]:
    the sample coordinates [(xx, yy)], [n] rows along a line of
    [floor(length)] points. *)
Definition get_coordinates (start end_ : Z * Z) (n : Z) : M (ndarray * ndarray) :=
  assert (0 <? n) ;;;
  p0 <- lift (pow2 (fst end_ - fst start)) ;;
  p1 <- lift (pow2 (snd end_ - snd start)) ;;
  length <- lift (Py.sqrt (p0 + p1)%float) ;;
  l <- lift (floor length) ;;
  a <- numpy_linspace 0%float length l ;;
  t <- numpy_linspace (float_of_int (- (n - 1)) * 0.5)%float
         (float_of_int (n - 1) * 0.5)%float n ;;
  dy <- truediv (float_of_int (fst end_ - fst start)) length ;;
  dx <- truediv (float_of_int (snd end_ - snd start)) length ;;
  let grid := k_line_grid K start dy dx a t in
  invoke_n "numpy.meshgrid" [a; t]
    (mk_ndarray [n; l] float64 (fst grid), mk_ndarray [n; l] float64 (snd grid)).

(** The closure [calculate_data] of [function_line_profile]; [vector]
    is (start, end), in fractions of the extents. *)
Definition function_line_profile_calculate_data (dm : DM)
    (vector : (float * float) * (float * float)) (integration_width : Z)
  : M (option ndarray) :=
  match data dm with
  | None => ret None
  | Some d =>
      if negb (Image.is_data_valid d) then ret None
      else
        d <- (if Image.is_data_rgb_type d
              then invoke "Image.convert_to_grayscale" d
                     (mk_ndarray (removelast (nd_shape d)) float64
                        (k_convert_to_grayscale K d))
              else ret d) ;;
        let (start, end_) := vector in
        let shape := nd_shape d in
        s0 <- lift (getitem shape 0) ;;
        s1 <- lift (getitem shape 1) ;;
        let actual_integration_width := Z.min (Z.max s0 s1) integration_width in
        sy <- lift (trunc (float_of_int s0 * fst start)%float) ;;
        sx <- lift (trunc (float_of_int s1 * snd start)%float) ;;
        ey <- lift (trunc (float_of_int s0 * fst end_)%float) ;;
        ex <- lift (trunc (float_of_int s1 * snd end_)%float) ;;
        p1 <- lift (pow2 (ex - sx)) ;;
        p0 <- lift (pow2 (ey - sy)) ;;
        length <- lift (Py.sqrt (p1 + p0)%float) ;;
        if PrimFloat.ltb 1%float length then
          xy <- get_coordinates (sy, sx) (ey, ex) actual_integration_width ;;
          let (xx, yy) := xy in
          samples <- invoke_n "scipy.ndimage.map_coordinates" [d; yy; xx]
                       (mk_ndarray (nd_shape yy) float64 (k_map_coordinates K d yy xx)) ;;
          if (1 <? List.length (nd_shape samples))%nat then
            s <- invoke "numpy.sum" samples
                   (mk_ndarray (tl (nd_shape samples)) float64 (k_sum_axis0 K samples)) ;;
            r <- invoke "numpy.true_divide" s
                   (mk_ndarray (nd_shape s) float64
                      (k_true_divide K s (float_of_int actual_integration_width))) ;;
            ret (Some r)
          else ret (Some samples)
        else ret (Some (mk_ndarray [1] float64 [SFloat 0%float]))
  end.

Definition function_line_profile (dm : DM)
    (vector : (float * float) * (float * float)) (integration_width : float)
  : M (option DM) :=
  integration_width <- lift (trunc integration_width) ;;
  assert (0 <? integration_width) ;;;
  let data_shape := data_shape dm in
  let data_dtype := data_dtype dm in
  match dimensional_calibrations dm with
  | Some cals =>
      if negb (Image.is_shape_and_dtype_valid data_shape data_dtype) then ret None
      else if negb (Nat.eqb (List.length cals) 2) then ret None
      else
        c1 <- lift (getitem cals 1) ;;
        let dimensional_calibrations :=
          [Calibration.mk 0%float (Calibration.scale c1) (Calibration.units c1)] in
        d <- function_line_profile_calculate_data dm vector integration_width ;;
        ret (Some (new_data_and_metadata d (intensity_calibration dm)
                     (Some dimensional_calibrations) (metadata dm)))
  | None => ret None
  end.

End Catalog.

(** ** The rest of the catalog *)

(** Further routines of numpy (and [Image.scaled]) the entries below
    call: what each does to the elements, the shapes being fixed where
    the routine is called. *)
Record ArrayRoutines : Type := {
  r_negative : ndarray -> list scalar;
  r_sum : ndarray -> list nat -> list scalar;
  r_sum_type : dtype -> dtype;
  r_average0_uint8 : ndarray -> list scalar;
  r_ptp : ndarray -> float;
  r_amin : ndarray -> float;
  r_subtract : ndarray -> float -> list scalar;
  r_multiply : ndarray -> float -> list scalar;
  r_add : ndarray -> float -> list scalar;
  r_float_type : dtype -> dtype;
  r_scaled : ndarray -> Z -> Z -> list scalar;
  r_histogram : ndarray -> Z -> outcome (list scalar);
  r_std : ndarray -> float;
  r_mean : ndarray -> float;
  r_divide : ndarray -> float -> list scalar;
  r_rfft2 : ndarray -> list scalar;
  r_conj : ndarray -> list scalar;
  r_multiply_arrays : ndarray -> ndarray -> list scalar;
  r_irfft2 : ndarray -> list scalar;
  r_fftshift : ndarray -> list scalar
}.

Section Rest.

Variable R : ArrayRoutines.

(** The closure [calculate_data] of [function_transpose_flip]; the
    transposed and flipped arrays are views, and the source is copied
    when none was made. *)
Definition function_transpose_flip_calculate_data (dm : DM)
    (transpose flip_v flip_h : bool) : M (option ndarray) :=
  match data dm with
  | None => ret None
  | Some d =>
      if negb (Image.is_data_valid d) then ret None
      else
        let two_axes := Nat.eqb (List.length (nd_shape d)) 2 in
        d1 <- (if transpose then
                 if Image.is_shape_and_dtype_rgb_type (nd_shape d) (nd_dtype d)
                 then lift (Numpy.transpose_10 d)
                 else if two_axes then lift (Numpy.transpose_10 d)
                 else ret d
               else ret d) ;;
        d2 <- (if flip_h && two_axes then lift (Numpy.fliplr d1) else ret d1) ;;
        d3 <- (if flip_v && two_axes then lift (Numpy.flipud d2) else ret d2) ;;
        ret (Some d3)
  end.

Definition function_transpose_flip (dm : DM) (transpose flip_v flip_h : bool)
  : M (option DM) :=
  let data_shape := data_shape dm in
  let data_dtype := data_dtype dm in
  if negb (Image.is_shape_and_dtype_valid data_shape data_dtype) then ret None
  else
    dimensional_calibrations <-
      (if transpose then
         match dimensional_calibrations dm with
         | Some cals => ret (Some (rev cals))
         | None => raise TypeError
         end
       else ret (dimensional_calibrations dm)) ;;
    d <- function_transpose_flip_calculate_data dm transpose flip_v flip_h ;;
    ret (Some (new_data_and_metadata d (intensity_calibration dm)
                 dimensional_calibrations (metadata dm))).

(** [255 - a[:]] on a uint8 array. *)
Definition numpy_rsub_255 (a : ndarray) : M ndarray :=
  invoke "numpy.subtract" a
    (mk_ndarray (nd_shape a) (nd_dtype a) (map Numpy.uint8_rsub (nd_buf a))).

(** [-a[:]]. *)
Definition numpy_negative (a : ndarray) : M ndarray :=
  invoke "numpy.negative" a (mk_ndarray (nd_shape a) (nd_dtype a) (r_negative R a)).

(** The closure [calculate_data] of [function_invert]. *)
Definition function_invert_calculate_data (dm : DM) : M (option ndarray) :=
  match data dm with
  | None => ret None
  | Some d =>
      if negb (Image.is_data_valid d) then ret None
      else if Image.is_shape_and_dtype_rgb_type (nd_shape d) (nd_dtype d) then
        if Image.is_data_rgba d then
          inverted <- numpy_rsub_255 d ;;
          ret (Some (Numpy.set_channel inverted 3 (Numpy.channel d 3)))
        else
          inverted <- numpy_rsub_255 d ;; ret (Some inverted)
      else
        c <- numpy_negative d ;; ret (Some c)
  end.

Definition function_invert (dm : DM) : M (option DM) :=
  let data_shape := data_shape dm in
  let data_dtype := data_dtype dm in
  if negb (Image.is_shape_and_dtype_valid data_shape data_dtype) then ret None
  else
    let dimensional_calibrations := dimensional_calibrations dm in
    d <- function_invert_calculate_data dm ;;
    ret (Some (new_data_and_metadata d (intensity_calibration dm)
                 dimensional_calibrations (metadata dm))).

(** The [axis] argument of [function_sum]: None, an int or a tuple of
    ints. *)
Inductive axis_arg : Type :=
| AxisNone
| AxisInt (i : Z)
| AxisTuple (l : list Z).

Fixpoint normalize_axes (nd : nat) (l : list Z) : outcome (list nat) :=
  match l with
  | [] => Ok []
  | i :: l' =>
      match Numpy.normalize_axis nd i, normalize_axes nd l' with
      | Ok a, Ok r => if existsb (Nat.eqb a) r then Raise ValueError else Ok (a :: r)
      | Raise e, _ => Raise e
      | _, Raise e => Raise e
      end
  end.

(** [numpy.sum(a, axis)]: the axes summed over leave the shape; they
    must exist and be distinct (ValueError otherwise). *)
Definition numpy_sum (a : ndarray) (axis : axis_arg) : M ndarray :=
  let nd := List.length (nd_shape a) in
  axes <- lift (match axis with
                | AxisNone => Ok (seq 0 nd)
                | AxisInt i => match Numpy.normalize_axis nd i with
                               | Ok k => Ok [k]
                               | Raise e => Raise e
                               end
                | AxisTuple l => normalize_axes nd l
                end) ;;
  invoke "numpy.sum" a
    (mk_ndarray (Numpy.remove_axes axes (nd_shape a)) (r_sum_type R (nd_dtype a))
       (r_sum R a axes)).



(** [numpy.average(plane, 0)], assigned to a column of a uint8 image. *)
Definition numpy_average0 (plane : ndarray) : M ndarray :=
  invoke "numpy.average" plane
    (mk_ndarray (tl (nd_shape plane)) uint8 (r_average0_uint8 R plane)).

(** The closure [calculate_data] of [function_sum]. *)
Definition function_sum_calculate_data (dm : DM) (axis : axis_arg)
  : M (option ndarray) :=
  match data dm with
  | None => ret None
  | Some d =>
      if negb (Image.is_data_valid d) then ret None
      else if Image.is_shape_and_dtype_rgb_type (nd_shape d) (nd_dtype d) then
        if Image.is_shape_and_dtype_rgb (nd_shape d) (nd_dtype d) then
          a0 <- numpy_average0 (Numpy.channel d 0) ;;
          a1 <- numpy_average0 (Numpy.channel d 1) ;;
          a2 <- numpy_average0 (Numpy.channel d 2) ;;
          ret (Some (Numpy.stack_channels (removelast (tl (nd_shape d))) [a0; a1; a2]))
        else
          a0 <- numpy_average0 (Numpy.channel d 0) ;;
          a1 <- numpy_average0 (Numpy.channel d 1) ;;
          a2 <- numpy_average0 (Numpy.channel d 2) ;;
          a3 <- numpy_average0 (Numpy.channel d 3) ;;
          ret (Some (Numpy.stack_channels (removelast (tl (nd_shape d)))
                       [a0; a1; a2; a3]))
      else
        s <- numpy_sum d axis ;; ret (Some s)
  end.

Definition function_sum (dm : DM) (axis : axis_arg) : M (option DM) :=
  let data_shape := data_shape dm in
  let data_dtype := data_dtype dm in
  match dimensional_calibrations dm with
  | Some cals =>
      if negb (Image.is_shape_and_dtype_valid data_shape data_dtype) then ret None
      else
        let new_dimensional_calibrations :=
          match axis with
          | AxisInt i =>
              map snd (filter (fun ic : Z * Calib => negb (fst ic =? i)) (enumerate cals))
          | AxisTuple axes =>
              map snd (filter (fun ic : Z * Calib =>
                                 negb (existsb (Z.eqb (fst ic)) axes))
                         (enumerate cals))
          | AxisNone => []
          end in
        d <- function_sum_calculate_data dm axis ;;
        ret (Some (new_data_and_metadata d (intensity_calibration dm)
                     (Some new_dimensional_calibrations) (metadata dm)))
  | None => ret None
  end.

(** The closure [calculate_data] of [function_rescale]. *)
Definition function_rescale_calculate_data (dm : DM) (data_range : float * float)
  : M (option ndarray) :=
  match data dm with
  | None => ret None
  | Some d =>
      if negb (Image.is_data_valid d) then ret None
      else
        data_ptp <- invoke_n "numpy.ptp" [d] (r_ptp R d) ;;
        let data_ptp_i :=
          if negb (PrimFloat.eqb data_ptp 0%float) then (1 / data_ptp)%float
          else 1%float in
        data_min <- invoke_n "numpy.amin" [d] (r_amin R d) ;;
        let data_span := (snd data_range - fst data_range)%float in
        let ft := r_float_type R (nd_dtype d) in
        a <- invoke "numpy.subtract" d
               (mk_ndarray (nd_shape d) ft (r_subtract R d data_min)) ;;
        if PrimFloat.eqb data_span 1%float && PrimFloat.eqb (fst data_range) 0%float
        then
          b <- invoke "numpy.multiply" a
                 (mk_ndarray (nd_shape d) ft (r_multiply R a data_ptp_i)) ;;
          ret (Some b)
        else
          let m := (data_span * data_ptp_i)%float in
          b <- invoke "numpy.multiply" a
                 (mk_ndarray (nd_shape d) ft (r_multiply R a m)) ;;
          c <- invoke "numpy.add" b
                 (mk_ndarray (nd_shape d) ft (r_add R b (fst data_range))) ;;
          ret (Some c)
  end.

Definition function_rescale (dm : DM) (data_range : option (float * float))
  : M (option DM) :=
  let data_range := match data_range with
                    | Some r => r
                    | None => (0%float, 1%float)
                    end in
  let data_shape := data_shape dm in
  let data_dtype := data_dtype dm in
  if negb (Image.is_shape_and_dtype_valid data_shape data_dtype) then ret None
  else
    let intensity_calibration := Calibration.uncalibrated in
    d <- function_rescale_calculate_data dm data_range ;;
    ret (Some (new_data_and_metadata d intensity_calibration
                 (dimensional_calibrations dm) (metadata dm))).

(** The closure [calculate_data] of [function_resample_2d];
    [Image.scaled] is not part of Core.py. *)
Definition function_resample_2d_calculate_data (dm : DM) (height width : Z)
  : M (option ndarray) :=
  match data dm with
  | None => ret None
  | Some d =>
      if negb (Image.is_data_valid d) then ret None
      else if negb (Image.is_data_2d d) then ret None
      else
        n0 <- lift (getitem (nd_shape d) 0) ;;
        n1 <- lift (getitem (nd_shape d) 1) ;;
        if (n0 =? height) && (n1 =? width) then ret (Some d)
        else
          c <- invoke "Image.scaled" d
                 (mk_ndarray (height :: width :: skipn 2 (nd_shape d)) (nd_dtype d)
                    (r_scaled R d height width)) ;;
          ret (Some c)
  end.

(** One element of the list comprehension of [function_resample_2d]. *)
Definition resample_calibration (cals : list Calib) (shape dimensions : list Z)
    (i : Z) : M Calib :=
  ci <- lift (getitem cals i) ;;
  ci' <- lift (getitem cals i) ;;
  n <- lift (getitem shape i) ;;
  dim <- lift (getitem dimensions i) ;;
  s <- truediv (Calibration.scale ci' * float_of_int n)%float (float_of_int dim) ;;
  ci'' <- lift (getitem cals i) ;;
  ret (Calibration.mk (Calibration.offset ci) s (Calibration.units ci'')).

Definition function_resample_2d (dm : DM) (shape : list Z) : M (option DM) :=
  height <- lift (getitem shape 0) ;;
  width <- lift (getitem shape 1) ;;
  let data_shape := data_shape dm in
  let data_dtype := data_dtype dm in
  match data_shape, data_dtype, dimensional_calibrations dm with
  | Some dshape, Some dt, Some cals =>
      if negb (Image.is_shape_and_dtype_valid data_shape data_dtype) then ret None
      else if negb (Image.is_shape_and_dtype_2d dshape dt) then ret None
      else
        let dimensions := [height; width] in
        resampled_dimensional_calibrations <-
          mapM (resample_calibration cals dshape dimensions)
            (map Z.of_nat (seq 0 (List.length cals))) ;;
        d <- function_resample_2d_calculate_data dm height width ;;
        ret (Some (new_data_and_metadata d (intensity_calibration dm)
                     (Some resampled_dimensional_calibrations) (metadata dm)))
  | _, _, _ => ret None
  end.

(** [numpy.histogram(d, bins=bins)[0].astype(numpy.int)]: the routine
    is called with whatever [bins] the caller gave; inside, it raises
    ValueError unless [bins] is positive, and it may raise on the
    elements (it does when their range is not finite). *)
Definition numpy_histogram (d : ndarray) (bins : Z) : M ndarray :=
  ([KernelCall "numpy.histogram" [d]],
   if bins <? 1 then Raise ValueError
   else match r_histogram R d bins with
        | Ok counts => Ok (mk_ndarray [bins] int64 counts)
        | Raise e => Raise e
        end).

(** The closure [calculate_data] of [function_histogram]. *)
Definition function_histogram_calculate_data (dm : DM) (bins : Z)
  : M (option ndarray) :=
  match data dm with
  | None => ret None
  | Some d =>
      if negb (Image.is_data_valid d) then ret None
      else c <- numpy_histogram d bins ;; ret (Some c)
  end.

Definition function_histogram (dm : DM) (bins : Z) : M (option DM) :=
  let data_shape := data_shape dm in
  let data_dtype := data_dtype dm in
  match dimensional_calibrations dm with
  | Some _ =>
      if negb (Image.is_shape_and_dtype_valid data_shape data_dtype) then ret None
      else
        let dimensional_calibrations := [Calibration.uncalibrated] in
        d <- function_histogram_calculate_data dm bins ;;
        ret (Some (new_data_and_metadata d (intensity_calibration dm)
                     (Some dimensional_calibrations) (metadata dm)))
  | None => ret None
  end.

(** The shape after [numpy.fft.rfft2] and after [numpy.fft.irfft2]: the
    last axis of extent n becomes one of extent n // 2 + 1, and one of
    extent m becomes one of extent 2 * (m - 1). *)
Definition rfft2_shape (shape : list Z) : list Z :=
  (removelast shape ++ [last shape 0 / 2 + 1])%list.

Definition irfft2_shape (shape : list Z) : list Z :=
  (removelast shape ++ [2 * (last shape 0 - 1)])%list.










End Rest.









End Core.

(** * The rules in the words of the specification *)

Import DataAndMetadata.
Import Core.

(** The calibration the forward transform gives an axis of length [n]
    whose source calibration is [c]: offset -0.5/scale, scale
    1/(scale*n), units "1/" + units. *)
Definition fft_axis_calibration (c : Calib) (n : Z) : Calib :=
  Calibration.mk (-0.5 / Calibration.scale c)%float
    (1 / (Calibration.scale c * float_of_int n))%float
    ("1/" ++ Calibration.units c).

(** Both divisions of the rule are defined on this axis. *)
Definition fft_divisors_nonzero (cn : Calib * Z) : Prop :=
  is_zero (Calibration.scale (fst cn)) = false
  /\ is_zero (Calibration.scale (fst cn) * float_of_int (snd cn))%float = false.

(** The calibration the inverse transform gives an axis of length [n]
    whose source calibration is [c]: offset 0, scale 1/(scale*n), units
    with a leading "1/" stripped, or prepended when there is none. *)
Definition ifft_axis_calibration (c : Calib) (n : Z) : Calib :=
  Calibration.mk 0%float
    (1 / (Calibration.scale c * float_of_int n))%float
    (remove_one_slash (Calibration.units c)).

(** The division of the inverse rule is defined on this axis. *)
Definition ifft_divisor_nonzero (cn : Calib * Z) : Prop :=
  is_zero (Calibration.scale (fst cn) * float_of_int (snd cn))%float = false.

(** Forward and back, all divisions of the two rules are defined. *)
Definition round_trip_divisors_nonzero (cn : Calib * Z) : Prop :=
  fft_divisors_nonzero cn
  /\ ifft_divisor_nonzero (fft_axis_calibration (fst cn) (snd cn), snd cn).

(** The calibration a crop gives an axis of extent [n] with source
    calibration [c], cropped from the fractional position [start]:
    offset + n * start * scale, scale and units unchanged. *)
Definition crop_axis_calibration (c : Calib) (n : Z) (start : float) : Calib :=
  Calibration.mk
    (Calibration.offset c + float_of_int n * start * Calibration.scale c)%float
    (Calibration.scale c) (Calibration.units c).

(** The result [r] carries the calibrations and the metadata of the
    source [dm]. *)
Definition keeps_calibrations (dm r : DM) : Prop :=
  intensity_calibration r = intensity_calibration dm
  /\ dimensional_calibrations r = dimensional_calibrations dm
  /\ metadata r = metadata dm.

(** A routine that returns one element for each element it is given. *)
Definition preserves_length (k : ndarray -> list scalar) : Prop :=
  forall a : ndarray, List.length (k a) = List.length (nd_buf a).

(** What a filter applied channel by channel makes of the RGBA payload
    [d]: its routine [k], named [name], is called on the three colour
    planes in turn; the result is an RGBA payload of the same shape
    whose colour planes are what the routine returned and whose alpha
    plane is the source's. *)
Definition filtered_per_channel (name : string) (k : ndarray -> list scalar)
    (d : ndarray) (m : M DM) : Prop :=
  exists (r : DM) (c : ndarray),
    m = ([KernelCall name [Numpy.channel d 0];
          KernelCall name [Numpy.channel d 1];
          KernelCall name [Numpy.channel d 2]], Ok r)
    /\ data r = Some c
    /\ nd_shape c = nd_shape d
    /\ nd_dtype c = uint8
    /\ Numpy.channel c 3 = Numpy.channel d 3
    /\ forall i : nat, (i < 3)%nat ->
         nd_buf (Numpy.channel c i) = k (Numpy.channel d i).

(** The calibrations of a join along axis 0: the first is kept, the
    others are uncalibrated. *)
Definition joined_calibrations (cals : list Calib) : list Calib :=
  match cals with
  | [] => []
  | c0 :: cs => c0 :: map (fun _ => Calibration.uncalibrated) cs
  end.

(** The sum of the first extents of the arrays. *)
Definition total_first_extent (ds : list ndarray) : Z :=
  fold_right Z.add 0 (map (fun d => hd 0 (nd_shape d)) ds).

(** The buffer of [d] holds one element for each index of its shape. *)
Definition well_formed (d : ndarray) : Prop :=
  List.length (nd_buf d) = Z.to_nat (Numpy.size_of (nd_shape d)).

(** Every element of [d] is an integer of the uint8 range. *)
Definition uint8_elements (d : ndarray) : bool :=
  forallb (fun x => match x with
                    | SInt z => (0 <=? z) && (z <? 256)
                    | _ => false
                    end) (nd_buf d).

(** The list [l] without its item [k]. *)
Definition without_item {A : Type} (k : nat) (l : list A) : list A :=
  (firstn k l ++ skipn (S k) l)%list.


(** The calibration of an axis of extent [n] resampled to the extent
    [target]: the scale grows by n / target, offset and units stay. *)
Definition resampled_calibration (c : Calib) (n target : Z) : Calib :=
  Calibration.mk (Calibration.offset c)
    (Calibration.scale c * float_of_int n / float_of_int target)%float
    (Calibration.units c).

(** The division of the rule above is defined for the extent [target]. *)
Definition resample_divisor_nonzero (target : Z) : Prop :=
  is_zero (float_of_int target) = false.


(** A grid of [h] rows of [w] pixels of [c] elements each. *)
Definition regular_grid (h w c : nat) (g : list (list (list scalar))) : Prop :=
  List.length g = h
  /\ Forall (fun row => List.length row = w
                        /\ Forall (fun px : list scalar => List.length px = c) row) g.



(** numpy.average returns one element per column of each of the three
    colour planes of [d]. *)
Definition averages_per_column (R : ArrayRoutines) (d : ndarray) : Prop :=
  forall j : nat, (j < 3)%nat ->
    List.length (r_average0_uint8 R (Numpy.channel d j))
    = Z.to_nat (Numpy.size_of (tl (nd_shape (Numpy.channel d j)))).

(** * Sample inputs *)

(** A stand-in kernel for concrete runs: every routine hands back the
    elements it was given. *)
Definition plain_kernel : NumericKernel := {|
  k_fft := nd_buf;
  k_fft2 := nd_buf;
  k_ifft := nd_buf;
  k_ifft2 := nd_buf;
  k_fftshift := nd_buf;
  k_ifftshift := nd_buf;
  k_multiply := fun d _ => nd_buf d;
  k_sobel := nd_buf;
  k_laplace := nd_buf;
  k_gaussian_filter := fun d _ => nd_buf d;
  k_median_filter := fun d _ => nd_buf d;
  k_uniform_filter := fun d _ => nd_buf d;
  k_convert_to_grayscale := nd_buf;
  k_result_type := fun ts => hd float64 ts;
  k_linspace := fun start _ num => repeat (SFloat start) (Z.to_nat num);
  k_line_grid := fun _ _ _ a t =>
    let g := flat_map (fun _ => nd_buf a) (nd_buf t) in (g, g);
  k_map_coordinates := fun d yy _ => map (fun _ => hd (SInt 0) (nd_buf d)) (nd_buf yy);
  k_sum_axis0 := fun d => firstn (Z.to_nat (Numpy.size_of (tl (nd_shape d)))) (nd_buf d);
  k_true_divide := fun d _ => nd_buf d
|}.

Definition nm : Calib := Calibration.mk 0%float 1%float "nm".

(** A 4x4 float image calibrated in nm on both axes. *)
Definition image_4x4 : ndarray :=
  mk_ndarray [4; 4] float64 (repeat (SFloat 1%float) 16).

Definition dm_4x4 : DM :=
  DataAndMetadata.mk (Some image_4x4) Calibration.uncalibrated (Some [nm; nm]) [].

(** A 10x10 float image calibrated in nm on its first axis. *)
Definition image_10x10 : ndarray :=
  mk_ndarray [10; 10] float64 (repeat (SFloat 1%float) 100).

Definition dm_10x10 : DM :=
  DataAndMetadata.mk (Some image_10x10) Calibration.uncalibrated
    (Some [nm; Calibration.uncalibrated]) [].

Definition crop_bounds : bounds_t := ((0.2, 0), (0.5, 1))%float.

(** A 10-sample float spectrum calibrated in nm. *)
Definition line_10 : ndarray :=
  mk_ndarray [10] float64 (repeat (SFloat 1%float) 10).

Definition dm_10 : DM :=
  DataAndMetadata.mk (Some line_10) Calibration.uncalibrated (Some [nm]) [].

(** A 1x1x5 float array with a calibration on each of its three axes. *)
Definition array_1x1x5 : ndarray :=
  mk_ndarray [1; 1; 5] float64 (repeat (SFloat 1%float) 5).

Definition dm_1x1x5 : DM :=
  DataAndMetadata.mk (Some array_1x1x5) Calibration.uncalibrated
    (Some [Calibration.mk 0%float 2%float "s"; nm;
           Calibration.mk 0%float 0.5%float "eV"]) [].


(** A stand-in kernel that changes what it is given: every routine
    hands back zeros. *)
Definition blanking_kernel : NumericKernel :=
  let blank := fun d : ndarray => map (fun _ => SInt 0) (nd_buf d) in {|
  k_fft := blank;
  k_fft2 := blank;
  k_ifft := blank;
  k_ifft2 := blank;
  k_fftshift := blank;
  k_ifftshift := blank;
  k_multiply := fun d _ => blank d;
  k_sobel := blank;
  k_laplace := blank;
  k_gaussian_filter := fun d _ => blank d;
  k_median_filter := fun d _ => blank d;
  k_uniform_filter := fun d _ => blank d;
  k_convert_to_grayscale := blank;
  k_result_type := fun ts => hd float64 ts;
  k_linspace := fun _ _ num => repeat (SInt 0) (Z.to_nat num);
  k_line_grid := fun _ _ _ a t =>
    let g := flat_map (fun _ => blank a) (nd_buf t) in (g, g);
  k_map_coordinates := fun _ yy _ => blank yy;
  k_sum_axis0 := fun d => firstn (Z.to_nat (Numpy.size_of (tl (nd_shape d)))) (blank d);
  k_true_divide := fun d _ => blank d
|}.

(** A 1x2 RGBA image: two pixels with alpha 255 and 128. *)
Definition image_rgba : ndarray :=
  mk_ndarray [1; 2; 4] uint8
    [SInt 10; SInt 20; SInt 30; SInt 255; SInt 40; SInt 50; SInt 60; SInt 128].

Definition dm_rgba : DM :=
  DataAndMetadata.mk (Some image_rgba) Calibration.uncalibrated (Some [nm; nm]) [].

(** Float images of shapes (2, 3), (4, 3) and (2, 5), calibrated alike. *)
Definition float_image (shape : list Z) : ndarray :=
  mk_ndarray shape float64
    (repeat (SFloat 1%float) (Z.to_nat (Numpy.size_of shape))).

Definition calibrated (a : ndarray) : DM :=
  DataAndMetadata.mk (Some a) nm (Some [nm; Calibration.mk 1%float 2%float "s"]) [].

Definition dm_2x3 : DM := calibrated (float_image [2; 3]).
Definition dm_4x3 : DM := calibrated (float_image [4; 3]).
Definition dm_2x5 : DM := calibrated (float_image [2; 5]).

(** A stack of two 3x3 float images holding 0 .. 17. *)
Definition stack_2x3x3 : ndarray :=
  mk_ndarray [2; 3; 3] float64
    (map (fun i => SFloat (float_of_int (Z.of_nat i))) (seq 0 18)).

Definition dm_stack : DM :=
  DataAndMetadata.mk (Some stack_2x3x3) Calibration.uncalibrated
    (Some [Calibration.mk 0%float 0.5%float "eV"; nm; nm]) [].

(** The diagonal of an image, as a line-profile vector. *)
Definition diagonal : (float * float) * (float * float) :=
  ((0, 0), (1, 1))%float.

(** The 4x4 image as a forward transform leaves it: complex elements,
    calibrated (-0.5, 0.25, "1/nm") on both axes. *)
Definition spectrum_4x4 : ndarray :=
  mk_ndarray [4; 4] complex128 (repeat (SComplex 1%float 0%float) 16).

Definition dm_spectrum_4x4 : DM :=
  DataAndMetadata.mk (Some spectrum_4x4) Calibration.uncalibrated
    (Some [Calibration.mk (-0.5)%float 0.25%float "1/nm";
           Calibration.mk (-0.5)%float 0.25%float "1/nm"]) [].

(** Stand-in routines for concrete runs: each hands back the elements
    it was given, cut or filled to the element count of its result. *)
Definition plain_routines : ArrayRoutines := {|
  r_negative := nd_buf;
  r_sum := fun d axes =>
    repeat (SFloat 0%float)
      (Z.to_nat (Numpy.size_of (Numpy.remove_axes axes (nd_shape d))));
  r_sum_type := fun t => t;
  r_average0_uint8 := fun d => firstn (Z.to_nat (Numpy.size_of (tl (nd_shape d)))) (nd_buf d);
  r_ptp := fun _ => 1%float;
  r_amin := fun _ => 0%float;
  r_subtract := fun d _ => nd_buf d;
  r_multiply := fun d _ => nd_buf d;
  r_add := fun d _ => nd_buf d;
  r_float_type := fun _ => float64;
  r_scaled := fun d h w =>
    repeat (hd (SInt 0) (nd_buf d))
      (Z.to_nat (h * w * Numpy.size_of (skipn 2 (nd_shape d))));
  r_histogram := fun d bins =>
    Ok (SInt (Z.of_nat (List.length (nd_buf d)))
          :: repeat (SInt 0) (Z.to_nat (bins - 1)));
  r_std := fun _ => 0%float;
  r_mean := fun _ => 0%float;
  r_divide := fun d _ => nd_buf d;
  r_rfft2 := fun d =>
    repeat (SComplex 0%float 0%float)
      (Z.to_nat (Numpy.size_of (rfft2_shape (nd_shape d))));
  r_conj := nd_buf;
  r_multiply_arrays := fun a _ => nd_buf a;
  r_irfft2 := fun d =>
    repeat (SFloat 0%float) (Z.to_nat (Numpy.size_of (irfft2_shape (nd_shape d))));
  r_fftshift := nd_buf
|}.

(** A 2x3 float image holding 0 .. 5, calibrated in nm and in s. *)
Definition image_2x3 : ndarray :=
  mk_ndarray [2; 3] float64
    (map (fun i => SFloat (float_of_int (Z.of_nat i))) (seq 0 6)).

Definition dm_image_2x3 : DM := calibrated image_2x3.

(** A 1x2 RGB image. *)
Definition image_rgb : ndarray :=
  mk_ndarray [1; 2; 3] uint8
    [SInt 10; SInt 20; SInt 30; SInt 40; SInt 50; SInt 255].

Definition dm_rgb : DM :=
  DataAndMetadata.mk (Some image_rgb) Calibration.uncalibrated (Some [nm; nm]) [].

(** * Properties *)

(** ** Running computations *)

Lemma bind_ret {A B : Type} (a : A) (f : A -> M B) : bind (ret a) f = f a.
Proof. unfold bind, ret. destruct (f a) as [t r]. reflexivity. Qed.

Lemma bind_pure {A B : Type} (a : A) (f : A -> M B) : bind ([], Ok a) f = f a.
Proof. apply bind_ret. Qed.

Ltac run_pure := unfold lift; rewrite ?bind_pure, ?bind_ret.

Lemma bind_raise {A B : Type} (e : exn) (f : A -> M B) :
  bind (raise e) f = raise e.
Proof. reflexivity. Qed.


Lemma result_bind_raise {A B : Type} (m : M A) (f : A -> M B) (e : exn) :
  result m = Raise e -> result (bind m f) = Raise e.
Proof. destruct m as [t o]. simpl. intros ->. reflexivity. Qed.

Lemma calls_bind_ok {A B : Type} (m : M A) (f : A -> M B) (a : A) :
  result m = Ok a -> calls (bind m f) = (calls m ++ calls (f a))%list.
Proof.
  destruct m as [t o]. simpl. intros ->. simpl.
  destruct (f a) as [t' r]. reflexivity.
Qed.

Lemma getitem_0 {A : Type} (a : A) (l : list A) : getitem (a :: l) 0 = Ok a.
Proof.
  unfold getitem. cbn [List.length].
  replace (0 <? 0) with false by reflexivity.
  replace (0 <? 0) with false by reflexivity.
  destruct (Z.of_nat (S (List.length l)) <=? 0) eqn:E; [apply Z.leb_le in E; lia|].
  reflexivity.
Qed.

Lemma getitem_1 {A : Type} (a b : A) (l : list A) : getitem (a :: b :: l) 1 = Ok b.
Proof.
  unfold getitem. cbn [List.length].
  replace (1 <? 0) with false by reflexivity.
  destruct (Z.of_nat (S (S (List.length l))) <=? 1) eqn:E; [apply Z.leb_le in E; lia|].
  reflexivity.
Qed.

(** ** Forward Fourier transform *)

Lemma mapM_fft_calibration (l : list (Calib * Z)) :
  Forall fft_divisors_nonzero l ->
  mapM fft_calibration l
  = ret (map (fun cn => fft_axis_calibration (fst cn) (snd cn)) l).
Proof.
  induction 1 as [|[c n] l [Hs Hp] _ IH]; [reflexivity|].
  cbn [mapM map fst snd] in *. rewrite IH.
  unfold fft_calibration, truediv. rewrite Hs, Hp.
  reflexivity.
Qed.

Lemma is_data_1d_valid (d : ndarray) :
  Image.is_data_1d d = true -> Image.is_data_valid d = true.
Proof.
  unfold Image.is_data_1d, Image.is_shape_and_dtype_1d, Image.is_data_valid.
  intros H. apply andb_true_iff in H. tauto.
Qed.

Lemma is_data_2d_valid (d : ndarray) :
  Image.is_data_2d d = true -> Image.is_data_valid d = true.
Proof.
  unfold Image.is_data_2d, Image.is_shape_and_dtype_2d, Image.is_data_valid.
  intros H. apply andb_true_iff in H. tauto.
Qed.

Lemma length_removelast {A : Type} (l : list A) :
  List.length (removelast l) = Nat.pred (List.length l).
Proof.
  induction l as [|a [|b l] IH]; try reflexivity.
  change (removelast (a :: b :: l)) with (a :: removelast (b :: l)).
  cbn [List.length] in *. rewrite IH. reflexivity.
Qed.

Lemma dimensional_shape_length_le (s : list Z) (t : dtype) :
  (List.length (Image.dimensional_shape_from_shape_and_dtype s t)
   <= List.length s)%nat.
Proof.
  unfold Image.dimensional_shape_from_shape_and_dtype.
  destruct (Image.is_shape_and_dtype_rgb_type s t); [|lia].
  rewrite length_removelast. lia.
Qed.

(** On a rank-1 or rank-2 payload the forward transform's payload
    computation returns a complex array of the source's shape, after
    calling the kernel. *)
Lemma function_fft_calculate_data_returns (K : NumericKernel) (dm : DM) (d : ndarray) :
  data dm = Some d ->
  Image.is_data_1d d || Image.is_data_2d d = true ->
  exists t c, function_fft_calculate_data K dm = (t, Ok (Some c))
              /\ nd_shape c = nd_shape d /\ nd_dtype c = complex128
              /\ exists name t', t = KernelCall name [d] :: t'.
Proof.
  intros Hd H. unfold function_fft_calculate_data. rewrite Hd.
  destruct (Image.is_data_1d d) eqn:H1.
  - rewrite (is_data_1d_valid _ H1). cbn [negb].
    pose proof H1 as H1'.
    unfold Image.is_data_1d, Image.is_shape_and_dtype_1d in H1'.
    apply andb_true_iff in H1'. destruct H1' as [_ Hl].
    apply Nat.eqb_eq in Hl.
    pose proof (dimensional_shape_length_le (nd_shape d) (nd_dtype d)) as Hle.
    destruct (nd_shape d) as [|a s] eqn:Es; [simpl in Hle; lia|].
    rewrite getitem_0. unfold lift. rewrite bind_pure.
    eexists _, _. split; [reflexivity|].
    split; [simpl; congruence|]. split; [reflexivity|].
    eexists _, _. reflexivity.
  - simpl in H. rewrite H. rewrite (is_data_2d_valid _ H). cbn [negb].
    pose proof H as H2'.
    unfold Image.is_data_2d, Image.is_shape_and_dtype_2d in H2'.
    apply andb_true_iff in H2'. destruct H2' as [_ Hl].
    apply Nat.eqb_eq in Hl.
    pose proof (dimensional_shape_length_le (nd_shape d) (nd_dtype d)) as Hle.
    destruct (nd_shape d) as [|a [|b s]] eqn:Es; [simpl in Hle; lia| simpl in Hle; lia|].
    rewrite getitem_1, getitem_0. unfold lift. rewrite !bind_pure.
    eexists _, _. split; [reflexivity|].
    split; [simpl; congruence|]. split; [reflexivity|].
    eexists _, _. reflexivity.
Qed.

(** What [function_fft] returns on a rank-1 or rank-2 input, and that it
    has called the kernel by then. *)
Lemma function_fft_returns (K : NumericKernel) (dm : DM) (d : ndarray)
    (cals : list Calib) :
  data dm = Some d ->
  dimensional_calibrations dm = Some cals ->
  Image.is_data_1d d || Image.is_data_2d d = true ->
  List.length cals = rank d ->
  Forall fft_divisors_nonzero (combine cals (nd_shape d)) ->
  exists t c,
    function_fft K dm
    = (t, Ok (Some (new_data_and_metadata (Some c) Calibration.uncalibrated
                      (Some (map (fun cn => fft_axis_calibration (fst cn) (snd cn))
                               (combine cals (nd_shape d)))) [])))
    /\ nd_shape c = nd_shape d /\ nd_dtype c = complex128
    /\ exists name t', t = KernelCall name [d] :: t'.
Proof.
  intros Hd Hc H12 Hlen Hdiv.
  destruct (function_fft_calculate_data_returns K dm d Hd H12)
    as (t & c & Hcalc & Hs & Ht & Hne).
  assert (Hvalid : Image.is_data_valid d = true).
  { apply orb_true_iff in H12. destruct H12 as [H|H];
      [apply is_data_1d_valid | apply is_data_2d_valid]; exact H. }
  unfold function_fft, data_shape, data_dtype. rewrite Hd, Hc. cbn [option_map].
  unfold Image.is_data_valid in Hvalid. rewrite Hvalid. cbn [negb].
  unfold rank in Hlen. rewrite Hlen, Nat.eqb_refl.
  unfold assert. rewrite bind_ret.
  rewrite (mapM_fft_calibration _ Hdiv), bind_ret.
  rewrite Hcalc.
  exists t, c. split; [|auto].
  unfold bind, ret. simpl. rewrite app_nil_r. reflexivity.
Qed.

(** C1. On a valid rank-1 or rank-2 input with its dimensional
    calibrations present (one per data axis, each with the divisions of
    the rule defined), [function_fft] returns a result whose calibration
    on each axis of length N with source calibration (offset, scale,
    units) is (-0.5/scale, 1/(scale*N), "1/"+units), and whose intensity
    calibration is the uncalibrated (0, 1, ""). *)
Theorem function_fft_calibrations (K : NumericKernel) (dm : DM) (d : ndarray)
    (cals : list Calib) :
  data dm = Some d ->
  dimensional_calibrations dm = Some cals ->
  Image.is_data_1d d || Image.is_data_2d d = true ->
  List.length cals = rank d ->
  Forall fft_divisors_nonzero (combine cals (nd_shape d)) ->
  exists r : DM,
    result (function_fft K dm) = Ok (Some r)
    /\ dimensional_calibrations r
       = Some (map (fun cn => fft_axis_calibration (fst cn) (snd cn))
                 (combine cals (nd_shape d)))
    /\ intensity_calibration r = Calibration.uncalibrated.
Proof.
  intros Hd Hc H12 Hlen Hdiv.
  destruct (function_fft_returns K dm d cals Hd Hc H12 Hlen Hdiv) as (t & c & E & _).
  rewrite E. eexists. split; [reflexivity|]. split; reflexivity.
Qed.

(** C1 on the 4x4 scenario: axis calibrations (0, 1, "nm") become
    (-0.5, 0.25, "1/nm"), the intensity calibration (0, 1, ""). *)
Lemma function_fft_calibrations_4x4 :
  exists r : DM,
    result (function_fft plain_kernel dm_4x4) = Ok (Some r)
    /\ dimensional_calibrations r
       = Some [Calibration.mk (-0.5)%float 0.25%float "1/nm";
               Calibration.mk (-0.5)%float 0.25%float "1/nm"]
    /\ intensity_calibration r = Calibration.mk 0%float 1%float "".
Proof.
  apply (function_fft_calibrations plain_kernel dm_4x4 image_4x4 [nm; nm]).
  - reflexivity.
  - reflexivity.
  - vm_compute. reflexivity.
  - reflexivity.
  - repeat constructor; vm_compute; reflexivity.
Defined.

(** ** Inverse Fourier transform and the round trip of units *)

Lemma remove_one_slash_prepended (u : string) : remove_one_slash ("1/" ++ u) = u.
Proof.
  unfold remove_one_slash, startswith. destruct u; reflexivity.
Qed.

Lemma mapM_ifft_calibration (l : list (Calib * Z)) :
  Forall ifft_divisor_nonzero l ->
  mapM ifft_calibration l
  = ret (map (fun cn => ifft_axis_calibration (fst cn) (snd cn)) l).
Proof.
  induction 1 as [|[c n] l Hp _ IH]; [reflexivity|].
  unfold ifft_divisor_nonzero in Hp.
  cbn [mapM map fst snd] in *. rewrite IH.
  unfold ifft_calibration, truediv. rewrite Hp.
  reflexivity.
Qed.

Lemma function_ifft_calculate_data_returns (K : NumericKernel) (dm : DM) (d : ndarray) :
  data dm = Some d ->
  Image.is_data_1d d || Image.is_data_2d d = true ->
  exists t c, function_ifft_calculate_data K dm = (t, Ok (Some c))
              /\ nd_shape c = nd_shape d.
Proof.
  intros Hd H. unfold function_ifft_calculate_data. rewrite Hd.
  destruct (Image.is_data_1d d) eqn:H1.
  - rewrite (is_data_1d_valid _ H1). cbn [negb].
    pose proof H1 as H1'.
    unfold Image.is_data_1d, Image.is_shape_and_dtype_1d in H1'.
    apply andb_true_iff in H1'. destruct H1' as [_ Hl].
    apply Nat.eqb_eq in Hl.
    pose proof (dimensional_shape_length_le (nd_shape d) (nd_dtype d)) as Hle.
    destruct (nd_shape d) as [|a s] eqn:Es; [simpl in Hle; lia|].
    rewrite getitem_0. unfold lift. rewrite bind_pure.
    eexists _, _. split; [reflexivity|]. simpl; congruence.
  - simpl in H. rewrite H. rewrite (is_data_2d_valid _ H). cbn [negb].
    pose proof H as H2'.
    unfold Image.is_data_2d, Image.is_shape_and_dtype_2d in H2'.
    apply andb_true_iff in H2'. destruct H2' as [_ Hl].
    apply Nat.eqb_eq in Hl.
    pose proof (dimensional_shape_length_le (nd_shape d) (nd_dtype d)) as Hle.
    destruct (nd_shape d) as [|a [|b s]] eqn:Es; [simpl in Hle; lia| simpl in Hle; lia|].
    rewrite getitem_1, getitem_0. unfold lift. rewrite !bind_pure.
    eexists _, _. split; [reflexivity|]. simpl; congruence.
Qed.

(** What [function_ifft] returns on a rank-1 or rank-2 input. *)
Lemma function_ifft_returns (K : NumericKernel) (dm : DM) (d : ndarray)
    (cals : list Calib) :
  data dm = Some d ->
  dimensional_calibrations dm = Some cals ->
  Image.is_data_1d d || Image.is_data_2d d = true ->
  List.length cals = rank d ->
  Forall ifft_divisor_nonzero (combine cals (nd_shape d)) ->
  exists t c,
    function_ifft K dm
    = (t, Ok (Some (new_data_and_metadata (Some c) Calibration.uncalibrated
                      (Some (map (fun cn => ifft_axis_calibration (fst cn) (snd cn))
                               (combine cals (nd_shape d)))) []))).
Proof.
  intros Hd Hc H12 Hlen Hdiv.
  destruct (function_ifft_calculate_data_returns K dm d Hd H12) as (t & c & Hcalc & Hs).
  assert (Hvalid : Image.is_data_valid d = true).
  { apply orb_true_iff in H12. destruct H12 as [H|H];
      [apply is_data_1d_valid | apply is_data_2d_valid]; exact H. }
  unfold function_ifft, data_shape, data_dtype. rewrite Hd, Hc. cbn [option_map].
  unfold Image.is_data_valid in Hvalid. rewrite Hvalid. cbn [negb].
  unfold rank in Hlen. rewrite Hlen, Nat.eqb_refl.
  unfold assert. rewrite bind_ret.
  rewrite (mapM_ifft_calibration _ Hdiv), bind_ret.
  rewrite Hcalc.
  exists t, c. unfold bind, ret. simpl. rewrite app_nil_r. reflexivity.
Qed.

Lemma combine_map_combine {A B C : Type} (g : A * B -> C) (l : list A) (s : list B) :
  combine (map g (combine l s)) s = map (fun ab => (g ab, snd ab)) (combine l s).
Proof.
  revert s. induction l as [|a l IH]; intros [|b s]; try reflexivity.
  cbn [combine map snd]. rewrite IH. reflexivity.
Qed.

Lemma map_fst_combine {A B C : Type} (f : A -> C) (l : list A) (s : list B) :
  List.length l = List.length s ->
  map (fun ab => f (fst ab)) (combine l s) = map f l.
Proof.
  revert s. induction l as [|a l IH]; intros [|b s] H; try discriminate; [reflexivity|].
  cbn [combine map fst]. rewrite IH; [reflexivity|]. simpl in H. congruence.
Qed.

(** A two-axis array that is valid stays valid, and rank 2, with complex
    elements. *)
Lemma is_data_2d_complex (c d : ndarray) :
  Image.is_data_2d d = true ->
  List.length (nd_shape d) = 2%nat ->
  nd_shape c = nd_shape d ->
  nd_dtype c = complex128 ->
  Image.is_data_2d c = true /\ rank c = 2%nat.
Proof.
  intros H2 Hl Hs Ht.
  unfold Image.is_data_2d, Image.is_shape_and_dtype_2d, Image.is_shape_and_dtype_valid in *.
  unfold rank. rewrite Hs, Ht.
  apply andb_true_iff in H2. destruct H2 as [H2 _].
  apply andb_true_iff in H2. destruct H2 as [_ Hpos].
  unfold Image.dimensional_shape_from_shape_and_dtype,
    Image.is_shape_and_dtype_rgb_type, Image.is_shape_and_dtype_rgb,
    Image.is_shape_and_dtype_rgba.
  cbn [dtype_eqb andb orb Image.is_supported_dtype negb].
  rewrite Hl, Hpos. split; reflexivity.
Qed.

(** Against C5 as stated: an RGB image is a valid two-axis payload with
    axis unit "nm", and the round trip fails on it.  [function_fft]
    returns a three-axis complex payload with the two calibrations of
    the image, and on that result [function_ifft] fails its assertion
    of one calibration per data axis. *)
Lemma fft_ifft_rgb_fails_assertion :
  Image.is_data_valid image_rgb = true
  /\ Image.is_data_2d image_rgb = true
  /\ exists (r : DM) (c : ndarray),
       result (function_fft plain_kernel dm_rgb) = Ok (Some r)
       /\ data r = Some c
       /\ nd_shape c = [1; 2; 3]
       /\ nd_dtype c = complex128
       /\ option_map (map Calibration.units) (dimensional_calibrations r)
          = Some ["1/nm"; "1/nm"]
       /\ function_ifft plain_kernel r = ([], Raise AssertionError).
Proof.
  split; [reflexivity|]. split; [reflexivity|].
  eexists _, _. split; [vm_compute; reflexivity|].
  split; [reflexivity|]. split; [reflexivity|]. split; [reflexivity|].
  split; [reflexivity|]. vm_compute. reflexivity.
Qed.

(** C5, as the code has it.  Units survive the round trip on a valid
    payload of exactly two array axes (not a colour image) with one
    calibration per axis and the divisions of both rules defined:
    [function_fft] followed by [function_ifft] returns a result whose
    axis units are the source's ("nm" becomes "1/nm" and "nm" again). *)
Theorem fft_ifft_units_round_trip (K : NumericKernel) (dm : DM) (d : ndarray)
    (cals : list Calib) :
  data dm = Some d ->
  dimensional_calibrations dm = Some cals ->
  Image.is_data_2d d = true ->
  List.length (nd_shape d) = 2%nat ->
  List.length cals = rank d ->
  Forall round_trip_divisors_nonzero (combine cals (nd_shape d)) ->
  exists (r r' : DM) (cals1 cals2 : list Calib),
    result (function_fft K dm) = Ok (Some r)
    /\ dimensional_calibrations r = Some cals1
    /\ map Calibration.units cals1 = map (fun c => "1/" ++ Calibration.units c) cals
    /\ result (function_ifft K r) = Ok (Some r')
    /\ dimensional_calibrations r' = Some cals2
    /\ map Calibration.units cals2 = map Calibration.units cals.
Proof.
  intros Hd Hc H2 Hl Hlen Hdiv.
  assert (H12 : Image.is_data_1d d || Image.is_data_2d d = true)
    by (rewrite H2; apply orb_true_r).
  assert (Hf : Forall fft_divisors_nonzero (combine cals (nd_shape d))).
  { eapply Forall_impl; [|exact Hdiv]. intros cn [H _]. exact H. }
  destruct (function_fft_returns K dm d cals Hd Hc H12 Hlen Hf)
    as (t & c & E & Hs & Ht & _).
  destruct (is_data_2d_complex c d H2 Hl Hs Ht) as [H2c Hrc].
  assert (Hrd : rank d = 2%nat).
  { unfold Image.is_data_2d, Image.is_shape_and_dtype_2d in H2.
    apply andb_true_iff in H2. destruct H2 as [_ H2]. apply Nat.eqb_eq in H2. exact H2. }
  assert (Hcl : List.length cals = List.length (nd_shape d)) by congruence.
  set (cals1 := map (fun cn => fft_axis_calibration (fst cn) (snd cn))
                  (combine cals (nd_shape d))) in *.
  set (r := new_data_and_metadata (Some c) Calibration.uncalibrated (Some cals1) []) in *.
  assert (Hi : Forall ifft_divisor_nonzero (combine cals1 (nd_shape c))).
  { rewrite Hs. unfold cals1. rewrite combine_map_combine.
    apply Forall_map. eapply Forall_impl; [|exact Hdiv]. intros cn [_ H]. exact H. }
  assert (Hl1 : List.length cals1 = rank c).
  { unfold cals1. rewrite length_map, length_combine. lia. }
  destruct (function_ifft_returns K r c cals1 eq_refl eq_refl
              ltac:(rewrite H2c; apply orb_true_r) Hl1 Hi) as (t' & c' & E').
  eexists r, _, cals1, _.
  split; [rewrite E; reflexivity|]. split; [reflexivity|].
  split.
  { unfold cals1. rewrite map_map. cbn [fft_axis_calibration Calibration.units].
    apply (map_fst_combine (fun c0 => "1/" ++ Calibration.units c0)). exact Hcl. }
  split; [rewrite E'; reflexivity|]. split; [reflexivity|].
  rewrite Hs. unfold cals1. rewrite combine_map_combine, !map_map.
  cbn [ifft_axis_calibration fft_axis_calibration Calibration.units fst snd].
  rewrite <- (map_fst_combine Calibration.units cals (nd_shape d) Hcl).
  apply map_ext. intros [c0 n]. apply remove_one_slash_prepended.
Qed.

(** C5 on the 4x4 image calibrated in nm. *)
Lemma fft_ifft_units_round_trip_nm :
  exists (r r' : DM) (cals1 cals2 : list Calib),
    result (function_fft plain_kernel dm_4x4) = Ok (Some r)
    /\ dimensional_calibrations r = Some cals1
    /\ map Calibration.units cals1 = ["1/nm"; "1/nm"]
    /\ result (function_ifft plain_kernel r) = Ok (Some r')
    /\ dimensional_calibrations r' = Some cals2
    /\ map Calibration.units cals2 = ["nm"; "nm"].
Proof.
  apply (fft_ifft_units_round_trip plain_kernel dm_4x4 image_4x4 [nm; nm]).
  - reflexivity.
  - reflexivity.
  - vm_compute. reflexivity.
  - reflexivity.
  - reflexivity.
  - repeat constructor; vm_compute; reflexivity.
Defined.

(** ** Crop *)

(** [function_crop] on a two-axis input whose fractional bounds convert
    to pixels: each axis keeps scale and units, and its offset moves by
    extent * fractional start * scale. *)
Lemma function_crop_calibrations (dm : DM) (d : ndarray) (n0 n1 : Z)
    (c0 c1 : Calib) (b00 b01 b10 b11 : float) (y x h w : Z) :
  data dm = Some d ->
  Image.is_data_valid d = true ->
  nd_shape d = [n0; n1] ->
  dimensional_calibrations dm = Some [c0; c1] ->
  trunc (float_of_int n0 * b00)%float = Ok y ->
  trunc (float_of_int n1 * b01)%float = Ok x ->
  trunc (float_of_int n0 * b10)%float = Ok h ->
  trunc (float_of_int n1 * b11)%float = Ok w ->
  exists r : DM,
    result (function_crop dm ((b00, b01), (b10, b11))) = Ok (Some r)
    /\ dimensional_calibrations r
       = Some [crop_axis_calibration c0 n0 b00; crop_axis_calibration c1 n1 b01]
    /\ intensity_calibration r = intensity_calibration dm.
Proof.
  intros Hd Hv Hs Hc Hy Hx Hh Hw.
  assert (Hb : crop_bounds_int [n0; n1] ((b00, b01), (b10, b11)) = ret ((y, x), (h, w))).
  { unfold crop_bounds_int. rewrite getitem_0, getitem_1. run_pure.
    rewrite Hy; run_pure. rewrite Hx; run_pure.
    rewrite Hh; run_pure. rewrite Hw; run_pure.
    reflexivity. }
  unfold function_crop, data_shape, data_dtype. rewrite Hd, Hc. cbn [option_map].
  unfold Image.is_data_valid in Hv. rewrite Hv. cbn [negb].
  rewrite Hs, Hb, bind_ret.
  unfold enumerate. cbn [List.length seq map combine mapM crop_calibration].
  rewrite getitem_0, getitem_1. run_pure.
  unfold function_crop_calculate_data. rewrite Hd.
  unfold Image.is_data_valid. rewrite Hv. cbn [negb].
  rewrite Hs, Hb, bind_ret.
  unfold Numpy.slice_axis01. rewrite Hs. run_pure.
  eexists. split; [reflexivity|]. split; reflexivity.
Qed.

(** The scenario of the specification: cropping the 10x10 image to
    ((0.2, 0.0), (0.5, 1.0)) gives shape (5, 10) and the axis-0
    calibration (2.0, 1.0, "nm"). *)
Example function_crop_10x10 :
  exists r : DM,
    result (function_crop dm_10x10 crop_bounds) = Ok (Some r)
    /\ data_shape r = Some [5; 10]
    /\ option_map (firstn 1) (dimensional_calibrations r)
       = Some [Calibration.mk 2%float 1%float "nm"].
Proof.
  eexists. split; [vm_compute; reflexivity|]. split; reflexivity.
Qed.

(** [function_crop_interval] on an input whose interval converts to the
    pixels [a, b): the offset moves by extent * a * scale, where [a] is
    the pixel start, not the fractional one. *)
Lemma function_crop_interval_calibrations (dm : DM) (d : ndarray) (n0 : Z)
    (rest : list Z) (c0 : Calib) (cals : list Calib) (i0 i1 : float) (a b : Z) :
  data dm = Some d ->
  Image.is_data_valid d = true ->
  nd_shape d = n0 :: rest ->
  dimensional_calibrations dm = Some (c0 :: cals) ->
  trunc (float_of_int n0 * i0)%float = Ok a ->
  trunc (float_of_int n0 * i1)%float = Ok b ->
  exists r : DM,
    result (function_crop_interval dm (i0, i1)) = Ok (Some r)
    /\ dimensional_calibrations r
       = Some [Calibration.mk
                 (Calibration.offset c0
                  + float_of_int (n0 * a) * Calibration.scale c0)%float
                 (Calibration.scale c0) (Calibration.units c0)].
Proof.
  intros Hd Hv Hs Hc Ha Hb.
  assert (Hi : crop_interval_int (n0 :: rest) (i0, i1) = ret (a, b)).
  { unfold crop_interval_int. rewrite getitem_0. run_pure.
    rewrite Ha; run_pure. rewrite Hb; run_pure.
    reflexivity. }
  unfold function_crop_interval, data_shape, data_dtype. rewrite Hd, Hc.
  cbn [option_map].
  unfold Image.is_data_valid in Hv. rewrite Hv. cbn [negb].
  rewrite Hs, Hi, bind_ret, !getitem_0. run_pure.
  unfold function_crop_interval_calculate_data. rewrite Hd.
  unfold Image.is_data_valid. rewrite Hv. cbn [negb].
  rewrite Hs, Hi, bind_ret.
  unfold Numpy.slice_axis0. rewrite Hs. run_pure.
  eexists. split; reflexivity.
Qed.

(** C2. The offset rule of the crop, offset + extent * fractional start
    * scale, holds for [function_crop] and fails for
    [function_crop_interval]: on the 10-sample spectrum calibrated
    (0, 1, "nm") and the interval (0.2, 0.5) the rule gives the offset
    2.0, and the code returns 20.0. *)
Theorem function_crop_interval_offset_slip :
  crop_axis_calibration nm 10 0.2%float = Calibration.mk 2%float 1%float "nm"
  /\ exists r : DM,
       result (function_crop_interval dm_10 (0.2, 0.5)%float) = Ok (Some r)
       /\ data_shape r = Some [3]
       /\ dimensional_calibrations r = Some [Calibration.mk 20%float 1%float "nm"]
       /\ dimensional_calibrations r <> Some [crop_axis_calibration nm 10 0.2%float].
Proof.
  split; [vm_compute; reflexivity|].
  eexists. split; [vm_compute; reflexivity|].
  split; [reflexivity|]. split; [reflexivity|].
  intros H.
  apply (f_equal (fun o => match o with
                           | Some (c :: _) => PrimFloat.eqb (Calibration.offset c) 2%float
                           | _ => true
                           end)) in H.
  vm_compute in H. discriminate H.
Qed.

(** ** Eager arrays, deferred scalars *)







(** ** Reshape *)

(** C4. One calibration per axis of the result fails for
    [function_reshape] when the source has more than one axis of size
    1: from shape (1, 1, 5) to (1, 5) the result has two axes and one
    calibration, that of the axis of size 5. *)
Theorem function_reshape_drops_every_unit_axis :
  exists (r : DM) (c : ndarray) (cals : list Calib),
    result (function_reshape dm_1x1x5 [1; 5]) = Ok (Some r)
    /\ data r = Some c
    /\ nd_shape c = [1; 5]
    /\ dimensional_calibrations r = Some cals
    /\ cals = [Calibration.mk 0%float 0.5%float "eV"]
    /\ rank c = 2%nat
    /\ List.length cals <> rank c.
Proof.
  eexists _, _, _. split; [vm_compute; reflexivity|].
  split; [reflexivity|]. split; [reflexivity|]. split; [reflexivity|].
  split; [reflexivity|]. split; [reflexivity|]. discriminate.
Qed.

(** ** Spatial filters *)





Lemma chunks_length {A : Type} (k n : nat) (l : list A) :
  List.length (Numpy.chunks k n l) = n.
Proof.
  revert l. induction n as [|n IH]; intros l; [reflexivity|].
  cbn [Numpy.chunks List.length]. rewrite IH. reflexivity.
Qed.

Lemma chunks_flat_map {A : Type} (k n s : nat) (g : nat -> list A) :
  (forall i, List.length (g i) = k) ->
  Numpy.chunks k n (flat_map g (seq s n)) = map g (seq s n).
Proof.
  intros Hg. revert s. induction n as [|n IH]; intros s; [reflexivity|].
  cbn [seq flat_map Numpy.chunks map].
  assert (F : firstn k (g s ++ flat_map g (seq (S s) n)) = g s).
  { rewrite <- (Hg s). rewrite firstn_app, Nat.sub_diag, firstn_all.
    cbn [firstn]. apply app_nil_r. }
  assert (G : skipn k (g s ++ flat_map g (seq (S s) n)) = flat_map g (seq (S s) n)).
  { rewrite <- (Hg s). rewrite skipn_app, Nat.sub_diag, skipn_all. reflexivity. }
  rewrite F, G, IH. reflexivity.
Qed.

Lemma map_nth_seq {A : Type} (l : list A) (def : A) :
  map (fun i => nth i l def) (seq 0 (List.length l)) = l.
Proof.
  apply nth_ext with (d := def) (d' := def).
  - rewrite length_map, length_seq. reflexivity.
  - intros n Hn. rewrite length_map, length_seq in Hn.
    rewrite (nth_indep _ def (nth 0 l def))
      by (rewrite length_map, length_seq; exact Hn).
    rewrite (map_nth (fun i => nth i l def) (seq 0 (List.length l)) 0%nat n).
    rewrite seq_nth by exact Hn. reflexivity.
Qed.

(** Reading back plane [k] of interleaved planes gives plane [k]. *)
Lemma channel_stack_channels (shape : list Z) (planes : list ndarray)
    (k : nat) (p : ndarray) :
  nth_error planes k = Some p ->
  List.length (nd_buf p) = Z.to_nat (Numpy.size_of shape) ->
  Numpy.channel (Numpy.stack_channels shape planes) k
  = mk_ndarray shape uint8 (nd_buf p).
Proof.
  intros Hk Hlen. unfold Numpy.channel, Numpy.stack_channels.
  cbn [nd_shape nd_dtype nd_buf].
  rewrite removelast_last, last_last, Nat2Z.id.
  f_equal.
  rewrite chunks_flat_map by (intros i; apply length_map).
  rewrite map_map.
  rewrite <- (map_nth_seq (nd_buf p) (SInt 0)) at 1. rewrite Hlen.
  apply map_ext. intros i.
  apply nth_error_nth.
  rewrite nth_error_map, Hk. reflexivity.
Qed.

(** The planes of a well-formed array hold one element per pixel. *)
Lemma channel_length (d : ndarray) (k : nat) :
  List.length (nd_buf (Numpy.channel d k))
  = Z.to_nat (Numpy.size_of (removelast (nd_shape d))).
Proof.
  unfold Numpy.channel. cbn [nd_buf]. rewrite length_map. apply chunks_length.
Qed.

(** Calibrations pass through the five spatial filters unchanged. *)
Lemma filters_keep_calibrations (K : NumericKernel) (dm r : DM) (sigma : float)
    (size : Z) :
  result (function_sobel K dm) = Ok r
  \/ result (function_laplace K dm) = Ok r
  \/ result (function_gaussian_blur K dm sigma) = Ok r
  \/ result (function_median_filter K dm size) = Ok r
  \/ result (function_uniform_filter K dm size) = Ok r ->
  intensity_calibration r = intensity_calibration dm
  /\ dimensional_calibrations r = dimensional_calibrations dm
  /\ metadata r = metadata dm.
Proof.
  assert (G : forall m : M (option ndarray),
             result (d <- m ;;
                     ret (new_data_and_metadata d (intensity_calibration dm)
                            (dimensional_calibrations dm) (metadata dm))) = Ok r ->
             intensity_calibration r = intensity_calibration dm
             /\ dimensional_calibrations r = dimensional_calibrations dm
             /\ metadata r = metadata dm).
  { intros [t [o|e]] H; cbn in H; [|discriminate H].
    injection H as <-. repeat split. }
  intros [H|[H|[H|[H|H]]]]; eapply G; exact H.
Qed.

(** On an RGBA payload the four filters built on [filter_calculate_data]
    call their routine on the three colour planes, one by one, and copy
    the alpha plane. *)
Lemma filter_calculate_data_rgba (flt : ndarray -> M ndarray) (dm : DM)
    (d c0 c1 c2 : ndarray) (t0 t1 t2 : list event) :
  data dm = Some d ->
  Image.is_data_valid d = true ->
  Image.is_data_rgba d = true ->
  flt (Numpy.channel d 0) = (t0, Ok c0) ->
  flt (Numpy.channel d 1) = (t1, Ok c1) ->
  flt (Numpy.channel d 2) = (t2, Ok c2) ->
  exists c : ndarray,
    filter_calculate_data flt dm = ((t0 ++ t1 ++ t2)%list, Ok (Some c))
    /\ Numpy.channel c 3 = Numpy.channel d 3.
Proof.
  intros Hd Hv Hrgba E0 E1 E2.
  unfold filter_calculate_data. rewrite Hd, Hv. cbn [negb].
  unfold Image.is_data_rgba in Hrgba. rewrite Hrgba.
  assert (Hrgb : Image.is_shape_and_dtype_rgb (nd_shape d) (nd_dtype d) = false).
  { unfold Image.is_shape_and_dtype_rgba, Image.is_shape_and_dtype_rgb in *.
    apply andb_true_iff in Hrgba. destruct Hrgba as [_ H4].
    apply Z.eqb_eq in H4. rewrite H4. rewrite andb_false_r. reflexivity. }
  rewrite Hrgb, E0, E1, E2.
  eexists. split.
  { unfold bind, ret. cbn. rewrite !app_nil_r. reflexivity. }
  rewrite (channel_stack_channels _ _ 3 (Numpy.channel d 3)).
  - unfold Numpy.channel. cbn [nd_buf nd_shape nd_dtype]. f_equal.
    unfold Image.is_shape_and_dtype_rgba in Hrgba.
    apply andb_true_iff in Hrgba. destruct Hrgba as [Hrgba _].
    apply andb_true_iff in Hrgba. destruct Hrgba as [Hu _].
    destruct (nd_dtype d); try discriminate Hu. reflexivity.
  - reflexivity.
  - apply channel_length.
Qed.

(** C6. Of the five spatial filters, [function_gaussian_blur] does not
    treat a colour image channel by channel: on the 1x2 RGBA image it
    makes one call, on the whole three-axis array, alpha included, and
    its payload is what the routine returns for that array (with a
    routine that returns zeros, the alpha plane comes back as zeros),
    where [function_sobel] makes one call per colour plane and copies
    the alpha plane. *)
Theorem function_gaussian_blur_filters_alpha :
  (forall (K : NumericKernel) (sigma : float),
      function_gaussian_blur K dm_rgba sigma
      = ([KernelCall "scipy.ndimage.gaussian_filter" [image_rgba]],
         Ok (new_data_and_metadata
               (Some (mk_ndarray [1; 2; 4] uint8 (k_gaussian_filter K image_rgba sigma)))
               Calibration.uncalibrated (Some [nm; nm]) [])))
  /\ (forall K : NumericKernel,
         exists (r : DM) (c : ndarray),
           function_sobel K dm_rgba
           = ([KernelCall "scipy.ndimage.sobel" [Numpy.channel image_rgba 0];
               KernelCall "scipy.ndimage.sobel" [Numpy.channel image_rgba 1];
               KernelCall "scipy.ndimage.sobel" [Numpy.channel image_rgba 2]], Ok r)
           /\ data r = Some c
           /\ Numpy.channel c 3 = Numpy.channel image_rgba 3)
  /\ (exists (r : DM) (c : ndarray),
         result (function_gaussian_blur blanking_kernel dm_rgba 1%float) = Ok r
         /\ data r = Some c
         /\ nd_buf (Numpy.channel c 3) = [SInt 0; SInt 0]
         /\ nd_buf (Numpy.channel image_rgba 3) = [SInt 255; SInt 128]).
Proof.
  split; [intros K sigma; reflexivity|].
  split.
  - intros K. eexists _, _. split; [reflexivity|]. split; reflexivity.
  - eexists _, _. split; [reflexivity|]. split; [reflexivity|]. split; reflexivity.
Qed.

(** ** Concatenate and stack *)

(** C7. Joined along axis 1, inputs of shapes (2, 3) and (4, 3) differ
    on axis 0, which is not the axis of the join: the shape check of
    [function_concatenate] compares the extents after the first, finds
    them equal, and numpy raises ValueError; [function_hstack] passes
    the same inputs on.  Inputs of shapes (2, 3) and (2, 5), which can
    be joined along axis 1, fail the same check, and the result has no
    payload. *)
Theorem function_concatenate_axis1_raises (K : NumericKernel) :
  result (function_concatenate K [dm_2x3; dm_4x3] 1) = Raise ValueError
  /\ result (function_hstack K [dm_2x3; dm_4x3]) = Raise ValueError
  /\ exists r : DM,
       result (function_concatenate K [dm_2x3; dm_2x5] 1) = Ok (Some r)
       /\ data r = None.
Proof.
  split; [reflexivity|]. split; [reflexivity|].
  eexists. split; reflexivity.
Qed.

(** ** Line profile *)

(** Against C8 as stated: a width of 0.5 is positive and the 4x4 image
    is a valid rank-2 input, yet the call fails its assertion: the width
    is truncated to an int first. *)
Lemma function_line_profile_half_width :
  PrimFloat.ltb 0%float 0.5%float = true
  /\ Image.is_data_2d image_4x4 = true
  /\ result (function_line_profile plain_kernel dm_4x4 diagonal 0.5%float)
     = Raise AssertionError.
Proof.
  split; [reflexivity|]. split; vm_compute; reflexivity.
Qed.

(** C8, as the code has it.  The width is truncated to an int [n]
    first.  When [n <= 0] (every finite width below 1) the call fails
    with an assertion failure, not with an absent result.  When
    [n >= 1], on a valid rank-2 input with its two calibrations, once
    the payload is computed the result has one axis calibration: that
    of the second source axis, its offset reset to 0. *)
Theorem function_line_profile_width (K : NumericKernel) (dm : DM)
    (vector : (float * float) * (float * float)) (w : float) (n : Z) :
  trunc w = Ok n ->
  (n <= 0 -> result (function_line_profile K dm vector w) = Raise AssertionError)
  /\ (0 < n ->
      forall (d : ndarray) (c0 c1 : Calib) (p : option ndarray),
        data dm = Some d ->
        Image.is_data_2d d = true ->
        dimensional_calibrations dm = Some [c0; c1] ->
        result (function_line_profile_calculate_data K dm vector n) = Ok p ->
        exists r : DM,
          result (function_line_profile K dm vector w) = Ok (Some r)
          /\ data r = p
          /\ dimensional_calibrations r
             = Some [Calibration.mk 0%float (Calibration.scale c1) (Calibration.units c1)]
          /\ intensity_calibration r = intensity_calibration dm).
Proof.
  intros Hw. unfold function_line_profile. rewrite Hw. run_pure. split.
  - intros Hn. apply Z.ltb_ge in Hn. rewrite Hn. reflexivity.
  - intros Hn d c0 c1 p Hd H2 Hc Hp. apply Z.ltb_lt in Hn. rewrite Hn.
    unfold assert. rewrite bind_ret, Hc.
    unfold data_shape, data_dtype. rewrite Hd. cbn [option_map].
    apply is_data_2d_valid in H2. unfold Image.is_data_valid in H2. rewrite H2.
    cbn [negb List.length Nat.eqb]. rewrite getitem_1. run_pure.
    destruct (function_line_profile_calculate_data K dm vector n) as [t o].
    cbn in Hp. subst o. eexists. split; [reflexivity|]. repeat split.
Qed.

(** C8 on the 4x4 image: a width of -2 fails the assertion, a width of
    3 gives the calibration of the second axis with offset 0. *)
Lemma function_line_profile_width_4x4 :
  result (function_line_profile plain_kernel dm_4x4 diagonal (-2)%float)
  = Raise AssertionError
  /\ exists r : DM,
       result (function_line_profile plain_kernel dm_4x4 diagonal 3%float) = Ok (Some r)
       /\ option_map nd_shape (data r) = Some [5]
       /\ dimensional_calibrations r = Some [Calibration.mk 0%float 1%float "nm"].
Proof.
  split.
  - apply (function_line_profile_width plain_kernel dm_4x4 diagonal (-2)%float (-2)).
    + reflexivity.
    + lia.
  - destruct (function_line_profile_width plain_kernel dm_4x4 diagonal 3%float 3
                eq_refl) as [_ H].
    assert (Hn : 0 < 3) by lia.
    edestruct (H Hn image_4x4 nm nm) as (r & Hr & Hdata & Hcal & _).
    + reflexivity.
    + vm_compute. reflexivity.
    + reflexivity.
    + vm_compute. reflexivity.
    + exists r. split; [exact Hr|]. split; [rewrite Hdata; reflexivity|].
      exact Hcal.
Defined.

(** ** Pick *)

(** [function_pick] on a valid three-axis input, at a position whose
    pixel lies within the image: the column at that pixel. *)
Lemma function_pick_inside (dm : DM) (d : ndarray) (n0 n1 n2 : Z)
    (cals : list Calib) (position : float * float) (y x : Z) :
  data dm = Some d ->
  Image.is_data_valid d = true ->
  nd_shape d = [n0; n1; n2] ->
  dimensional_calibrations dm = Some cals ->
  trunc (fst position * float_of_int n1)%float = Ok y ->
  trunc (snd position * float_of_int n2)%float = Ok x ->
  0 <= y < n1 -> 0 <= x < n2 ->
  exists (r : DM) (c : ndarray),
    result (function_pick dm position) = Ok (Some r)
    /\ data r = Some c
    /\ Numpy.pick_column d y x = Ok c
    /\ dimensional_calibrations r = Some (Py.slice cals 0 (-2)).
Proof.
  intros Hd Hv Hs Hc Hy Hx [Hy0 Hy1] [Hx0 Hx1].
  unfold function_pick, data_shape, data_dtype. rewrite Hd, Hc. cbn [option_map].
  pose proof Hv as Hv'. unfold Image.is_data_valid in Hv'. rewrite Hv'. cbn [negb].
  rewrite Hs. cbn [List.length Nat.eqb negb].
  unfold function_pick_calculate_data. rewrite Hd, Hv, Hs.
  cbn [List.length Nat.eqb negb].
  rewrite getitem_1.
  replace (getitem [n0; n1; n2] 2) with (Ok n2) by reflexivity.
  run_pure. rewrite Hy. run_pure. rewrite Hx. run_pure.
  apply Z.leb_le in Hy0, Hx0. apply Z.ltb_lt in Hy1, Hx1.
  rewrite Hy0, Hy1, Hx0, Hx1. cbn [andb].
  assert (E : exists c, Numpy.pick_column d y x = Ok c).
  { unfold Numpy.pick_column. rewrite Hs.
    apply Z.leb_le in Hy0, Hx0.
    replace (y <? 0) with false by (symmetry; apply Z.ltb_ge; lia).
    replace (x <? 0) with false by (symmetry; apply Z.ltb_ge; lia).
    replace (n1 <=? y) with false
      by (symmetry; apply Z.leb_gt; apply Z.ltb_lt; exact Hy1).
    replace (n2 <=? x) with false
      by (symmetry; apply Z.leb_gt; apply Z.ltb_lt; exact Hx1).
    eexists. reflexivity. }
  destruct E as [c E]. rewrite E. run_pure.
  exists (new_data_and_metadata (Some c) (intensity_calibration dm)
            (Some (Py.slice cals 0 (-2))) (metadata dm)), c.
  repeat split.
Qed.

(** [function_pick] on a valid three-axis input, at a position whose
    pixel lies outside the image: the shape handed to [numpy.zeros] is
    a tuple holding a tuple, and the call raises TypeError. *)
Lemma function_pick_outside (dm : DM) (d : ndarray) (n0 n1 n2 : Z)
    (cals : list Calib) (position : float * float) (y x : Z) :
  data dm = Some d ->
  Image.is_data_valid d = true ->
  nd_shape d = [n0; n1; n2] ->
  dimensional_calibrations dm = Some cals ->
  trunc (fst position * float_of_int n1)%float = Ok y ->
  trunc (snd position * float_of_int n2)%float = Ok x ->
  (0 <=? y) && (y <? n1) && (0 <=? x) && (x <? n2) = false ->
  result (function_pick dm position) = Raise TypeError.
Proof.
  intros Hd Hv Hs Hc Hy Hx Hout.
  unfold function_pick, data_shape, data_dtype. rewrite Hd, Hc. cbn [option_map].
  pose proof Hv as Hv'. unfold Image.is_data_valid in Hv'. rewrite Hv'. cbn [negb].
  rewrite Hs. cbn [List.length Nat.eqb negb].
  unfold function_pick_calculate_data. rewrite Hd, Hv, Hs.
  cbn [List.length Nat.eqb negb].
  rewrite getitem_1.
  replace (getitem [n0; n1; n2] 2) with (Ok n2) by reflexivity.
  run_pure. rewrite Hy. run_pure. rewrite Hx. run_pure.
  rewrite Hout. reflexivity.
Qed.

(** C9. On the stack of two 3x3 images the position (1.5, 0.0) maps to
    row 4, beyond the 3 rows: [function_pick] raises TypeError there
    and returns neither a zero-filled array nor an absent result.  The
    position (0.5, 0.4) maps to pixel (1, 1), and the result is the
    column at that pixel. *)
Theorem function_pick_outside_raises :
  trunc (1.5 * float_of_int 3)%float = Ok 4
  /\ result (function_pick dm_stack (1.5, 0)%float) = Raise TypeError
  /\ exists r : DM,
       result (function_pick dm_stack (0.5, 0.4)%float) = Ok (Some r)
       /\ data r = Some (mk_ndarray [2] float64 [SFloat 4%float; SFloat 13%float])
       /\ dimensional_calibrations r = Some [Calibration.mk 0%float 0.5%float "eV"].
Proof.
  split; [vm_compute; reflexivity|].
  split; [vm_compute; reflexivity|].
  eexists. split; [vm_compute; reflexivity|]. split; reflexivity.
Qed.

(** ** Further facts about the entries above *)

(** Without a leading "1/" the inverse transform prepends one. *)
Lemma remove_one_slash_other (s : string) :
  startswith s "1/" = false -> remove_one_slash s = "1/" ++ s.
Proof. unfold remove_one_slash. intros ->. reflexivity. Qed.

(** The branch "one fewer dimension" of [function_reshape] keeps one
    calibration per source axis whose extent is not 1. *)
Lemma reshape_one_fewer_length (dshape : list Z) (cals : list Calib) :
  List.length cals = List.length dshape ->
  (List.length (reshape_one_fewer (combine dshape cals))
   + List.length (filter (fun n => (n =? 1)%Z) dshape))%nat
  = List.length dshape.
Proof.
  revert cals. induction dshape as [|n dshape IH]; intros [|c cals] H;
    try discriminate H; [reflexivity|].
  cbn [combine reshape_one_fewer filter List.length].
  injection H as H. specialize (IH cals H).
  destruct (n =? 1); cbn [List.length]; lia.
Qed.

(** When [function_concatenate] returns a result, the result keeps the
    intensity calibration of the first input and the calibration of
    the axis of the join; the other axes are uncalibrated and the
    metadata empty. *)
Lemma function_concatenate_calibrations (K : NumericKernel) (first : DM)
    (rest : list DM) (axis : Z) (r : DM) :
  result (function_concatenate K (first :: rest) axis) = Ok (Some r) ->
  exists cals : list Calib,
    dimensional_calibrations first = Some cals
    /\ intensity_calibration r = intensity_calibration first
    /\ dimensional_calibrations r
       = Some (map (fun ic : Z * Calib =>
                      if fst ic =? axis then snd ic else Calibration.uncalibrated)
                 (enumerate cals))
    /\ metadata r = [].
Proof.
  unfold function_concatenate.
  destruct (existsb _ (first :: rest)); [discriminate|].
  destruct (data_shape first) as [partial_shape|]; [|discriminate].
  destruct (existsb _ (first :: rest)); [discriminate|].
  destruct (dimensional_calibrations first) as [cals|]; [|discriminate].
  destruct (function_concatenate_calculate_data K (first :: rest) partial_shape axis)
    as [t [o|e]]; cbn; [|discriminate].
  intros H. injection H as <-. exists cals.
  split; [reflexivity|]. split; [reflexivity|]. split; [|reflexivity].
  cbn. f_equal. apply map_ext. intros [i c]. cbn. destruct (i =? axis); reflexivity.
Qed.

(** The payload computation runs inside the call also when it fails: on
    the three-axis stack [function_fft] raises NotImplementedError
    itself, and hands back no result whose calibrations could be read. *)
Lemma function_fft_rank3_raises (K : NumericKernel) :
  function_fft K dm_stack = ([], Raise NotImplementedError).
Proof. vm_compute. reflexivity. Qed.

(** * More of the catalog *)

(** ** Fourier transforms: the inverse rule, ranks, assertions *)

(** X1. On a valid rank-1 or rank-2 input with one calibration per data
    axis and the division of the rule defined, [function_ifft] returns a
    result whose calibration on each axis of length N is (0,
    1/(scale*N), units with a leading "1/" stripped, or prepended when
    there is none), whose intensity calibration is the uncalibrated one
    and whose metadata is empty. *)
Theorem function_ifft_calibrations (K : NumericKernel) (dm : DM) (d : ndarray)
    (cals : list Calib) :
  data dm = Some d ->
  dimensional_calibrations dm = Some cals ->
  Image.is_data_1d d || Image.is_data_2d d = true ->
  List.length cals = rank d ->
  Forall ifft_divisor_nonzero (combine cals (nd_shape d)) ->
  exists r : DM,
    result (function_ifft K dm) = Ok (Some r)
    /\ dimensional_calibrations r
       = Some (map (fun cn => ifft_axis_calibration (fst cn) (snd cn))
                 (combine cals (nd_shape d)))
    /\ intensity_calibration r = Calibration.uncalibrated
    /\ metadata r = [].
Proof.
  intros Hd Hc H12 Hlen Hdiv.
  destruct (function_ifft_returns K dm d cals Hd Hc H12 Hlen Hdiv) as (t & c & E).
  rewrite E. eexists. split; [reflexivity|]. repeat split.
Qed.

(** X1 on the transformed 4x4 image: (-0.5, 0.25, "1/nm") becomes
    (0, 1, "nm"). *)
Lemma function_ifft_calibrations_4x4 :
  exists r : DM,
    result (function_ifft plain_kernel dm_spectrum_4x4) = Ok (Some r)
    /\ dimensional_calibrations r
       = Some [Calibration.mk 0%float 1%float "nm"; Calibration.mk 0%float 1%float "nm"]
    /\ intensity_calibration r = Calibration.uncalibrated
    /\ metadata r = [].
Proof.
  apply (function_ifft_calibrations plain_kernel dm_spectrum_4x4 spectrum_4x4
           [Calibration.mk (-0.5)%float 0.25%float "1/nm";
            Calibration.mk (-0.5)%float 0.25%float "1/nm"]).
  - reflexivity.
  - reflexivity.
  - vm_compute. reflexivity.
  - reflexivity.
  - repeat constructor; vm_compute; reflexivity.
Defined.

Lemma fft_divisors_imply_ifft (l : list (Calib * Z)) :
  Forall fft_divisors_nonzero l -> Forall ifft_divisor_nonzero l.
Proof. apply Forall_impl. intros cn [_ H]. exact H. Qed.

(** X2. The transforms are for rank 1 and rank 2 only: on a valid input
    of any other rank, with one calibration per axis, [function_fft]
    and [function_ifft] raise NotImplementedError, before any kernel
    call and without a result. *)
Theorem fourier_unsupported_rank (K : NumericKernel) (dm : DM) (d : ndarray)
    (cals : list Calib) :
  data dm = Some d ->
  dimensional_calibrations dm = Some cals ->
  Image.is_data_valid d = true ->
  Image.is_data_1d d = false ->
  Image.is_data_2d d = false ->
  List.length cals = rank d ->
  Forall fft_divisors_nonzero (combine cals (nd_shape d)) ->
  function_fft K dm = ([], Raise NotImplementedError)
  /\ function_ifft K dm = ([], Raise NotImplementedError).
Proof.
  intros Hd Hc Hv H1 H2 Hlen Hdiv.
  pose proof Hv as Hv'. unfold Image.is_data_valid in Hv'.
  unfold rank in Hlen. split.
  - unfold function_fft, data_shape, data_dtype. rewrite Hd, Hc. cbn [option_map].
    rewrite Hv'. cbn [negb]. rewrite Hlen, Nat.eqb_refl.
    unfold assert. rewrite bind_ret.
    rewrite (mapM_fft_calibration _ Hdiv), bind_ret.
    unfold function_fft_calculate_data. rewrite Hd, Hv, H1, H2. reflexivity.
  - unfold function_ifft, data_shape, data_dtype. rewrite Hd, Hc. cbn [option_map].
    rewrite Hv'. cbn [negb]. rewrite Hlen, Nat.eqb_refl.
    unfold assert. rewrite bind_ret.
    rewrite (mapM_ifft_calibration _ (fft_divisors_imply_ifft _ Hdiv)), bind_ret.
    unfold function_ifft_calculate_data. rewrite Hd, Hv, H1, H2. reflexivity.
Qed.

(** X2 on the stack of two 3x3 images. *)
Lemma fourier_unsupported_rank_stack :
  function_fft plain_kernel dm_stack = ([], Raise NotImplementedError)
  /\ function_ifft plain_kernel dm_stack = ([], Raise NotImplementedError).
Proof.
  apply (fourier_unsupported_rank plain_kernel dm_stack stack_2x3x3
           [Calibration.mk 0%float 0.5%float "eV"; nm; nm]).
  - reflexivity.
  - reflexivity.
  - vm_compute. reflexivity.
  - vm_compute. reflexivity.
  - vm_compute. reflexivity.
  - reflexivity.
  - repeat constructor; vm_compute; reflexivity.
Defined.

(** X3. Both transforms assert one calibration per data axis: on a
    valid input whose calibration list has another length they fail
    with an assertion failure, whatever the rank and the scales. *)
Theorem fourier_asserts_calibration_count (K : NumericKernel) (dm : DM)
    (d : ndarray) (cals : list Calib) :
  data dm = Some d ->
  dimensional_calibrations dm = Some cals ->
  Image.is_data_valid d = true ->
  List.length cals <> rank d ->
  function_fft K dm = ([], Raise AssertionError)
  /\ function_ifft K dm = ([], Raise AssertionError).
Proof.
  intros Hd Hc Hv Hlen.
  unfold Image.is_data_valid in Hv. unfold rank in Hlen.
  apply Nat.eqb_neq in Hlen.
  split.
  - unfold function_fft, data_shape, data_dtype. rewrite Hd, Hc. cbn [option_map].
    rewrite Hv. cbn [negb]. rewrite Hlen. reflexivity.
  - unfold function_ifft, data_shape, data_dtype. rewrite Hd, Hc. cbn [option_map].
    rewrite Hv. cbn [negb]. rewrite Hlen. reflexivity.
Qed.

(** X3 on the 10-sample spectrum given two calibrations. *)
Lemma fourier_asserts_calibration_count_line :
  function_fft plain_kernel
    (DataAndMetadata.mk (Some line_10) Calibration.uncalibrated (Some [nm; nm]) [])
  = ([], Raise AssertionError)
  /\ function_ifft plain_kernel
       (DataAndMetadata.mk (Some line_10) Calibration.uncalibrated (Some [nm; nm]) [])
     = ([], Raise AssertionError).
Proof.
  apply (fourier_asserts_calibration_count plain_kernel _ line_10 [nm; nm]).
  - reflexivity.
  - reflexivity.
  - vm_compute. reflexivity.
  - vm_compute. discriminate.
Defined.

(** ** Pick and line profile: what comes back *)

(** X4. [function_pick] on a valid three-axis input with its three
    calibrations, at a position whose pixel (y, x) lies within the
    image: the payload is the one-axis array of the elements at (k, y,
    x), the only calibration left is that of the first axis, and
    intensity calibration and metadata are the source's. *)
Theorem function_pick_column (dm : DM) (d : ndarray) (n0 n1 n2 : Z)
    (c0 c1 c2 : Calib) (position : float * float) (y x : Z) :
  data dm = Some d ->
  Image.is_data_valid d = true ->
  nd_shape d = [n0; n1; n2] ->
  dimensional_calibrations dm = Some [c0; c1; c2] ->
  trunc (fst position * float_of_int n1)%float = Ok y ->
  trunc (snd position * float_of_int n2)%float = Ok x ->
  0 <= y < n1 -> 0 <= x < n2 ->
  function_pick dm position
  = ([], Ok (Some (new_data_and_metadata
                     (Some (mk_ndarray [n0] (nd_dtype d)
                              (map (fun k => nth (Z.to_nat ((Z.of_nat k * n1 + y) * n2 + x))
                                               (nd_buf d) (SInt 0))
                                 (seq 0 (Z.to_nat n0)))))
                     (intensity_calibration dm) (Some [c0]) (metadata dm)))).
Proof.
  intros Hd Hv Hs Hc Hy Hx [Hy0 Hy1] [Hx0 Hx1].
  unfold function_pick, data_shape, data_dtype. rewrite Hd, Hc. cbn [option_map].
  pose proof Hv as Hv'. unfold Image.is_data_valid in Hv'. rewrite Hv'. cbn [negb].
  rewrite Hs. cbn [List.length Nat.eqb negb].
  unfold function_pick_calculate_data. rewrite Hd, Hv, Hs.
  cbn [List.length Nat.eqb negb].
  rewrite getitem_1.
  replace (getitem [n0; n1; n2] 2) with (Ok n2) by reflexivity.
  run_pure. rewrite Hy. run_pure. rewrite Hx. run_pure.
  replace (0 <=? y) with true by (symmetry; apply Z.leb_le; lia).
  replace (0 <=? x) with true by (symmetry; apply Z.leb_le; lia).
  replace (y <? n1) with true by (symmetry; apply Z.ltb_lt; lia).
  replace (x <? n2) with true by (symmetry; apply Z.ltb_lt; lia).
  cbn [andb]. unfold Numpy.pick_column. rewrite Hs.
  replace (y <? 0) with false by (symmetry; apply Z.ltb_ge; lia).
  replace (x <? 0) with false by (symmetry; apply Z.ltb_ge; lia).
  replace (n1 <=? y) with false by (symmetry; apply Z.leb_gt; lia).
  replace (n2 <=? x) with false by (symmetry; apply Z.leb_gt; lia).
  cbn [orb]. run_pure. reflexivity.
Qed.

(** X4 on the stack of two 3x3 images holding 0 .. 17, at (0.5, 0.4),
    pixel (1, 1): the elements 4 and 13. *)
Lemma function_pick_column_stack :
  function_pick dm_stack (0.5, 0.4)%float
  = ([], Ok (Some (new_data_and_metadata
                     (Some (mk_ndarray [2] float64 [SFloat 4%float; SFloat 13%float]))
                     Calibration.uncalibrated
                     (Some [Calibration.mk 0%float 0.5%float "eV"]) []))).
Proof.
  apply (function_pick_column dm_stack stack_2x3x3 2 3 3
           (Calibration.mk 0%float 0.5%float "eV") nm nm (0.5, 0.4)%float 1 1).
  - reflexivity.
  - vm_compute. reflexivity.
  - reflexivity.
  - reflexivity.
  - vm_compute. reflexivity.
  - vm_compute. reflexivity.
  - lia.
  - lia.
Defined.

(** X5. [function_pick] is for three-axis payloads only: on a valid
    input of any other number of axes, calibrated or not correctly, it
    returns None, and computes nothing. *)
Theorem function_pick_other_rank (dm : DM) (d : ndarray) (cals : list Calib)
    (position : float * float) :
  data dm = Some d ->
  Image.is_data_valid d = true ->
  dimensional_calibrations dm = Some cals ->
  List.length (nd_shape d) <> 3%nat ->
  function_pick dm position = ([], Ok None).
Proof.
  intros Hd Hv Hc Hl. apply Nat.eqb_neq in Hl.
  unfold function_pick, data_shape, data_dtype. rewrite Hd, Hc. cbn [option_map].
  unfold Image.is_data_valid in Hv. rewrite Hv, Hl. reflexivity.
Qed.

(** X5 on the 4x4 image. *)
Lemma function_pick_other_rank_4x4 :
  function_pick dm_4x4 (0.5, 0.5)%float = ([], Ok None).
Proof.
  apply (function_pick_other_rank dm_4x4 image_4x4 [nm; nm]).
  - reflexivity.
  - vm_compute. reflexivity.
  - reflexivity.
  - discriminate.
Defined.

(** X6. Once its assertion on the width holds, [function_line_profile]
    returns None, without computing a payload, for every input that has
    no calibration list, is not valid, or does not have exactly two
    calibrations. *)
Theorem function_line_profile_absent (K : NumericKernel) (dm : DM)
    (vector : (float * float) * (float * float)) (w : float) (n : Z) :
  trunc w = Ok n ->
  0 < n ->
  dimensional_calibrations dm = None
  \/ Image.is_shape_and_dtype_valid (data_shape dm) (data_dtype dm) = false
  \/ (exists cals, dimensional_calibrations dm = Some cals
                   /\ List.length cals <> 2%nat) ->
  function_line_profile K dm vector w = ([], Ok None).
Proof.
  intros Hw Hn H. unfold function_line_profile. rewrite Hw. run_pure.
  apply Z.ltb_lt in Hn. rewrite Hn. unfold assert. rewrite bind_ret.
  destruct H as [H|[H|(cals & Hc & Hl)]].
  - rewrite H. reflexivity.
  - rewrite H. destruct (dimensional_calibrations dm); reflexivity.
  - rewrite Hc. apply Nat.eqb_neq in Hl. rewrite Hl.
    destruct (Image.is_shape_and_dtype_valid _ _); reflexivity.
Qed.

(** X6 on the 10-sample spectrum, which has one calibration. *)
Lemma function_line_profile_absent_line :
  function_line_profile plain_kernel dm_10 diagonal 2%float = ([], Ok None).
Proof.
  apply (function_line_profile_absent plain_kernel dm_10 diagonal 2%float 2).
  - reflexivity.
  - lia.
  - right. right. exists [nm]. split; [reflexivity|discriminate].
Defined.

(** ** Reshape: one axis more and back *)

Lemma getitem_app {A : Type} (pre : list A) (c : A) (rest : list A) :
  getitem (pre ++ c :: rest)%list (Z.of_nat (List.length pre)) = Ok c.
Proof.
  unfold getitem.
  replace (Z.of_nat (List.length pre) <? 0) with false
    by (symmetry; apply Z.ltb_ge; lia).
  replace (Z.of_nat (List.length pre) <? 0) with false
    by (symmetry; apply Z.ltb_ge; lia).
  rewrite length_app. cbn [List.length orb].
  replace (Z.of_nat (List.length pre + S (List.length rest))
           <=? Z.of_nat (List.length pre)) with false
    by (symmetry; apply Z.leb_gt; lia).
  rewrite Nat2Z.id, nth_error_app2, Nat.sub_diag by lia. reflexivity.
Qed.

Lemma reshape_one_more_appended (s : list Z) (pre rest : list Calib) :
  Forall (fun n => 0 < n) s ->
  List.length rest = List.length s ->
  reshape_one_more (s ++ [-1])%list (pre ++ rest)%list (Z.of_nat (List.length pre))
  = ret (rest ++ [Calibration.uncalibrated])%list.
Proof.
  intros Hs. revert pre rest.
  induction Hs as [|n s Hn _ IH]; intros pre [|c rest] Hl; try discriminate Hl.
  - reflexivity.
  - cbn [app reshape_one_more].
    replace (n =? -1) with false by (symmetry; apply Z.eqb_neq; lia).
    rewrite getitem_app. run_pure.
    replace (Z.of_nat (List.length pre) + 1)
      with (Z.of_nat (List.length (pre ++ [c])%list))
      by (rewrite length_app; cbn [List.length]; lia).
    replace (pre ++ c :: rest)%list with ((pre ++ [c]) ++ rest)%list
      by (rewrite <- app_assoc; reflexivity).
    rewrite IH by (injection Hl as Hl; exact Hl).
    reflexivity.
Qed.

Lemma reshape_one_fewer_appended (s : list Z) (cals : list Calib) (c : Calib) :
  Forall (fun n => n <> 1) s ->
  List.length cals = List.length s ->
  reshape_one_fewer (combine (s ++ [1]) (cals ++ [c]))%list = cals.
Proof.
  intros Hs. revert cals.
  induction Hs as [|n s Hn _ IH]; intros [|c' cals] Hl; try discriminate Hl.
  - reflexivity.
  - cbn [app combine reshape_one_fewer].
    replace (n =? 1) with false by (symmetry; apply Z.eqb_neq; exact Hn).
    rewrite IH by (injection Hl as Hl; exact Hl). reflexivity.
Qed.

Lemma size_of_positive (s : list Z) :
  Forall (fun n => 0 < n) s -> 0 < Numpy.size_of s.
Proof.
  induction 1 as [|n s Hn _ IH]; unfold Numpy.size_of in *; cbn [fold_right]; lia.
Qed.

Lemma size_of_app (s t : list Z) :
  Numpy.size_of (s ++ t)%list = Numpy.size_of s * Numpy.size_of t.
Proof.
  unfold Numpy.size_of. induction s as [|n s IH]; cbn [app fold_right].
  - destruct (fold_right Z.mul 1 t); reflexivity.
  - rewrite IH. ring.
Qed.

Lemma filter_positive_wildcard (s : list Z) :
  Forall (fun n => 0 < n) s ->
  filter (fun n => n =? -1) s = [] /\ filter (fun n => negb (n =? -1)) s = s
  /\ existsb (fun n => n <? -1) s = false.
Proof.
  induction 1 as [|n s Hn _ (IH1 & IH2 & IH3)]; [repeat split|].
  cbn [filter existsb].
  replace (n =? -1) with false by (symmetry; apply Z.eqb_neq; lia).
  replace (n <? -1) with false by (symmetry; apply Z.ltb_ge; lia).
  cbn [negb orb]. rewrite IH1, IH2, IH3. repeat split.
Qed.

Lemma valid_extents_positive (s : list Z) (t : dtype) :
  Image.is_shape_and_dtype_valid (Some s) (Some t) = true ->
  Forall (fun n => 0 < n) s.
Proof.
  unfold Image.is_shape_and_dtype_valid. intros H.
  apply andb_true_iff in H. destruct H as [_ H].
  rewrite forallb_forall in H. apply Forall_forall. intros n Hn.
  apply Z.ltb_lt. apply H. exact Hn.
Qed.

(** Appending an axis of extent 1 keeps a shape valid; it is no colour
    image. *)
Lemma valid_with_unit_axis (s : list Z) (t : dtype) :
  Image.is_shape_and_dtype_valid (Some s) (Some t) = true ->
  Image.is_shape_and_dtype_valid (Some (s ++ [1])%list) (Some t) = true.
Proof.
  intros H. pose proof (valid_extents_positive s t H) as Hpos.
  unfold Image.is_shape_and_dtype_valid in *.
  apply andb_true_iff in H. destruct H as [H _].
  apply andb_true_iff in H. destruct H as [Hsup _].
  rewrite Hsup. cbn [andb].
  assert (Hrgb : Image.is_shape_and_dtype_rgb_type (s ++ [1])%list t = false).
  { unfold Image.is_shape_and_dtype_rgb_type, Image.is_shape_and_dtype_rgb,
      Image.is_shape_and_dtype_rgba. rewrite last_last.
    cbn. rewrite !andb_false_r. reflexivity. }
  unfold Image.dimensional_shape_from_shape_and_dtype. rewrite Hrgb.
  rewrite length_app. cbn [List.length].
  replace (Nat.eqb (List.length s + 1) 0) with false
    by (symmetry; apply Nat.eqb_neq; lia).
  cbn [negb andb]. rewrite forallb_app. cbn [forallb andb].
  replace (forallb (fun n => 0 <? n) s) with true; [reflexivity|].
  symmetry. apply forallb_forall. intros n Hn. apply Z.ltb_lt.
  rewrite Forall_forall in Hpos. apply Hpos. exact Hn.
Qed.

(** X7. Reshaping a valid payload of shape s, calibrated on every axis,
    to s + (-1,) resolves the wildcard to 1, keeps the calibrations in
    order and appends an uncalibrated one; when no extent of s is 1,
    reshaping that result back to s drops the added axis and restores
    the payload and the calibrations exactly. *)
Theorem function_reshape_add_then_drop_axis (dm : DM) (d : ndarray)
    (cals : list Calib) :
  data dm = Some d ->
  Image.is_data_valid d = true ->
  dimensional_calibrations dm = Some cals ->
  List.length cals = List.length (nd_shape d) ->
  Forall (fun n => n <> 1) (nd_shape d) ->
  exists r r' : DM,
    result (function_reshape dm (nd_shape d ++ [-1])%list) = Ok (Some r)
    /\ data r = Some (mk_ndarray (nd_shape d ++ [1])%list (nd_dtype d) (nd_buf d))
    /\ dimensional_calibrations r = Some (cals ++ [Calibration.uncalibrated])%list
    /\ result (function_reshape r (nd_shape d)) = Ok (Some r')
    /\ data r' = Some d
    /\ dimensional_calibrations r' = Some cals
    /\ intensity_calibration r' = intensity_calibration dm
    /\ metadata r' = metadata dm.
Proof.
  intros Hd Hv Hc Hl Hone.
  destruct d as [s t buf]. cbn [nd_shape nd_dtype nd_buf] in *.
  unfold Image.is_data_valid in Hv. cbn [nd_shape nd_dtype] in Hv.
  pose proof (valid_extents_positive s t Hv) as Hpos.
  destruct (filter_positive_wildcard s Hpos) as (F1 & F2 & F3).
  pose proof (size_of_positive s Hpos) as Hsize.
  assert (E1 : function_reshape dm (s ++ [-1])%list
               = ([], Ok (Some (new_data_and_metadata
                                  (Some (mk_ndarray (s ++ [1])%list t buf))
                                  (intensity_calibration dm)
                                  (Some (cals ++ [Calibration.uncalibrated])%list)
                                  (metadata dm))))).
  { unfold function_reshape, data_shape, data_dtype. rewrite Hd, Hc.
    cbn [option_map nd_shape nd_dtype]. rewrite Hv. cbn [negb].
    rewrite length_app. cbn [List.length]. rewrite Nat.eqb_refl.
    rewrite existsb_app. cbn [existsb Z.eqb orb]. rewrite orb_true_r. cbn [andb].
    pose proof (reshape_one_more_appended s [] cals Hpos Hl) as R.
    cbn [app List.length Z.of_nat] in R. rewrite R, bind_ret.
    unfold function_reshape_calculate_data. rewrite Hd.
    unfold Image.is_data_valid. cbn [nd_shape nd_dtype]. rewrite Hv. cbn [negb].
    unfold Numpy.reshape. cbn [nd_shape nd_dtype nd_buf].
    rewrite existsb_app, F3. cbn [existsb orb].
    rewrite !filter_app, F1, F2. cbn [filter Z.eqb negb app List.length].
    rewrite app_nil_r.
    replace (Numpy.size_of s =? 0) with false by (symmetry; apply Z.eqb_neq; lia).
    rewrite Z_mod_same_full. cbn [Z.eqb negb orb].
    rewrite map_app. cbn [map Z.eqb].
    rewrite Z_div_same_full by lia.
    replace (map (fun n => if n =? -1 then 1 else n) s) with s.
    2:{ clear -Hpos. induction Hpos as [|n s Hn _ IH]; [reflexivity|].
        cbn [map]. replace (n =? -1) with false by (symmetry; apply Z.eqb_neq; lia).
        rewrite <- IH. reflexivity. }
    run_pure. reflexivity. }
  rewrite E1.
  eexists _, _. split; [reflexivity|]. split; [reflexivity|]. split; [reflexivity|].
  unfold function_reshape at 1, data_shape, data_dtype, new_data_and_metadata.
  cbn [data dimensional_calibrations option_map nd_shape nd_dtype
       intensity_calibration metadata].
  rewrite (valid_with_unit_axis s t Hv). cbn [negb].
  rewrite length_app. cbn [List.length].
  replace (Nat.eqb (List.length s + 1 + 1) (List.length s)) with false
    by (symmetry; apply Nat.eqb_neq; lia).
  cbn [andb].
  replace (Z.of_nat (List.length s + 1) - 1 =? Z.of_nat (List.length s)) with true
    by (symmetry; apply Z.eqb_eq; lia).
  rewrite existsb_app. cbn [existsb Z.eqb orb]. rewrite orb_true_r. cbn [andb].
  rewrite (reshape_one_fewer_appended s cals _ Hone Hl), bind_ret.
  unfold function_reshape_calculate_data. cbn [data].
  unfold Image.is_data_valid. cbn [nd_shape nd_dtype].
  rewrite (valid_with_unit_axis s t Hv). cbn [negb].
  unfold Numpy.reshape. cbn [nd_shape nd_dtype nd_buf].
  rewrite F3, F1, F2. cbn [List.length].
  rewrite size_of_app.
  replace (Numpy.size_of [1]) with 1 by reflexivity.
  rewrite Z.mul_1_r, Z.eqb_refl. run_pure.
  cbn [result snd]. repeat split.
Qed.

(** X7 on the 2x3 image. *)
Lemma function_reshape_add_then_drop_axis_2x3 :
  exists r r' : DM,
    result (function_reshape dm_2x3 [2; 3; -1]) = Ok (Some r)
    /\ data r = Some (mk_ndarray [2; 3; 1] float64 (nd_buf (float_image [2; 3])))
    /\ dimensional_calibrations r
       = Some [nm; Calibration.mk 1%float 2%float "s"; Calibration.uncalibrated]
    /\ result (function_reshape r [2; 3]) = Ok (Some r')
    /\ data r' = Some (float_image [2; 3])
    /\ dimensional_calibrations r' = Some [nm; Calibration.mk 1%float 2%float "s"]
    /\ intensity_calibration r' = nm
    /\ metadata r' = [].
Proof.
  apply (function_reshape_add_then_drop_axis dm_2x3 (float_image [2; 3])
           [nm; Calibration.mk 1%float 2%float "s"]).
  - reflexivity.
  - vm_compute. reflexivity.
  - reflexivity.
  - reflexivity.
  - repeat constructor; discriminate.
Defined.

(** X8. Reshaping a valid, calibrated payload to a shape without
    wildcard and of the same element count, when the change is not the
    removal of one axis from a payload that has an axis of extent 1,
    gives the payload that shape and makes every axis of the result
    uncalibrated; intensity calibration and metadata are kept. *)
Theorem function_reshape_uncalibrated (dm : DM) (d : ndarray) (cals : list Calib)
    (shape : list Z) :
  data dm = Some d ->
  Image.is_data_valid d = true ->
  dimensional_calibrations dm = Some cals ->
  Forall (fun n => 0 < n) shape ->
  Numpy.size_of shape = Numpy.size_of (nd_shape d) ->
  (Z.of_nat (List.length (nd_shape d)) - 1 <> Z.of_nat (List.length shape)
   \/ Forall (fun n => n <> 1) (nd_shape d)) ->
  function_reshape dm shape
  = ([], Ok (Some (new_data_and_metadata
                     (Some (mk_ndarray shape (nd_dtype d) (nd_buf d)))
                     (intensity_calibration dm)
                     (Some (map (fun _ => Calibration.uncalibrated) shape))
                     (metadata dm)))).
Proof.
  intros Hd Hv Hc Hpos Hsize Hother.
  destruct (filter_positive_wildcard shape Hpos) as (F1 & F2 & F3).
  unfold function_reshape, data_shape, data_dtype. rewrite Hd, Hc. cbn [option_map].
  pose proof Hv as Hv'. unfold Image.is_data_valid in Hv'. rewrite Hv'. cbn [negb].
  assert (Hw : existsb (fun n => n =? -1) shape = false).
  { clear -Hpos. induction Hpos as [|n s Hn _ IH]; [reflexivity|].
    cbn [existsb]. rewrite IH.
    replace (n =? -1) with false by (symmetry; apply Z.eqb_neq; lia). reflexivity. }
  rewrite Hw, andb_false_r.
  assert (Hsecond : (Z.of_nat (List.length (nd_shape d)) - 1 =? Z.of_nat (List.length shape))
                    && existsb (fun n => n =? 1) (nd_shape d) = false).
  { destruct Hother as [H|H].
    - apply Z.eqb_neq in H. rewrite H. reflexivity.
    - replace (existsb (fun n => n =? 1) (nd_shape d)) with false;
        [apply andb_false_r|].
      symmetry. clear -H. induction H as [|n s Hn _ IH]; [reflexivity|].
      cbn [existsb]. rewrite IH.
      replace (n =? 1) with false by (symmetry; apply Z.eqb_neq; exact Hn).
      reflexivity. }
  rewrite Hsecond, bind_ret.
  unfold function_reshape_calculate_data. rewrite Hd, Hv. cbn [negb].
  unfold Numpy.reshape. rewrite F3, F1, F2. cbn [List.length].
  rewrite Hsize, Z.eqb_refl. run_pure. reflexivity.
Qed.

(** X8 on the 2x3 image, flattened to 6 elements. *)
Lemma function_reshape_uncalibrated_flatten :
  function_reshape dm_2x3 [6]
  = ([], Ok (Some (new_data_and_metadata
                     (Some (mk_ndarray [6] float64 (nd_buf (float_image [2; 3]))))
                     nm (Some [Calibration.uncalibrated]) []))).
Proof.
  apply (function_reshape_uncalibrated dm_2x3 (float_image [2; 3])
           [nm; Calibration.mk 1%float 2%float "s"] [6]).
  - reflexivity.
  - vm_compute. reflexivity.
  - reflexivity.
  - repeat constructor.
  - reflexivity.
  - right. repeat constructor; discriminate.
Defined.

(** ** Calibrations through the spatial filters *)

(** X9. Whenever one of the five spatial filters returns a result, for
    an input with a payload or without, valid or not, the result has
    the intensity calibration, the dimensional calibrations and the
    metadata of the source. *)
Theorem spatial_filters_keep_calibrations (K : NumericKernel) (dm r : DM)
    (sigma : float) (size : Z) :
  (result (function_sobel K dm) = Ok r -> keeps_calibrations dm r)
  /\ (result (function_laplace K dm) = Ok r -> keeps_calibrations dm r)
  /\ (result (function_gaussian_blur K dm sigma) = Ok r -> keeps_calibrations dm r)
  /\ (result (function_median_filter K dm size) = Ok r -> keeps_calibrations dm r)
  /\ (result (function_uniform_filter K dm size) = Ok r -> keeps_calibrations dm r).
Proof.
  assert (G : forall m : M (option ndarray),
             result (d <- m ;;
                     ret (new_data_and_metadata d (intensity_calibration dm)
                            (dimensional_calibrations dm) (metadata dm))) = Ok r ->
             keeps_calibrations dm r).
  { intros [t [o|e]] H; cbn in H; [|discriminate H].
    injection H as <-. unfold keeps_calibrations. repeat split. }
  split; [intros H; eapply G; exact H|].
  split; [intros H; eapply G; exact H|].
  split; [intros H; eapply G; exact H|].
  split; intros H; eapply G; exact H.
Qed.

(** X9 on the 4x4 image and on the RGBA image: the filters return there,
    and the calibrations are the source's. *)
Lemma spatial_filters_keep_calibrations_4x4 :
  (exists r : DM,
     result (function_sobel plain_kernel dm_4x4) = Ok r
     /\ dimensional_calibrations r = Some [nm; nm])
  /\ exists r : DM,
       result (function_gaussian_blur plain_kernel dm_rgba 1%float) = Ok r
       /\ dimensional_calibrations r = Some [nm; nm].
Proof.
  split.
  - pose (r := match result (function_sobel plain_kernel dm_4x4) with
               | Ok r => r
               | Raise _ => dm_4x4
               end).
    exists r. split; [reflexivity|].
    destruct (spatial_filters_keep_calibrations plain_kernel dm_4x4 r 1%float 3)
      as (H & _).
    destruct (H eq_refl) as (_ & Hc & _). exact Hc.
  - pose (r := match result (function_gaussian_blur plain_kernel dm_rgba 1%float) with
               | Ok r => r
               | Raise _ => dm_rgba
               end).
    exists r. split; [reflexivity|].
    destruct (spatial_filters_keep_calibrations plain_kernel dm_rgba r 1%float 3)
      as (_ & _ & H & _).
    destruct (H eq_refl) as (_ & Hc & _). exact Hc.
Defined.

Lemma removelast_app_last (s : list Z) :
  s <> [] -> (removelast s ++ [last s 0])%list = s.
Proof. intros H. symmetry. apply app_removelast_last. exact H. Qed.

(** The four filters that branch on the colour encoding, on an RGBA
    payload. *)
Lemma rgba_filtered (name : string) (k : ndarray -> list scalar) (dm : DM)
    (d : ndarray) :
  data dm = Some d ->
  Image.is_data_valid d = true ->
  Image.is_data_rgba d = true ->
  preserves_length k ->
  filtered_per_channel name k d
    (p <- filter_calculate_data
            (fun a => invoke name a (mk_ndarray (nd_shape a) (nd_dtype a) (k a))) dm ;;
     ret (new_data_and_metadata p (intensity_calibration dm)
            (dimensional_calibrations dm) (metadata dm))).
Proof.
  intros Hd Hv Hrgba Hk.
  unfold filter_calculate_data. rewrite Hd, Hv. cbn [negb].
  pose proof Hrgba as Hrgba'. unfold Image.is_data_rgba in Hrgba'. rewrite Hrgba'.
  unfold Image.is_shape_and_dtype_rgba in Hrgba.
  unfold Image.is_data_rgba, Image.is_shape_and_dtype_rgba in Hrgba.
  apply andb_true_iff in Hrgba. destruct Hrgba as [Hrgba H4].
  apply andb_true_iff in Hrgba. destruct Hrgba as [Hu H3].
  apply Z.eqb_eq in H4. apply Nat.eqb_eq in H3.
  assert (Hrgb : Image.is_shape_and_dtype_rgb (nd_shape d) (nd_dtype d) = false).
  { unfold Image.is_shape_and_dtype_rgb. rewrite H4. apply andb_false_r. }
  rewrite Hrgb.
  assert (Hne : nd_shape d <> []) by (intros E; rewrite E in H3; discriminate H3).
  assert (Hdt : nd_dtype d = uint8) by (destruct (nd_dtype d); try discriminate Hu; reflexivity).
  eexists _, _. split; [reflexivity|]. split; [reflexivity|].
  split.
  { cbn [Numpy.stack_channels nd_shape List.length Z.of_nat Pos.of_succ_nat Pos.succ].
    rewrite <- H4. apply removelast_app_last. exact Hne. }
  split; [reflexivity|].
  split.
  { rewrite (channel_stack_channels _ _ 3 (Numpy.channel d 3)).
    - unfold Numpy.channel. cbn [nd_buf nd_shape nd_dtype]. rewrite Hdt. reflexivity.
    - reflexivity.
    - apply channel_length. }
  intros i Hi.
  assert (Hlen : forall j, List.length (k (Numpy.channel d j))
                           = Z.to_nat (Numpy.size_of (removelast (nd_shape d)))).
  { intros j. rewrite Hk. apply channel_length. }
  destruct i as [|[|[|i]]]; [| | |lia].
  - rewrite (channel_stack_channels _ _ 0
               (mk_ndarray (nd_shape (Numpy.channel d 0)) (nd_dtype (Numpy.channel d 0))
                  (k (Numpy.channel d 0)))); [reflexivity|reflexivity|apply Hlen].
  - rewrite (channel_stack_channels _ _ 1
               (mk_ndarray (nd_shape (Numpy.channel d 1)) (nd_dtype (Numpy.channel d 1))
                  (k (Numpy.channel d 1)))); [reflexivity|reflexivity|apply Hlen].
  - rewrite (channel_stack_channels _ _ 2
               (mk_ndarray (nd_shape (Numpy.channel d 2)) (nd_dtype (Numpy.channel d 2))
                  (k (Numpy.channel d 2)))); [reflexivity|reflexivity|apply Hlen].
Qed.

(** X10. On a valid RGBA payload, [function_sobel], [function_laplace],
    [function_median_filter] and [function_uniform_filter] call their
    routine on the three colour planes, one after the other, and never
    on the alpha plane; the result is an RGBA payload of the same shape
    whose colour planes are what the routine returned (when it returns
    one element per element) and whose alpha plane is the source's. *)
Theorem filters_rgba_per_channel (K : NumericKernel) (dm : DM) (d : ndarray)
    (size : Z) :
  data dm = Some d ->
  Image.is_data_valid d = true ->
  Image.is_data_rgba d = true ->
  preserves_length (k_sobel K) ->
  preserves_length (k_laplace K) ->
  preserves_length (fun a => k_median_filter K a (filter_size size)) ->
  preserves_length (fun a => k_uniform_filter K a (filter_size size)) ->
  filtered_per_channel "scipy.ndimage.sobel" (k_sobel K) d (function_sobel K dm)
  /\ filtered_per_channel "scipy.ndimage.laplace" (k_laplace K) d (function_laplace K dm)
  /\ filtered_per_channel "scipy.ndimage.median_filter"
       (fun a => k_median_filter K a (filter_size size)) d
       (function_median_filter K dm size)
  /\ filtered_per_channel "scipy.ndimage.uniform_filter"
       (fun a => k_uniform_filter K a (filter_size size)) d
       (function_uniform_filter K dm size).
Proof.
  intros Hd Hv Hrgba Hs Hl Hm Hu.
  split; [exact (rgba_filtered _ _ dm d Hd Hv Hrgba Hs)|].
  split; [exact (rgba_filtered _ _ dm d Hd Hv Hrgba Hl)|].
  split; [exact (rgba_filtered _ _ dm d Hd Hv Hrgba Hm)|].
  exact (rgba_filtered _ _ dm d Hd Hv Hrgba Hu).
Qed.

(** X10 on the 1x2 RGBA image. *)
Lemma filters_rgba_per_channel_1x2 :
  filtered_per_channel "scipy.ndimage.sobel" (k_sobel plain_kernel) image_rgba
    (function_sobel plain_kernel dm_rgba)
  /\ filtered_per_channel "scipy.ndimage.laplace" (k_laplace plain_kernel) image_rgba
       (function_laplace plain_kernel dm_rgba)
  /\ filtered_per_channel "scipy.ndimage.median_filter"
       (fun a => k_median_filter plain_kernel a (filter_size 3)) image_rgba
       (function_median_filter plain_kernel dm_rgba 3)
  /\ filtered_per_channel "scipy.ndimage.uniform_filter"
       (fun a => k_uniform_filter plain_kernel a (filter_size 3)) image_rgba
       (function_uniform_filter plain_kernel dm_rgba 3).
Proof.
  apply (filters_rgba_per_channel plain_kernel dm_rgba image_rgba 3).
  - reflexivity.
  - vm_compute. reflexivity.
  - vm_compute. reflexivity.
  - intros a. reflexivity.
  - intros a. reflexivity.
  - intros a. reflexivity.
  - intros a. reflexivity.
Defined.

(** ** Crop: the pixel box *)

Lemma slice_length {A : Type} (l : list A) (a b : Z) :
  0 <= a <= b -> b <= Z.of_nat (List.length l) ->
  List.length (Py.slice l a b) = Z.to_nat (b - a).
Proof.
  intros [Ha Hab] Hb. unfold Py.slice, slice_bound.
  replace (a <? 0) with false by (symmetry; apply Z.ltb_ge; lia).
  replace (b <? 0) with false by (symmetry; apply Z.ltb_ge; lia).
  rewrite !Z.min_l by lia.
  rewrite length_firstn, length_skipn. lia.
Qed.

(** X11. [function_crop] on a valid two-axis input with its two
    calibrations, when the fractional bounds convert to a pixel box
    (y, x, h, w) that lies within the image: the payload has shape
    (h, w), each axis keeps its scale and units and has its offset moved
    by extent * fractional start * scale, and intensity calibration and
    metadata are the source's. *)
Theorem function_crop_box (dm : DM) (d : ndarray) (n0 n1 : Z)
    (c0 c1 : Calib) (b00 b01 b10 b11 : float) (y x h w : Z) :
  data dm = Some d ->
  Image.is_data_valid d = true ->
  nd_shape d = [n0; n1] ->
  dimensional_calibrations dm = Some [c0; c1] ->
  trunc (float_of_int n0 * b00)%float = Ok y ->
  trunc (float_of_int n1 * b01)%float = Ok x ->
  trunc (float_of_int n0 * b10)%float = Ok h ->
  trunc (float_of_int n1 * b11)%float = Ok w ->
  0 <= y -> 0 <= h -> y + h <= n0 ->
  0 <= x -> 0 <= w -> x + w <= n1 ->
  exists (r : DM) (c : ndarray),
    function_crop dm ((b00, b01), (b10, b11)) = ([], Ok (Some r))
    /\ data r = Some c
    /\ nd_shape c = [h; w]
    /\ nd_dtype c = nd_dtype d
    /\ dimensional_calibrations r
       = Some [crop_axis_calibration c0 n0 b00; crop_axis_calibration c1 n1 b01]
    /\ intensity_calibration r = intensity_calibration dm
    /\ metadata r = metadata dm.
Proof.
  intros Hd Hv Hs Hc Hy Hx Hh Hw Hy0 Hh0 Hyh Hx0 Hw0 Hxw.
  assert (Hb : crop_bounds_int [n0; n1] ((b00, b01), (b10, b11)) = ret ((y, x), (h, w))).
  { unfold crop_bounds_int. rewrite getitem_0, getitem_1. run_pure.
    rewrite Hy; run_pure. rewrite Hx; run_pure.
    rewrite Hh; run_pure. rewrite Hw; run_pure.
    reflexivity. }
  unfold function_crop, data_shape, data_dtype. rewrite Hd, Hc. cbn [option_map].
  pose proof Hv as Hv'. unfold Image.is_data_valid in Hv'. rewrite Hv'. cbn [negb].
  rewrite Hs, Hb, bind_ret.
  unfold enumerate. cbn [List.length seq map combine mapM crop_calibration].
  rewrite getitem_0, getitem_1. run_pure.
  unfold function_crop_calculate_data. rewrite Hd.
  unfold Image.is_data_valid. rewrite Hv'. cbn [negb].
  rewrite Hs, Hb, bind_ret.
  unfold Numpy.slice_axis01. rewrite Hs. run_pure.
  eexists _, _. split; [reflexivity|]. split; [reflexivity|].
  split.
  { cbn [nd_shape]. f_equal; [|f_equal].
    - rewrite slice_length.
      + rewrite Z2Nat.id by lia. lia.
      + lia.
      + unfold Numpy.blocks. rewrite chunks_length. lia.
    - rewrite slice_length.
      + rewrite Z2Nat.id by lia. lia.
      + lia.
      + rewrite repeat_length. lia. }
  repeat split.
Qed.

(** X11 on the 10x10 image and the bounds ((0.2, 0.0), (0.5, 1.0)): the
    box (2, 0, 5, 10). *)
Lemma function_crop_box_10x10 :
  exists (r : DM) (c : ndarray),
    function_crop dm_10x10 crop_bounds = ([], Ok (Some r))
    /\ data r = Some c
    /\ nd_shape c = [5; 10]
    /\ nd_dtype c = float64
    /\ dimensional_calibrations r
       = Some [Calibration.mk 2%float 1%float "nm"; Calibration.uncalibrated]
    /\ intensity_calibration r = Calibration.uncalibrated
    /\ metadata r = [].
Proof.
  apply (function_crop_box dm_10x10 image_10x10 10 10 nm Calibration.uncalibrated
           0.2%float 0%float 0.5%float 1%float 2 0 5 10).
  - reflexivity.
  - vm_compute. reflexivity.
  - reflexivity.
  - reflexivity.
  - vm_compute. reflexivity.
  - vm_compute. reflexivity.
  - vm_compute. reflexivity.
  - vm_compute. reflexivity.
  - lia.
  - lia.
  - lia.
  - lia.
  - lia.
  - lia.
Defined.

(** ** Concatenate and stack: joins along the first axis *)

Lemma existsb_none {A : Type} (f : A -> bool) (l : list A) :
  (forall a, In a l -> f a = false) -> existsb f l = false.
Proof.
  induction l as [|a l IH]; intros H; [reflexivity|].
  cbn [existsb]. rewrite (H a (or_introl eq_refl)), IH; [reflexivity|].
  intros b Hb. apply H. right. exact Hb.
Qed.

Lemma shape_eqb_refl (s : list Z) : shape_eqb s s = true.
Proof.
  unfold shape_eqb. rewrite Nat.eqb_refl. cbn [andb].
  induction s as [|n s IH]; [reflexivity|].
  cbn [combine forallb fst snd]. rewrite Z.eqb_refl, IH. reflexivity.
Qed.

(** The payloads of a list of inputs that all have one. *)
Lemma data_list_present (l : list DM) (ds : list ndarray) :
  map data l = map Some ds ->
  data_list l = ds
  /\ existsb (fun dm => is_None (data dm)) l = false
  /\ List.length l = List.length ds.
Proof.
  revert ds. induction l as [|dm l IH]; intros [|d ds] H; try discriminate H.
  - repeat split.
  - cbn [map] in H. injection H as Hd Hl. destruct (IH ds Hl) as (E1 & E2 & E3).
    unfold data_list in *. cbn [flat_map existsb List.length].
    rewrite Hd, E1, E2, E3. repeat split.
Qed.

Lemma forallb_offset_eq (start : nat) (tail : list Z) :
  forallb (fun iab : nat * (Z * Z) =>
             Nat.eqb (fst iab) 0 || (fst (snd iab) =? snd (snd iab)))
    (combine (seq start (List.length tail)) (combine tail tail)) = true.
Proof.
  revert start. induction tail as [|n tail IH]; intros start; [reflexivity|].
  cbn [List.length seq combine forallb fst snd].
  rewrite Z.eqb_refl, orb_true_r, IH. reflexivity.
Qed.

Lemma joinable_axis0 (n0 n : Z) (tail : list Z) :
  Numpy.joinable 0 (n0 :: tail) (n :: tail) = true.
Proof.
  unfold Numpy.joinable. cbn [List.length]. rewrite Nat.eqb_refl.
  cbn [andb seq combine forallb fst snd Nat.eqb orb].
  apply forallb_offset_eq.
Qed.

Lemma map_offset_snd (total : Z) (start : nat) (tail : list Z) :
  map (fun ia : nat * Z => if Nat.eqb (fst ia) 0 then total else snd ia)
    (combine (seq (S start) (List.length tail)) tail) = tail.
Proof.
  revert start. induction tail as [|n tail IH]; intros start; [reflexivity|].
  cbn [List.length seq combine map fst snd Nat.eqb]. rewrite IH. reflexivity.
Qed.

(** [numpy.concatenate] along axis 0, on arrays that agree after the
    first extent. *)
Lemma numpy_concatenate_axis0 (K : NumericKernel) (d0 : ndarray) (ds : list ndarray)
    (tail : list Z) :
  Forall (fun d => exists n, nd_shape d = n :: tail) (d0 :: ds) ->
  exists c : ndarray,
    numpy_concatenate K (d0 :: ds) 0
    = ([KernelCall "numpy.concatenate" (d0 :: ds)], Ok c)
    /\ nd_shape c = total_first_extent (d0 :: ds) :: tail.
Proof.
  intros Hall. pose proof Hall as Hall'.
  apply Forall_inv in Hall'. destruct Hall' as [n0 Hs0].
  unfold numpy_concatenate. rewrite Hs0.
  cbn [Z.ltb Z.compare List.length orb].
  replace (Z.of_nat (S (List.length tail)) <=? 0) with false
    by (symmetry; apply Z.leb_gt; lia).
  replace (forallb (fun a => Numpy.joinable (Z.to_nat 0) (n0 :: tail) (nd_shape a))
             (d0 :: ds)) with true.
  2:{ symmetry. apply forallb_forall. intros a Ha.
      rewrite Forall_forall in Hall. destruct (Hall a Ha) as [n Hn].
      rewrite Hn. apply joinable_axis0. }
  cbn [negb]. eexists. split; [reflexivity|].
  cbn [nd_shape Z.to_nat map Numpy.joined_shape]. rewrite Hs0.
  cbn [List.length seq combine map fst snd Nat.eqb].
  rewrite map_offset_snd. f_equal.
  unfold total_first_extent. cbn [map fold_right]. rewrite Hs0. cbn [hd nth].
  f_equal. rewrite map_map. f_equal. apply map_ext_in. intros a Ha.
  rewrite Forall_forall in Hall. destruct (Hall a (or_intror Ha)) as [n Hn].
  rewrite Hn. reflexivity.
Qed.

Lemma enumerate_offset (start : nat) (cs : list Calib) :
  (0 < start)%nat ->
  map (fun ic : Z * Calib =>
         if negb (fst ic =? 0) then Calibration.uncalibrated else snd ic)
    (combine (map Z.of_nat (seq start (List.length cs))) cs)
  = map (fun _ => Calibration.uncalibrated) cs.
Proof.
  revert start. induction cs as [|c cs IH]; intros start Hs; [reflexivity|].
  cbn [List.length seq map combine fst snd].
  replace (Z.of_nat start =? 0) with false by (symmetry; apply Z.eqb_neq; lia).
  cbn [negb]. rewrite IH by lia. reflexivity.
Qed.

Lemma enumerate_axis0 (cals : list Calib) :
  map (fun ic : Z * Calib =>
         if negb (fst ic =? 0) then Calibration.uncalibrated else snd ic)
    (enumerate cals) = joined_calibrations cals.
Proof.
  destruct cals as [|c0 cs]; [reflexivity|].
  unfold enumerate, joined_calibrations.
  cbn [List.length seq map combine fst snd Z.of_nat Z.eqb negb]. f_equal.
  apply enumerate_offset. lia.
Qed.

(** [function_concatenate] along axis 0 on inputs that all have a
    payload, the payloads agreeing after the first extent. *)
Lemma function_concatenate_axis0_returns (K : NumericKernel) (first : DM)
    (rest : list DM) (d0 : ndarray) (ds : list ndarray) (tail : list Z)
    (cals : list Calib) :
  map data (first :: rest) = map Some (d0 :: ds) ->
  Forall (fun d => exists n, nd_shape d = n :: tail) (d0 :: ds) ->
  dimensional_calibrations first = Some cals ->
  exists c : ndarray,
    function_concatenate K (first :: rest) 0
    = ([KernelCall "numpy.concatenate" (d0 :: ds)],
       Ok (Some (new_data_and_metadata (Some c) (intensity_calibration first)
                   (Some (joined_calibrations cals)) [])))
    /\ nd_shape c = total_first_extent (d0 :: ds) :: tail.
Proof.
  intros Hdata Hall Hc.
  destruct (data_list_present _ _ Hdata) as (Hlist & Hnone & _).
  destruct (numpy_concatenate_axis0 K d0 ds tail Hall) as (c & Hcat & Hshape).
  pose proof Hall as Hall'. apply Forall_inv in Hall'. destruct Hall' as [n0 Hs0].
  assert (Hfirst : data first = Some d0) by (cbn [map] in Hdata; congruence).
  assert (Hshapes : forall dm, In dm (first :: rest) ->
                      exists n, data_shape dm = Some (n :: tail)).
  { intros dm Hin. apply (in_map data) in Hin. rewrite Hdata in Hin.
    apply in_map_iff in Hin. destruct Hin as (d & Hd & Hin).
    rewrite Forall_forall in Hall. destruct (Hall d Hin) as [n Hn].
    exists n. unfold data_shape. rewrite <- Hd. cbn [option_map]. rewrite Hn.
    reflexivity. }
  unfold function_concatenate. rewrite Hnone.
  unfold data_shape at 1. rewrite Hfirst. cbn [option_map]. rewrite Hs0, Hc.
  rewrite existsb_none.
  2:{ intros dm Hin. destruct (Hshapes dm Hin) as [n Hn]. rewrite Hn.
      unfold tuple_is_None. apply andb_false_r. }
  unfold function_concatenate_calculate_data. rewrite Hnone.
  replace (forallb _ (first :: rest)) with true.
  2:{ symmetry. apply forallb_forall. intros dm Hin.
      destruct (Hshapes dm Hin) as [n Hn]. rewrite Hn. apply shape_eqb_refl. }
  rewrite Hlist, Hcat, enumerate_axis0.
  exists c. split; [|exact Hshape].
  unfold bind, ret. cbn. reflexivity.
Qed.

(** X12. [function_concatenate] along axis 0, on inputs that all have a
    payload, the payloads agreeing on every extent after the first:
    numpy joins the payloads, the extent of the first axis of the result
    is the sum of theirs and the other extents are unchanged; the result
    has the intensity calibration of the first input, its calibration on
    the first axis, uncalibrated other axes and empty metadata. *)
Theorem function_concatenate_axis0 (K : NumericKernel) (first : DM)
    (rest : list DM) (d0 : ndarray) (ds : list ndarray) (tail : list Z)
    (cals : list Calib) :
  map data (first :: rest) = map Some (d0 :: ds) ->
  Forall (fun d => exists n, nd_shape d = n :: tail) (d0 :: ds) ->
  dimensional_calibrations first = Some cals ->
  exists (r : DM) (c : ndarray),
    function_concatenate K (first :: rest) 0
    = ([KernelCall "numpy.concatenate" (d0 :: ds)], Ok (Some r))
    /\ data r = Some c
    /\ nd_shape c = total_first_extent (d0 :: ds) :: tail
    /\ intensity_calibration r = intensity_calibration first
    /\ dimensional_calibrations r = Some (joined_calibrations cals)
    /\ metadata r = [].
Proof.
  intros Hdata Hall Hc.
  destruct (function_concatenate_axis0_returns K first rest d0 ds tail cals
              Hdata Hall Hc) as (c & E & Hshape).
  rewrite E. eexists _, c. split; [reflexivity|]. split; [reflexivity|].
  split; [exact Hshape|]. repeat split.
Qed.

(** X12 on the 2x3 and the 4x3 image: a 6x3 payload. *)
Lemma function_concatenate_axis0_6x3 :
  exists (r : DM) (c : ndarray),
    function_concatenate plain_kernel [dm_2x3; dm_4x3] 0
    = ([KernelCall "numpy.concatenate" [float_image [2; 3]; float_image [4; 3]]],
       Ok (Some r))
    /\ data r = Some c
    /\ nd_shape c = [6; 3]
    /\ intensity_calibration r = nm
    /\ dimensional_calibrations r = Some [nm; Calibration.uncalibrated]
    /\ metadata r = [].
Proof.
  apply (function_concatenate_axis0 plain_kernel dm_2x3 [dm_4x3]
           (float_image [2; 3]) [float_image [4; 3]] [3]
           [nm; Calibration.mk 1%float 2%float "s"]).
  - reflexivity.
  - repeat constructor; eexists; reflexivity.
  - reflexivity.
Defined.






(** X15. Inputs without a payload.  [function_concatenate] returns None
    when any input has none.  [function_hstack] and [function_vstack]
    read the shape of the first input first: they raise TypeError when
    the first input has no payload, and return None when the first has
    one and a later input has none.  On no input at all the three
    return None. *)
Theorem stack_missing_payload (K : NumericKernel) (first : DM) (rest : list DM)
    (axis : Z) :
  (function_concatenate K [] axis = ([], Ok None)
   /\ function_hstack K [] = ([], Ok None)
   /\ function_vstack K [] = ([], Ok None))
  /\ ((exists dm, In dm (first :: rest) /\ data dm = None) ->
      function_concatenate K (first :: rest) axis = ([], Ok None))
  /\ (data first = None ->
      function_hstack K (first :: rest) = ([], Raise TypeError)
      /\ function_vstack K (first :: rest) = ([], Raise TypeError))
  /\ (data first <> None ->
      (exists dm, In dm rest /\ data dm = None) ->
      function_hstack K (first :: rest) = ([], Ok None)
      /\ function_vstack K (first :: rest) = ([], Ok None)).
Proof.
  assert (Hex : forall l : list DM,
             (exists dm, In dm l /\ data dm = None) ->
             existsb (fun dm => is_None (data dm)) l = true).
  { intros l (dm & Hin & Hd). apply existsb_exists. exists dm.
    split; [exact Hin|]. rewrite Hd. reflexivity. }
  assert (Hcat : forall ax, (exists dm, In dm (first :: rest) /\ data dm = None) ->
             function_concatenate K (first :: rest) ax = ([], Ok None)).
  { intros ax H. unfold function_concatenate. rewrite (Hex _ H). reflexivity. }
  split; [repeat split|]. split; [apply Hcat|]. split.
  - intros Hd. unfold function_hstack, function_vstack, data_shape.
    rewrite Hd. split; reflexivity.
  - intros Hd (dm & Hin & Hdm).
    assert (H : exists dm, In dm (first :: rest) /\ data dm = None)
      by (exists dm; split; [right; exact Hin|exact Hdm]).
    unfold function_hstack, function_vstack, data_shape.
    destruct (data first) as [d0|]; [|contradiction Hd; reflexivity].
    cbn [option_map]. rewrite !(Hcat _ H), (Hex _ H).
    split; destruct (2 <=? List.length (nd_shape d0))%nat; reflexivity.
Qed.

(** X15 with the 10-sample spectrum and an input without payload. *)
Lemma stack_missing_payload_line :
  let empty := DataAndMetadata.mk None Calibration.uncalibrated (Some [nm]) [] in
  function_concatenate plain_kernel [dm_10; empty] 0 = ([], Ok None)
  /\ function_hstack plain_kernel [empty; dm_10] = ([], Raise TypeError)
  /\ function_vstack plain_kernel [empty; dm_10] = ([], Raise TypeError)
  /\ function_hstack plain_kernel [dm_10; empty] = ([], Ok None)
  /\ function_vstack plain_kernel [dm_10; empty] = ([], Ok None).
Proof.
  intros empty.
  destruct (stack_missing_payload plain_kernel dm_10 [empty] 0) as (_ & H1 & _ & H3).
  destruct (stack_missing_payload plain_kernel empty [dm_10] 0) as (_ & _ & H2 & _).
  split.
  { apply H1. exists empty. split; [right; left; reflexivity|reflexivity]. }
  destruct (H2 eq_refl) as [H2h H2v].
  split; [exact H2h|]. split; [exact H2v|].
  apply H3.
  - discriminate.
  - exists empty. split; [left; reflexivity|reflexivity].
Defined.

(** ** Names of element types *)


(** ** Histogram, rescale and resample *)

Lemma valid_data_shape (dm : DM) (d : ndarray) :
  data dm = Some d -> Image.is_data_valid d = true ->
  Image.is_shape_and_dtype_valid (data_shape dm) (data_dtype dm) = true.
Proof.
  intros Hd Hv. unfold data_shape, data_dtype. rewrite Hd. exact Hv.
Qed.

(** X17.  [function_histogram] of a valid, calibrated payload calls
    numpy.histogram on the payload with the [bins] it was given, without
    a test of its own.  With fewer than one bin the call raises
    ValueError inside numpy; with [bins] >= 1, when numpy's routine
    returns, the result is an int64 payload of shape (bins,) with one
    uncalibrated axis, the intensity calibration and the metadata of
    the source. *)
Theorem function_histogram_bins (R : ArrayRoutines) (dm : DM) (d : ndarray)
    (cals : list Calib) (bins : Z)
    (Hd : data dm = Some d) (Hv : Image.is_data_valid d = true)
    (Hc : dimensional_calibrations dm = Some cals) :
  calls (function_histogram R dm bins) = [KernelCall "numpy.histogram" [d]]
  /\ (bins < 1 -> result (function_histogram R dm bins) = Raise ValueError)
  /\ (forall counts : list scalar,
        1 <= bins -> r_histogram R d bins = Ok counts ->
        result (function_histogram R dm bins)
        = Ok (Some (DataAndMetadata.mk (Some (mk_ndarray [bins] int64 counts))
                      (intensity_calibration dm) (Some [Calibration.uncalibrated])
                      (metadata dm)))).
Proof.
  unfold function_histogram, function_histogram_calculate_data, numpy_histogram.
  rewrite Hc, (valid_data_shape dm d Hd Hv), Hd, Hv. cbn [negb].
  split; [|split].
  - destruct (bins <? 1); [reflexivity|].
    destruct (r_histogram R d bins); reflexivity.
  - intros Hb. apply Z.ltb_lt in Hb. rewrite Hb. reflexivity.
  - intros counts Hb Hr. apply Z.ltb_ge in Hb. rewrite Hb, Hr. reflexivity.
Qed.

Lemma function_histogram_bins_4x4 :
  function_histogram plain_routines dm_4x4 0
  = ([KernelCall "numpy.histogram" [image_4x4]], Raise ValueError)
  /\ exists r : DM,
       function_histogram plain_routines dm_4x4 4
       = ([KernelCall "numpy.histogram" [image_4x4]], Ok (Some r))
       /\ option_map nd_shape (data r) = Some [4]
       /\ dimensional_calibrations r = Some [Calibration.uncalibrated].
Proof.
  split.
  - destruct (function_histogram_bins plain_routines dm_4x4 image_4x4 [nm; nm] 0
                eq_refl eq_refl eq_refl) as (Hcalls & Hlow & _).
    specialize (Hlow ltac:(lia)).
    destruct (function_histogram plain_routines dm_4x4 0) as [t o].
    cbn [calls result fst snd] in Hcalls, Hlow. rewrite Hcalls, Hlow. reflexivity.
  - destruct (function_histogram_bins plain_routines dm_4x4 image_4x4 [nm; nm] 4
                eq_refl eq_refl eq_refl) as (Hcalls & _ & Hhigh).
    specialize (Hhigh _ ltac:(lia) eq_refl).
    destruct (function_histogram plain_routines dm_4x4 4) as [t o].
    cbn [calls result fst snd] in Hcalls, Hhigh. rewrite Hcalls, Hhigh.
    eexists. split; [reflexivity|]. split; reflexivity.
Defined.

(** X18.  [function_rescale] of a valid payload, for any range: the
    result has the uncalibrated intensity calibration whatever the
    source had, the dimensional calibrations and the metadata of the
    source, and a payload of the source's shape. *)
Theorem function_rescale_resets_intensity (R : ArrayRoutines) (dm : DM) (d : ndarray)
    (data_range : option (float * float))
    (Hd : data dm = Some d) (Hv : Image.is_data_valid d = true) :
  exists c : ndarray,
    result (function_rescale R dm data_range)
    = Ok (Some (DataAndMetadata.mk (Some c) Calibration.uncalibrated
                  (dimensional_calibrations dm) (metadata dm)))
    /\ nd_shape c = nd_shape d.
Proof.
  unfold function_rescale, function_rescale_calculate_data.
  rewrite (valid_data_shape dm d Hd Hv), Hd, Hv. cbn [negb].
  unfold invoke_n, invoke, bind, ret, result, new_data_and_metadata.
  destruct (_ && _); cbn [snd]; eexists; split; reflexivity.
Qed.

Lemma function_rescale_resets_intensity_2x3 :
  exists c : ndarray,
    result (function_rescale plain_routines dm_image_2x3 (Some (0, 255)%float))
    = Ok (Some (DataAndMetadata.mk (Some c) Calibration.uncalibrated
                  (dimensional_calibrations dm_image_2x3) (metadata dm_image_2x3)))
    /\ nd_shape c = [2; 3].
Proof.
  exact (function_rescale_resets_intensity plain_routines dm_image_2x3 image_2x3
           (Some (0, 255)%float) eq_refl eq_refl).
Defined.




(** X20.  [function_resample_2d] of a two-axis image (grey or colour)
    with two calibrations to positive extents (h, w): the payload has
    extents h and w on its first two axes, each axis keeps its offset
    and units and has its scale multiplied by extent / target, and the
    intensity calibration and the metadata are the source's.  When
    (h, w) are the extents the payload already has, the payload is the
    source's and no routine is called. *)
Theorem function_resample_2d_calibrations (R : ArrayRoutines) (dm : DM) (d : ndarray)
    (n0 n1 : Z) (rest : list Z) (c0 c1 : Calib) (h w : Z)
    (Hd : data dm = Some d) (H2 : Image.is_data_2d d = true)
    (Hs : nd_shape d = n0 :: n1 :: rest)
    (Hc : dimensional_calibrations dm = Some [c0; c1])
    (Hh : 0 < h) (Hw : 0 < w)
    (Zh : resample_divisor_nonzero h) (Zw : resample_divisor_nonzero w) :
  exists c : ndarray,
    result (function_resample_2d R dm [h; w])
    = Ok (Some (DataAndMetadata.mk (Some c) (intensity_calibration dm)
                  (Some [resampled_calibration c0 n0 h; resampled_calibration c1 n1 w])
                  (metadata dm)))
    /\ nd_shape c = h :: w :: rest
    /\ (h = n0 -> w = n1 ->
        c = d /\ calls (function_resample_2d R dm [h; w]) = []).
Proof.
  unfold function_resample_2d.
  rewrite getitem_0, getitem_1. run_pure.
  rewrite (valid_data_shape dm d Hd (is_data_2d_valid d H2)).
  unfold data_shape, data_dtype. rewrite Hd, Hc. cbn [option_map negb].
  pose proof H2 as H2'. unfold Image.is_data_2d in H2'. rewrite H2'. cbn [negb].
  rewrite Hs.
  cbn [List.length seq map mapM].
  unfold resample_calibration.
  change (Z.of_nat 0) with 0. change (Z.of_nat 1) with 1.
  rewrite !getitem_0, !getitem_1. run_pure.
  unfold truediv. red in Zh, Zw. rewrite Zh, Zw. rewrite ?bind_ret.
  unfold function_resample_2d_calculate_data.
  rewrite Hd, (is_data_2d_valid d H2), H2, Hs. cbn [negb].
  rewrite getitem_0, getitem_1. run_pure.
  destruct ((n0 =? h) && (n1 =? w)) eqn:E.
  - apply andb_true_iff in E. destruct E as [E0 E1].
    apply Z.eqb_eq in E0. apply Z.eqb_eq in E1. subst n0 n1.
    exists d. split; [reflexivity|]. split; [exact Hs|].
    intros _ _. split; reflexivity.
  - eexists. split; [reflexivity|]. split; [reflexivity|].
    intros -> ->. rewrite !Z.eqb_refl in E. discriminate E.
Qed.

Lemma function_resample_2d_calibrations_4x4 :
  (exists c : ndarray,
     result (function_resample_2d plain_routines dm_4x4 [8; 2])
     = Ok (Some (DataAndMetadata.mk (Some c) Calibration.uncalibrated
                   (Some [Calibration.mk 0%float 0.5%float "nm";
                          Calibration.mk 0%float 2%float "nm"]) []))
     /\ nd_shape c = [8; 2])
  /\ function_resample_2d plain_routines dm_4x4 [4; 4]
     = ([], Ok (Some dm_4x4)).
Proof.
  split.
  - destruct (function_resample_2d_calibrations plain_routines dm_4x4 image_4x4
                4 4 [] nm nm 8 2 eq_refl eq_refl eq_refl eq_refl
                ltac:(lia) ltac:(lia) eq_refl eq_refl) as (c & Hr & Hshape & _).
    exists c. split; [exact Hr | exact Hshape].
  - destruct (function_resample_2d_calibrations plain_routines dm_4x4 image_4x4
                4 4 [] nm nm 4 4 eq_refl eq_refl eq_refl eq_refl
                ltac:(lia) ltac:(lia) eq_refl eq_refl) as (c & Hr & _ & Hsame).
    destruct (Hsame eq_refl eq_refl) as [_ Hcalls].
    vm_compute. reflexivity.
Defined.

(** ** Sums over axes *)


Lemma filter_all {A : Type} (f : A -> bool) (l : list A) :
  (forall x, In x l -> f x = true) -> filter f l = l.
Proof.
  induction l as [|a l IH]; intros H; [reflexivity|].
  cbn [filter]. rewrite (H a (or_introl eq_refl)).
  f_equal. apply IH. intros x Hx. apply H. right. exact Hx.
Qed.

Lemma map_snd_combine_seq {A : Type} (s : nat) (l : list A) :
  map snd (combine (seq s (List.length l)) l) = l.
Proof.
  revert s. induction l as [|a l IH]; intros s; [reflexivity|].
  cbn [List.length seq combine map snd]. rewrite IH. reflexivity.
Qed.

(** Removing the one axis [k] leaves the items before and after it. *)
Lemma remove_axes_offset {A : Type} (k s : nat) (l : list A) :
  map snd (filter (fun ia : nat * A => negb (existsb (Nat.eqb (fst ia)) [(k + s)%nat]))
             (combine (seq s (List.length l)) l))
  = without_item k l.
Proof.
  revert k s. induction l as [|a l IH]; intros k s.
  - destruct k; reflexivity.
  - cbn [List.length seq combine filter fst existsb].
    destruct k as [|k].
    + cbn [Nat.add]. rewrite Nat.eqb_refl. cbn [orb negb].
      unfold without_item. cbn [firstn skipn app].
      rewrite filter_all; [apply map_snd_combine_seq|].
      intros [i x] Hi. apply in_combine_l in Hi. apply in_seq in Hi.
      cbn [fst existsb]. replace (Nat.eqb i s) with false; [reflexivity|].
      symmetry. apply Nat.eqb_neq. lia.
    + replace (Nat.eqb s (S k + s)) with false
        by (symmetry; apply Nat.eqb_neq; lia).
      cbn [orb negb map snd].
      replace (S k + s)%nat with (k + S s)%nat by lia.
      specialize (IH k (S s)). cbn [existsb] in IH. rewrite IH.
      reflexivity.
Qed.

Lemma remove_axes_one {A : Type} (k : nat) (l : list A) :
  Numpy.remove_axes [k] l = without_item k l.
Proof.
  unfold Numpy.remove_axes.
  rewrite <- (remove_axes_offset k 0 l). rewrite Nat.add_0_r. reflexivity.
Qed.


(** The loop of [function_sum] over [enumerate(dimensional_calibrations)]
    with an int [axis] that is not negative. *)
Lemma enumerate_without_offset (k s : nat) (cals : list Calib) :
  map snd (filter (fun ic : Z * Calib => negb (fst ic =? Z.of_nat (k + s)))
             (combine (map Z.of_nat (seq s (List.length cals))) cals))
  = without_item k cals.
Proof.
  revert k s. induction cals as [|c cals IH]; intros k s.
  - destruct k; reflexivity.
  - cbn [List.length seq map combine filter fst].
    destruct k as [|k].
    + cbn [Nat.add]. rewrite Z.eqb_refl. cbn [negb].
      unfold without_item. cbn [firstn skipn app].
      rewrite filter_all.
      * clear IH. generalize (S s). induction cals as [|c' cals IH]; intros t;
          [reflexivity|].
        cbn [List.length seq map combine snd]. rewrite IH. reflexivity.
      * intros [i x] Hi. apply in_combine_l in Hi. apply in_map_iff in Hi.
        destruct Hi as (j & <- & Hj). apply in_seq in Hj.
        cbn [fst]. apply negb_true_iff. apply Z.eqb_neq. lia.
    + replace (Z.of_nat s =? Z.of_nat (S k + s)) with false
        by (symmetry; apply Z.eqb_neq; lia).
      cbn [negb map snd].
      replace (S k + s)%nat with (k + S s)%nat by lia.
      rewrite (IH k (S s)). reflexivity.
Qed.

Lemma enumerate_without (axis : Z) (cals : list Calib) :
  0 <= axis ->
  map snd (filter (fun ic : Z * Calib => negb (fst ic =? axis)) (enumerate cals))
  = without_item (Z.to_nat axis) cals.
Proof.
  intros H. unfold enumerate.
  rewrite <- (enumerate_without_offset (Z.to_nat axis) 0 cals).
  rewrite Nat.add_0_r, Z2Nat.id by exact H. reflexivity.
Qed.

Lemma normalize_axis_in_range (nd : nat) (axis : Z) :
  0 <= axis < Z.of_nat nd -> Numpy.normalize_axis nd axis = Ok (Z.to_nat axis).
Proof.
  intros H. unfold Numpy.normalize_axis. cbv zeta.
  destruct (Z.ltb_spec axis 0) as [L|_]; [lia|].
  destruct (Z.ltb_spec axis 0) as [L|_]; [lia|].
  destruct (Z.leb_spec (Z.of_nat nd) axis) as [L|_]; [lia|].
  reflexivity.
Qed.



(** X22.  [function_sum] of a valid payload that is not a colour image
    over the axis [axis], an int within 0 .. rank - 1: numpy.sum is
    called once on the payload; the result has lost that axis and the
    calibration at that position, and keeps the intensity calibration
    and the metadata. *)
Theorem function_sum_removes_axis (R : ArrayRoutines) (dm : DM) (d : ndarray)
    (cals : list Calib) (axis : Z)
    (Hd : data dm = Some d) (Hv : Image.is_data_valid d = true)
    (Hg : Image.is_data_rgb_type d = false)
    (Hc : dimensional_calibrations dm = Some cals)
    (Ha : 0 <= axis < Z.of_nat (List.length (nd_shape d))) :
  exists c : ndarray,
    function_sum R dm (AxisInt axis)
    = ([KernelCall "numpy.sum" [d]],
       Ok (Some (DataAndMetadata.mk (Some c) (intensity_calibration dm)
                   (Some (without_item (Z.to_nat axis) cals)) (metadata dm))))
    /\ nd_shape c = without_item (Z.to_nat axis) (nd_shape d).
Proof.
  unfold function_sum, function_sum_calculate_data.
  rewrite Hc, (valid_data_shape dm d Hd Hv), Hd, Hv. cbn [negb].
  unfold Image.is_data_rgb_type in Hg. rewrite Hg.
  unfold numpy_sum. rewrite normalize_axis_in_range by exact Ha. run_pure.
  unfold invoke, bind, ret, new_data_and_metadata. cbn [app].
  rewrite enumerate_without by lia.
  eexists. split; [reflexivity|].
  cbn [nd_shape]. apply remove_axes_one.
Qed.

Lemma function_sum_removes_axis_stack :
  exists c : ndarray,
    result (function_sum plain_routines dm_stack (AxisInt 1))
    = Ok (Some (DataAndMetadata.mk (Some c) Calibration.uncalibrated
                  (Some [Calibration.mk 0%float 0.5%float "eV"; nm]) []))
    /\ nd_shape c = [2; 3].
Proof.
  destruct (function_sum_removes_axis plain_routines dm_stack stack_2x3x3 _ 1
              eq_refl eq_refl eq_refl eq_refl ltac:(cbn; lia))
    as (c & Hr & Hshape).
  exists c. rewrite Hr. split; [reflexivity | exact Hshape].
Defined.



(** ** Correlations *)









(** ** Inversion *)

Lemma chunks_flat_map_in {A : Type} (k n s : nat) (g : nat -> list A) :
  (forall i, (s <= i < s + n)%nat -> List.length (g i) = k) ->
  Numpy.chunks k n (flat_map g (seq s n)) = map g (seq s n).
Proof.
  revert s. induction n as [|n IH]; intros s Hg; [reflexivity|].
  cbn [seq flat_map Numpy.chunks map].
  assert (L : List.length (g s) = k) by (apply Hg; lia).
  assert (F : firstn k (g s ++ flat_map g (seq (S s) n)) = g s).
  { rewrite <- L. rewrite firstn_app, Nat.sub_diag, firstn_all.
    cbn [firstn]. apply app_nil_r. }
  assert (G : skipn k (g s ++ flat_map g (seq (S s) n)) = flat_map g (seq (S s) n)).
  { rewrite <- L. rewrite skipn_app, Nat.sub_diag, skipn_all. reflexivity. }
  rewrite F, G, IH; [reflexivity|]. intros i Hi. apply Hg. lia.
Qed.

Lemma chunks_item_length {A : Type} (k n : nat) (l : list A) (i : nat) :
  List.length l = (n * k)%nat -> (i < n)%nat ->
  List.length (nth i (Numpy.chunks k n l) []) = k.
Proof.
  revert l i. induction n as [|n IH]; intros l i Hl Hi; [lia|].
  cbn [Numpy.chunks]. destruct i as [|i]; cbn [nth].
  - rewrite length_firstn. cbn [Nat.mul] in Hl. lia.
  - apply IH; [|lia]. rewrite length_skipn. cbn [Nat.mul] in Hl. lia.
Qed.

Lemma chunks_map {A B : Type} (f : A -> B) (k n : nat) (l : list A) :
  Numpy.chunks k n (map f l) = map (map f) (Numpy.chunks k n l).
Proof.
  revert l. induction n as [|n IH]; intros l; [reflexivity|].
  cbn [Numpy.chunks map]. rewrite firstn_map, skipn_map, IH. reflexivity.
Qed.

Lemma nth_replaced (j k : nat) (p : list scalar) (v d : scalar) :
  (k < List.length p)%nat ->
  nth j (firstn k p ++ v :: skipn (S k) p)%list d
  = if Nat.eqb j k then v else nth j p d.
Proof.
  revert p j. induction k as [|k IH]; intros [|a p] j H; cbn [List.length] in H;
    try lia.
  - destruct j; reflexivity.
  - cbn [firstn skipn app]. destruct j as [|j]; [reflexivity|].
    cbn [nth Nat.eqb]. apply IH. lia.
Qed.

Lemma nth_set_nth (j k : nat) (p : list scalar) (v d : scalar) :
  (k < List.length p)%nat ->
  nth j (Numpy.set_nth k p v) d = if Nat.eqb j k then v else nth j p d.
Proof.
  intros H. unfold Numpy.set_nth.
  destruct (Nat.ltb_spec k (List.length p)) as [_|L]; [|lia].
  apply nth_replaced. exact H.
Qed.

Lemma length_set_nth (k : nat) (p : list scalar) (v : scalar) :
  List.length (Numpy.set_nth k p v) = List.length p.
Proof.
  unfold Numpy.set_nth.
  destruct (Nat.ltb_spec k (List.length p)) as [L|_]; [|reflexivity].
  rewrite length_app, length_firstn. cbn [List.length]. rewrite length_skipn. lia.
Qed.

Lemma map_items {A B : Type} (f : A -> B) (l : list A) (def : A) :
  map (fun i => f (nth i l def)) (seq 0 (List.length l)) = map f l.
Proof.
  rewrite <- (map_map (fun i => nth i l def) f), map_nth_seq. reflexivity.
Qed.

(** Plane [j] of the pixels [buf] after plane [k] was assigned. *)
Lemma plane_after_assignment (c npix k j : nat) (buf plane : list scalar) :
  List.length buf = (npix * c)%nat -> (k < c)%nat ->
  List.length plane = npix ->
  map (fun px => nth j px (SInt 0))
    (Numpy.chunks c npix
       (flat_map (fun i => Numpy.set_nth k (nth i (Numpy.chunks c npix buf) [])
                             (nth i plane (SInt 0)))
          (seq 0 npix)))
  = if Nat.eqb j k then plane
    else map (fun px => nth j px (SInt 0)) (Numpy.chunks c npix buf).
Proof.
  intros Hbuf Hk Hplane.
  rewrite chunks_flat_map_in.
  2:{ intros i Hi. rewrite length_set_nth. apply chunks_item_length; [exact Hbuf | lia]. }
  rewrite map_map.
  assert (E : forall i, In i (seq 0 npix) ->
              nth j (Numpy.set_nth k (nth i (Numpy.chunks c npix buf) [])
                       (nth i plane (SInt 0))) (SInt 0)
              = if Nat.eqb j k then nth i plane (SInt 0)
                else nth j (nth i (Numpy.chunks c npix buf) []) (SInt 0)).
  { intros i Hi. apply in_seq in Hi. apply nth_set_nth.
    rewrite chunks_item_length; [exact Hk | exact Hbuf | lia]. }
  rewrite (map_ext_in _ _ _ E).
  destruct (Nat.eqb j k).
  - rewrite <- Hplane. apply map_nth_seq.
  - rewrite <- (chunks_length c npix buf) at 1.
    apply (map_items (fun px => nth j px (SInt 0))).
Qed.

(** Plane [j] of the pixels [buf] after [f] was applied to every
    element. *)
Lemma plane_of_map (f : scalar -> scalar) (c npix j : nat) (buf : list scalar) :
  List.length buf = (npix * c)%nat -> (j < c)%nat ->
  map (fun px => nth j px (SInt 0)) (Numpy.chunks c npix (map f buf))
  = map f (map (fun px => nth j px (SInt 0)) (Numpy.chunks c npix buf)).
Proof.
  intros Hbuf Hj. rewrite chunks_map, !map_map.
  rewrite <- (map_items _ (Numpy.chunks c npix buf) []).
  rewrite <- (map_items (fun px => f (nth j px (SInt 0))) (Numpy.chunks c npix buf) []).
  apply map_ext_in. intros i Hi. apply in_seq in Hi. rewrite chunks_length in Hi.
  rewrite (nth_indep _ (SInt 0) (f (SInt 0))).
  - apply map_nth.
  - rewrite length_map, chunks_item_length; [exact Hj | exact Hbuf | lia].
Qed.

(** The elements of a well-formed colour image: one per pixel and
    channel. *)
Lemma pixel_count (s : list Z) (t : dtype) (buf : list scalar) :
  Image.is_shape_and_dtype_valid (Some s) (Some t) = true ->
  s <> [] ->
  List.length buf = Z.to_nat (Numpy.size_of s) ->
  List.length buf
  = (Z.to_nat (Numpy.size_of (removelast s)) * Z.to_nat (last s 0%Z))%nat.
Proof.
  intros Hv Hne ->.
  pose proof (valid_extents_positive s t Hv) as P.
  rewrite <- (removelast_app_last s Hne) in P at 1.
  apply Forall_app in P. destruct P as [P1 P2].
  apply size_of_positive in P1. inversion P2 as [|x l Hx _]; subst.
  rewrite <- (removelast_app_last s Hne) at 1.
  rewrite size_of_app. unfold Numpy.size_of at 2. cbn [fold_right].
  rewrite Z.mul_1_r. apply Z2Nat.inj_mul; lia.
Qed.

(** X26.  [function_invert] of a valid, well-formed RGBA image: one
    subtraction from 255 is made on the payload; the result carries
    the calibrations and the metadata of the source, and a payload of
    the same shape and element type whose alpha plane is the source's
    and whose three colour planes are the source's, each element
    subtracted from 255. *)
Theorem function_invert_rgba (R : ArrayRoutines) (dm : DM) (d : ndarray)
    (Hd : data dm = Some d) (Hv : Image.is_data_valid d = true)
    (Ha : Image.is_data_rgba d = true) (Hw : well_formed d) :
  exists c : ndarray,
    function_invert R dm
    = ([KernelCall "numpy.subtract" [d]],
       Ok (Some (DataAndMetadata.mk (Some c) (intensity_calibration dm)
                   (dimensional_calibrations dm) (metadata dm))))
    /\ nd_shape c = nd_shape d
    /\ nd_dtype c = nd_dtype d
    /\ Numpy.channel c 3 = Numpy.channel d 3
    /\ forall j : nat, (j < 3)%nat ->
         nd_buf (Numpy.channel c j)
         = map Numpy.uint8_rsub (nd_buf (Numpy.channel d j)).
Proof.
  unfold function_invert, function_invert_calculate_data.
  rewrite (valid_data_shape dm d Hd Hv), Hd, Hv. cbn [negb].
  pose proof Ha as Ha'. unfold Image.is_data_rgba in Ha'.
  unfold Image.is_shape_and_dtype_rgb_type. rewrite Ha', orb_true_r.
  rewrite Ha.
  unfold Image.is_shape_and_dtype_rgba in Ha'.
  apply andb_true_iff in Ha'. destruct Ha' as [Ha' H4].
  apply andb_true_iff in Ha'. destruct Ha' as [_ H3].
  apply Z.eqb_eq in H4. apply Nat.eqb_eq in H3.
  assert (Hne : nd_shape d <> []) by (intros E; rewrite E in H3; discriminate H3).
  pose proof (pixel_count (nd_shape d) (nd_dtype d) (nd_buf d) Hv Hne Hw) as Hbuf.
  rewrite H4 in Hbuf. change (Z.to_nat 4) with 4%nat in Hbuf.
  unfold numpy_rsub_255, invoke, bind, ret, new_data_and_metadata. cbn [app].
  eexists. split; [reflexivity|]. split; [reflexivity|]. split; [reflexivity|].
  unfold Numpy.channel, Numpy.set_channel. cbn [nd_shape nd_dtype nd_buf].
  rewrite H4. change (Z.to_nat 4) with 4%nat.
  split.
  - f_equal.
    rewrite (plane_after_assignment 4 _ 3 3);
      [reflexivity | rewrite length_map; exact Hbuf | lia
       | rewrite length_map; apply chunks_length].
  - intros j Hj.
    rewrite (plane_after_assignment 4 _ 3 j);
      [ | rewrite length_map; exact Hbuf | lia
        | rewrite length_map; apply chunks_length].
    replace (Nat.eqb j 3) with false by (symmetry; apply Nat.eqb_neq; lia).
    apply plane_of_map; [exact Hbuf | lia].
Qed.

Lemma function_invert_rgba_1x2 :
  exists c : ndarray,
    result (function_invert plain_routines dm_rgba) = Ok (Some
      (DataAndMetadata.mk (Some c) Calibration.uncalibrated (Some [nm; nm]) []))
    /\ nd_buf (Numpy.channel c 3) = [SInt 255; SInt 128]
    /\ nd_buf (Numpy.channel c 0) = [SInt 245; SInt 215].
Proof.
  destruct (function_invert_rgba plain_routines dm_rgba image_rgba
              eq_refl eq_refl eq_refl eq_refl) as (c & Hr & _ & _ & H3 & Hj).
  exists c. rewrite Hr, H3, (Hj 0%nat) by lia.
  split; [reflexivity|]. split; reflexivity.
Defined.

Lemma uint8_rsub_involutive (buf : list scalar) :
  forallb (fun x => match x with
                    | SInt z => (0 <=? z) && (z <? 256)
                    | _ => false
                    end) buf = true ->
  map Numpy.uint8_rsub (map Numpy.uint8_rsub buf) = buf.
Proof.
  induction buf as [|x buf IH]; intros H; [reflexivity|].
  cbn [forallb] in H. apply andb_true_iff in H. destruct H as [Hx H].
  cbn [map]. rewrite (IH H). f_equal.
  destruct x as [z| |]; try discriminate Hx.
  apply andb_true_iff in Hx. destruct Hx as [H0 H1].
  apply Z.leb_le in H0. apply Z.ltb_lt in H1.
  unfold Numpy.uint8_rsub. f_equal.
  rewrite (Z.mod_small (255 - z)) by lia.
  rewrite Z.mod_small by lia. lia.
Qed.

Lemma concat_chunks {A : Type} (k n : nat) (l : list A) :
  List.length l = (n * k)%nat -> List.concat (Numpy.chunks k n l) = l.
Proof.
  revert l. induction n as [|n IH]; intros l Hl.
  - destruct l; [reflexivity | discriminate Hl].
  - cbn [Numpy.chunks List.concat]. rewrite IH.
    + apply firstn_skipn.
    + rewrite length_skipn. cbn [Nat.mul] in Hl. lia.
Qed.

Lemma length_flat_map_items {A : Type} (k n s : nat) (g : nat -> list A) :
  (forall i, (s <= i < s + n)%nat -> List.length (g i) = k) ->
  List.length (flat_map g (seq s n)) = (n * k)%nat.
Proof.
  revert s. induction n as [|n IH]; intros s Hg; [reflexivity|].
  cbn [seq flat_map Nat.mul]. rewrite length_app, (Hg s) by lia.
  rewrite IH; [reflexivity|]. intros i Hi. apply Hg. lia.
Qed.

(** Pixels of [c] elements are determined by their [c] planes. *)
Lemma planes_determine (c npix : nat) (buf buf' : list scalar) :
  List.length buf = (npix * c)%nat -> List.length buf' = (npix * c)%nat ->
  (forall j : nat, (j < c)%nat ->
     map (fun px => nth j px (SInt 0)) (Numpy.chunks c npix buf')
     = map (fun px => nth j px (SInt 0)) (Numpy.chunks c npix buf)) ->
  buf' = buf.
Proof.
  intros Hbuf Hbuf' H.
  rewrite <- (concat_chunks c npix buf Hbuf), <- (concat_chunks c npix buf' Hbuf').
  f_equal. apply nth_ext with (d := []) (d' := []).
  - rewrite !chunks_length. reflexivity.
  - intros i Hi. rewrite chunks_length in Hi.
    apply nth_ext with (d := SInt 0) (d' := SInt 0).
    + rewrite !chunks_item_length by assumption. reflexivity.
    + intros j Hj. rewrite chunks_item_length in Hj by assumption.
      assert (E : forall l : list (list scalar),
                nth i (map (fun px => nth j px (SInt 0)) l) (SInt 0)
                = nth j (nth i l []) (SInt 0)).
      { intros l. rewrite <- (map_nth (fun px => nth j px (SInt 0)) l [] i).
        destruct j; reflexivity. }
      rewrite <- !E. rewrite (H j Hj). reflexivity.
Qed.

(** The elements of an RGBA image after [function_invert]: each pixel
    subtracted from 255, its alpha element put back. *)
Lemma invert_rgba_twice (npix : nat) (buf : list scalar) :
  List.length buf = (npix * 4)%nat ->
  forallb (fun x => match x with
                    | SInt z => (0 <=? z) && (z <? 256)
                    | _ => false
                    end) buf = true ->
  forall inverted : list scalar -> list scalar,
    (forall b, inverted b
               = flat_map (fun i =>
                   Numpy.set_nth 3
                     (nth i (Numpy.chunks 4 npix (map Numpy.uint8_rsub b)) [])
                     (nth i (map (fun px => nth 3 px (SInt 0)) (Numpy.chunks 4 npix b))
                        (SInt 0)))
                   (seq 0 npix)) ->
    inverted (inverted buf) = buf.
Proof.
  intros Hbuf Hu inverted Hinv.
  assert (Hlen : forall b, List.length b = (npix * 4)%nat ->
                           List.length (inverted b) = (npix * 4)%nat).
  { intros b Hb. rewrite Hinv. apply length_flat_map_items.
    intros i Hi. rewrite length_set_nth.
    apply chunks_item_length; [rewrite length_map; exact Hb | lia]. }
  assert (Hplane : forall b j, List.length b = (npix * 4)%nat -> (j < 4)%nat ->
            map (fun px => nth j px (SInt 0)) (Numpy.chunks 4 npix (inverted b))
            = if Nat.eqb j 3
              then map (fun px => nth 3 px (SInt 0)) (Numpy.chunks 4 npix b)
              else map Numpy.uint8_rsub
                     (map (fun px => nth j px (SInt 0)) (Numpy.chunks 4 npix b))).
  { intros b j Hb Hj. rewrite Hinv.
    rewrite (plane_after_assignment 4 npix 3 j);
      [ | rewrite length_map; exact Hb | lia | rewrite length_map; apply chunks_length].
    destruct (Nat.eqb j 3); [reflexivity|].
    apply plane_of_map; assumption. }
  apply (planes_determine 4 npix); [exact Hbuf | apply Hlen, Hlen, Hbuf|].
  intros j Hj.
  rewrite (Hplane _ j (Hlen buf Hbuf) Hj).
  destruct (Nat.eqb j 3) eqn:E.
  - rewrite (Hplane buf 3%nat Hbuf) by lia. apply Nat.eqb_eq in E. subst j.
    reflexivity.
  - rewrite (Hplane buf j Hbuf Hj), E.
    rewrite <- !plane_of_map by (rewrite ?length_map; assumption).
    rewrite (uint8_rsub_involutive buf Hu). reflexivity.
Qed.

(** X27.  [function_invert] applied twice to a valid, well-formed colour
    image (RGB or RGBA) whose elements are in the uint8 range gives
    back the image: payload, calibrations and metadata. *)
Theorem function_invert_twice (R : ArrayRoutines) (dm : DM) (d : ndarray)
    (Hd : data dm = Some d) (Hv : Image.is_data_valid d = true)
    (Hcol : Image.is_data_rgb_type d = true)
    (Hw : well_formed d) (Hu : uint8_elements d = true) :
  exists r : DM,
    result (function_invert R dm) = Ok (Some r)
    /\ result (function_invert R r) = Ok (Some dm).
Proof.
  destruct dm as [dd ic dc md]. cbn [data] in Hd. subst dd.
  destruct d as [s dt buf].
  unfold Image.is_data_valid, Image.is_data_rgb_type, well_formed, uint8_elements in *.
  cbn [nd_shape nd_dtype nd_buf] in *.
  assert (Hstep : forall (b : list scalar),
            result (function_invert R
                      (DataAndMetadata.mk (Some (mk_ndarray s dt b)) ic dc md))
            = Ok (Some (DataAndMetadata.mk
                          (Some (if Image.is_shape_and_dtype_rgba s dt
                                 then Numpy.set_channel
                                        (mk_ndarray s dt (map Numpy.uint8_rsub b)) 3
                                        (Numpy.channel (mk_ndarray s dt b) 3)
                                 else mk_ndarray s dt (map Numpy.uint8_rsub b)))
                          ic dc md))).
  { intros b. unfold function_invert, function_invert_calculate_data.
    unfold data_shape, data_dtype. cbn [data option_map nd_shape nd_dtype].
    unfold Image.is_data_valid, Image.is_data_rgba. cbn [nd_shape nd_dtype].
    rewrite Hv, Hcol. cbn [negb].
    destruct (Image.is_shape_and_dtype_rgba s dt); reflexivity. }
  eexists. split; [apply Hstep|].
  destruct (Image.is_shape_and_dtype_rgba s dt) eqn:Ha.
  - unfold Numpy.set_channel at 1. cbn [nd_shape nd_dtype].
    rewrite Hstep. do 4 f_equal.
    unfold Image.is_shape_and_dtype_rgba in Ha.
    apply andb_true_iff in Ha. destruct Ha as [Ha H4].
    apply andb_true_iff in Ha. destruct Ha as [_ H3].
    apply Z.eqb_eq in H4. apply Nat.eqb_eq in H3.
    assert (Hne : s <> []) by (intros E; rewrite E in H3; discriminate H3).
    pose proof (pixel_count s dt buf Hv Hne Hw) as Hbuf.
    rewrite H4 in Hbuf. change (Z.to_nat 4) with 4%nat in Hbuf.
    unfold Numpy.set_channel, Numpy.channel. cbn [nd_shape nd_dtype nd_buf].
    rewrite H4. change (Z.to_nat 4) with 4%nat. f_equal.
    apply (invert_rgba_twice _ buf Hbuf Hu
             (fun b => flat_map (fun i =>
                 Numpy.set_nth 3
                   (nth i (Numpy.chunks 4 _ (map Numpy.uint8_rsub b)) [])
                   (nth i (map (fun px => nth 3 px (SInt 0)) (Numpy.chunks 4 _ b))
                      (SInt 0)))
                 (seq 0 _))).
    intros b. reflexivity.
  - rewrite Hstep. rewrite (uint8_rsub_involutive buf Hu). reflexivity.
Qed.

Lemma function_invert_twice_1x2 :
  (exists r : DM,
     result (function_invert plain_routines dm_rgb) = Ok (Some r)
     /\ result (function_invert plain_routines r) = Ok (Some dm_rgb))
  /\ exists r : DM,
       result (function_invert plain_routines dm_rgba) = Ok (Some r)
       /\ result (function_invert plain_routines r) = Ok (Some dm_rgba).
Proof.
  split.
  - exact (function_invert_twice plain_routines dm_rgb image_rgb
             eq_refl eq_refl eq_refl eq_refl eq_refl).
  - exact (function_invert_twice plain_routines dm_rgba image_rgba
             eq_refl eq_refl eq_refl eq_refl eq_refl).
Defined.

(** ** Transposition and flips *)

Lemma chunks_concat {A : Type} (k : nat) (rows : list (list A)) :
  Forall (fun r => List.length r = k) rows ->
  Numpy.chunks k (List.length rows) (List.concat rows) = rows.
Proof.
  induction 1 as [|r rows Hr _ IH]; [reflexivity|].
  cbn [List.length Numpy.chunks List.concat].
  assert (F : firstn k (r ++ List.concat rows) = r).
  { rewrite <- Hr. rewrite firstn_app, Nat.sub_diag, firstn_all.
    cbn [firstn]. apply app_nil_r. }
  assert (G : skipn k (r ++ List.concat rows) = List.concat rows).
  { rewrite <- Hr. rewrite skipn_app, Nat.sub_diag, skipn_all. reflexivity. }
  rewrite F, G, IH. reflexivity.
Qed.

Lemma chunks_lengths {A : Type} (k n : nat) (l : list A) :
  List.length l = (n * k)%nat ->
  Forall (fun r => List.length r = k) (Numpy.chunks k n l).
Proof.
  revert l. induction n as [|n IH]; intros l Hl; [constructor|].
  cbn [Numpy.chunks]. cbn [Nat.mul] in Hl. constructor.
  - rewrite length_firstn. lia.
  - apply IH. rewrite length_skipn. lia.
Qed.

Lemma length_concat_pixels {A : Type} (c : nat) (row : list (list A)) :
  Forall (fun px => List.length px = c) row ->
  List.length (List.concat row) = (List.length row * c)%nat.
Proof.
  induction 1 as [|px row Hpx _ IH]; [reflexivity|].
  cbn [List.concat List.length Nat.mul]. rewrite length_app, Hpx, IH. reflexivity.
Qed.

Lemma grid_of_regular (h w c : nat) (buf : list scalar) :
  List.length buf = (h * (w * c))%nat ->
  regular_grid h w c (Numpy.grid_of h w c buf).
Proof.
  intros Hbuf. unfold regular_grid, Numpy.grid_of. split.
  - rewrite length_map. apply chunks_length.
  - apply Forall_map.
    apply (Forall_impl _ (P := fun r : list scalar => List.length r = (w * c)%nat));
      [|apply chunks_lengths; exact Hbuf].
    intros r Hr. split; [apply chunks_length | apply chunks_lengths; exact Hr].
Qed.

Lemma buf_of_grid_of (h w c : nat) (buf : list scalar) :
  List.length buf = (h * (w * c))%nat ->
  Numpy.buf_of (Numpy.grid_of h w c buf) = buf.
Proof.
  intros Hbuf. unfold Numpy.buf_of, Numpy.grid_of. rewrite map_map.
  rewrite (map_ext_in _ (fun r => r)).
  - rewrite map_id. apply concat_chunks. exact Hbuf.
  - intros r Hr. apply concat_chunks.
    pose proof (chunks_lengths (w * c) h buf Hbuf) as F.
    rewrite Forall_forall in F. apply F. exact Hr.
Qed.

Lemma rows_of_regular (h w c : nat) (g : list (list (list scalar))) :
  regular_grid h w c g ->
  Numpy.chunks (w * c) h (Numpy.buf_of g) = map (@List.concat scalar) g.
Proof.
  intros [Hh Hg]. unfold Numpy.buf_of.
  rewrite <- Hh, <- (length_map (@List.concat scalar) g).
  apply chunks_concat. apply Forall_map.
  apply (Forall_impl _ (P := fun row => List.length row = w
                          /\ Forall (fun px : list scalar => List.length px = c) row));
    [|exact Hg].
  intros row [Hw Hpx]. rewrite (length_concat_pixels c row Hpx), Hw. reflexivity.
Qed.

Lemma grid_of_buf_of (h w c : nat) (g : list (list (list scalar))) :
  regular_grid h w c g -> Numpy.grid_of h w c (Numpy.buf_of g) = g.
Proof.
  intros Hr. unfold Numpy.grid_of. rewrite (rows_of_regular h w c g Hr).
  destruct Hr as [_ Hg]. rewrite map_map.
  rewrite (map_ext_in _ (fun row => row)); [apply map_id|].
  intros row Hrow. rewrite Forall_forall in Hg. destruct (Hg row Hrow) as [Hw Hpx].
  rewrite <- Hw. apply chunks_concat. exact Hpx.
Qed.

Lemma transpose_regular (h w c : nat) (g : list (list (list scalar))) :
  regular_grid h w c g -> regular_grid w h c (Numpy.transpose_grid w g).
Proof.
  intros [Hh Hg]. unfold regular_grid, Numpy.transpose_grid. split.
  - rewrite length_map. apply length_seq.
  - apply Forall_map. apply Forall_forall. intros j Hj. apply in_seq in Hj.
    split; [rewrite length_map; exact Hh|].
    apply Forall_map. apply Forall_forall. intros row Hrow.
    rewrite Forall_forall in Hg. destruct (Hg row Hrow) as [Hw Hpx].
    rewrite Forall_forall in Hpx. apply Hpx. apply nth_In. lia.
Qed.

Lemma transpose_involutive (h w c : nat) (g : list (list (list scalar))) :
  regular_grid h w c g ->
  Numpy.transpose_grid h (Numpy.transpose_grid w g) = g.
Proof.
  intros [Hh Hg]. unfold Numpy.transpose_grid.
  transitivity (map (fun i => nth i g []) (seq 0 (List.length g)));
    [|apply map_nth_seq].
  rewrite Hh. apply map_ext_in. intros i Hi. apply in_seq in Hi.
  rewrite map_map.
  assert (Hrow : List.length (nth i g []) = w).
  { rewrite Forall_forall in Hg. apply Hg. apply nth_In. lia. }
  transitivity (map (fun j => nth j (nth i g []) []) (seq 0 (List.length (nth i g []))));
    [|apply map_nth_seq].
  rewrite Hrow. apply map_ext. intros j.
  assert (E : forall (l : list (list (list scalar))),
            nth i (map (fun row => nth j row []) l) [] = nth j (nth i l []) []).
  { intros l. rewrite <- (map_nth (fun row : list (list scalar) => nth j row []) l [] i).
    destruct j; reflexivity. }
  apply E.
Qed.

Lemma map_rev_regular (h w c : nat) (g : list (list (list scalar))) :
  regular_grid h w c g -> regular_grid h w c (map (@rev (list scalar)) g).
Proof.
  intros [Hh Hg]. split; [rewrite length_map; exact Hh|].
  apply Forall_map.
  apply (Forall_impl _ (P := fun row => List.length row = w
                          /\ Forall (fun px : list scalar => List.length px = c) row));
    [|exact Hg].
  intros row [Hw Hpx]. split; [rewrite length_rev; exact Hw | apply Forall_rev; exact Hpx].
Qed.

Lemma rev_regular (h w c : nat) (g : list (list (list scalar))) :
  regular_grid h w c g -> regular_grid h w c (rev g).
Proof.
  intros [Hh Hg]. split; [rewrite length_rev; exact Hh | apply Forall_rev; exact Hg].
Qed.

Lemma map_rev_rev {A : Type} (g : list (list A)) :
  map (@rev A) (map (@rev A) g) = g.
Proof.
  rewrite map_map. rewrite (map_ext _ (fun row => row)); [apply map_id|].
  intros row. apply rev_involutive.
Qed.

(** The three array operations of [function_transpose_flip], on the
    grid of an array. *)
Lemma transpose_10_grid (n0 n1 : Z) (rest : list Z) (dt : dtype)
    (g : list (list (list scalar))) :
  regular_grid (Z.to_nat n0) (Z.to_nat n1) (Z.to_nat (Numpy.size_of rest)) g ->
  Numpy.transpose_10 (mk_ndarray (n0 :: n1 :: rest) dt (Numpy.buf_of g))
  = Ok (mk_ndarray (n1 :: n0 :: rest) dt
          (Numpy.buf_of (Numpy.transpose_grid (Z.to_nat n1) g))).
Proof.
  intros Hr. unfold Numpy.transpose_10. cbn [nd_shape nd_dtype nd_buf].
  rewrite (grid_of_buf_of _ _ _ g Hr). reflexivity.
Qed.

Lemma fliplr_grid (n0 n1 : Z) (rest : list Z) (dt : dtype)
    (g : list (list (list scalar))) :
  regular_grid (Z.to_nat n0) (Z.to_nat n1) (Z.to_nat (Numpy.size_of rest)) g ->
  Numpy.fliplr (mk_ndarray (n0 :: n1 :: rest) dt (Numpy.buf_of g))
  = Ok (mk_ndarray (n0 :: n1 :: rest) dt (Numpy.buf_of (map (@rev (list scalar)) g))).
Proof.
  intros Hr. unfold Numpy.fliplr. cbn [nd_shape nd_dtype nd_buf].
  rewrite (grid_of_buf_of _ _ _ g Hr). reflexivity.
Qed.

Lemma flipud_grid (n0 n1 : Z) (rest : list Z) (dt : dtype)
    (g : list (list (list scalar))) :
  0 <= n1 -> 0 <= Numpy.size_of rest ->
  regular_grid (Z.to_nat n0) (Z.to_nat n1) (Z.to_nat (Numpy.size_of rest)) g ->
  Numpy.flipud (mk_ndarray (n0 :: n1 :: rest) dt (Numpy.buf_of g))
  = Ok (mk_ndarray (n0 :: n1 :: rest) dt (Numpy.buf_of (rev g))).
Proof.
  intros H1 Hrest Hr. unfold Numpy.flipud, Numpy.blocks.
  cbn [nd_shape nd_dtype nd_buf].
  change (Numpy.size_of (n1 :: rest)) with (n1 * Numpy.size_of rest).
  rewrite Z2Nat.inj_mul by assumption.
  rewrite (rows_of_regular _ _ _ g Hr).
  unfold Numpy.buf_of. rewrite map_rev. reflexivity.
Qed.

(** A well-formed array of two or more axes is the buffer of a regular
    grid. *)
Lemma well_formed_grid (n0 n1 : Z) (rest : list Z) (dt : dtype) (buf : list scalar) :
  Image.is_shape_and_dtype_valid (Some (n0 :: n1 :: rest)) (Some dt) = true ->
  List.length buf = Z.to_nat (Numpy.size_of (n0 :: n1 :: rest)) ->
  exists g : list (list (list scalar)),
    buf = Numpy.buf_of g
    /\ regular_grid (Z.to_nat n0) (Z.to_nat n1) (Z.to_nat (Numpy.size_of rest)) g
    /\ 0 <= n1 /\ 0 <= Numpy.size_of rest.
Proof.
  intros Hv Hbuf.
  pose proof (valid_extents_positive _ _ Hv) as P.
  inversion P as [|? ? P0 P']; subst. inversion P' as [|? ? P1 Prest]; subst.
  apply size_of_positive in Prest.
  change (Numpy.size_of (n0 :: n1 :: rest)) with (n0 * (n1 * Numpy.size_of rest))
    in Hbuf.
  rewrite !Z2Nat.inj_mul in Hbuf by lia.
  exists (Numpy.grid_of (Z.to_nat n0) (Z.to_nat n1) (Z.to_nat (Numpy.size_of rest)) buf).
  split; [symmetry; apply buf_of_grid_of; exact Hbuf|].
  split; [apply grid_of_regular; exact Hbuf|]. lia.
Qed.

Lemma rgb_type_swap (n0 n1 : Z) (rest : list Z) (dt : dtype) :
  Image.is_shape_and_dtype_rgb_type (n1 :: n0 :: rest) dt
  = Image.is_shape_and_dtype_rgb_type (n0 :: n1 :: rest) dt.
Proof.
  unfold Image.is_shape_and_dtype_rgb_type, Image.is_shape_and_dtype_rgb,
    Image.is_shape_and_dtype_rgba.
  destruct rest as [|ch rest]; [|reflexivity].
  cbn [List.length Nat.eqb]. destruct (dtype_eqb dt uint8); reflexivity.
Qed.

Lemma valid_swap (n0 n1 : Z) (rest : list Z) (dt : dtype) :
  Image.is_shape_and_dtype_valid (Some (n0 :: n1 :: rest)) (Some dt) = true ->
  Image.is_shape_and_dtype_valid (Some (n1 :: n0 :: rest)) (Some dt) = true.
Proof.
  unfold Image.is_shape_and_dtype_valid, Image.dimensional_shape_from_shape_and_dtype.
  rewrite (rgb_type_swap n0 n1 rest dt).
  intros H. apply andb_true_iff in H. destruct H as [H Hpos].
  apply andb_true_iff in H. destruct H as [Hsup Hlen].
  rewrite Hsup. cbn [andb]. apply andb_true_iff. split.
  - destruct (Image.is_shape_and_dtype_rgb_type (n0 :: n1 :: rest) dt);
      [|exact Hlen].
    rewrite length_removelast in *. exact Hlen.
  - cbn [forallb] in *.
    apply andb_true_iff in Hpos. destruct Hpos as [A B].
    apply andb_true_iff in B. destruct B as [B C].
    rewrite A, B, C. reflexivity.
Qed.

Lemma rgb_type_three_axes (s : list Z) (dt : dtype) :
  Image.is_shape_and_dtype_rgb_type s dt = true -> List.length s = 3%nat.
Proof.
  unfold Image.is_shape_and_dtype_rgb_type, Image.is_shape_and_dtype_rgb,
    Image.is_shape_and_dtype_rgba.
  intros H. apply orb_true_iff in H.
  destruct H as [H|H]; apply andb_true_iff in H; destruct H as [H _];
    apply andb_true_iff in H; destruct H as [_ H]; apply Nat.eqb_eq; exact H.
Qed.

(** The payload of [function_transpose_flip], twice: with the transpose
    alone, or with flips alone, the second application undoes the
    first. *)
Lemma transpose_flip_data_twice (d : ndarray) (transpose flip_v flip_h : bool)
    (ic ic' : Calib) (dc dc' : option (list Calib)) (md md' : list (string * string)) :
  Image.is_data_valid d = true -> well_formed d ->
  transpose = false \/ (flip_v = false /\ flip_h = false) ->
  exists d1 : ndarray,
    function_transpose_flip_calculate_data (DataAndMetadata.mk (Some d) ic dc md)
      transpose flip_v flip_h = ([], Ok (Some d1))
    /\ Image.is_data_valid d1 = true
    /\ function_transpose_flip_calculate_data (DataAndMetadata.mk (Some d1) ic' dc' md')
         transpose flip_v flip_h = ([], Ok (Some d)).
Proof.
  intros Hv Hw Hf. destruct d as [s dt buf].
  unfold well_formed in Hw. unfold Image.is_data_valid in *.
  cbn [nd_shape nd_dtype nd_buf] in *.
  unfold function_transpose_flip_calculate_data. cbn [data].
  unfold Image.is_data_valid. cbn [nd_shape nd_dtype].
  destruct (Image.is_shape_and_dtype_rgb_type s dt) eqn:Hrgb.
  - (* a colour image: three axes *)
    pose proof (rgb_type_three_axes s dt Hrgb) as H3.
    destruct s as [|n0 [|n1 [|ch [|x rest]]]]; try discriminate H3.
    destruct (well_formed_grid n0 n1 [ch] dt buf Hv Hw) as (g & -> & Hg & _).
    rewrite Hv. cbn [negb List.length Nat.eqb andb].
    rewrite !andb_false_r.
    destruct transpose.
    + rewrite (transpose_10_grid n0 n1 [ch] dt g Hg). run_pure.
      eexists. split; [reflexivity|].
      split; [apply valid_swap; exact Hv|].
      cbn [nd_shape nd_dtype].
      rewrite (valid_swap _ _ _ _ Hv), (rgb_type_swap n0 n1 [ch] dt), Hrgb.
      cbn [negb List.length Nat.eqb andb]. rewrite !andb_false_r.
      rewrite (transpose_10_grid n1 n0 [ch] dt _ (transpose_regular _ _ _ g Hg)).
      rewrite (transpose_involutive _ _ _ g Hg). reflexivity.
    + run_pure. eexists. split; [reflexivity|]. split; [exact Hv|].
      cbn [nd_shape nd_dtype]. rewrite Hv, ?Hrgb.
      cbn [negb List.length Nat.eqb andb]. rewrite !andb_false_r. reflexivity.
  - destruct (Nat.eqb (List.length s) 2) eqn:H2.
    + (* a two-axis array *)
      apply Nat.eqb_eq in H2.
      destruct s as [|n0 [|n1 [|x rest]]]; try discriminate H2.
      destruct (well_formed_grid n0 n1 [] dt buf Hv Hw) as (g & -> & Hg & Hn1 & Hrest).
      rewrite Hv. cbn [negb]. rewrite !andb_true_r.
      destruct Hf as [->|[-> ->]].
      * assert (Hh : regular_grid (Z.to_nat n0) (Z.to_nat n1)
                       (Z.to_nat (Numpy.size_of [])) (map (@rev (list scalar)) g))
          by (apply map_rev_regular; exact Hg).
        destruct flip_h, flip_v; run_pure; cbn [nd_shape nd_dtype].
        -- rewrite (fliplr_grid _ _ _ _ g Hg). run_pure.
           rewrite (flipud_grid _ _ _ _ _ Hn1 Hrest Hh). run_pure.
           eexists. split; [reflexivity|]. split; [exact Hv|].
           cbn [nd_shape nd_dtype]. rewrite Hv, ?Hrgb.
           cbn [negb List.length Nat.eqb andb]. run_pure.
           rewrite (fliplr_grid _ _ _ _ _ (rev_regular _ _ _ _ Hh)). run_pure.
           rewrite (flipud_grid _ _ _ _ _ Hn1 Hrest
                      (map_rev_regular _ _ _ _ (rev_regular _ _ _ _ Hh))). run_pure.
           rewrite map_rev, map_rev_rev, rev_involutive. reflexivity.
        -- rewrite (fliplr_grid _ _ _ _ g Hg). run_pure.
           eexists. split; [reflexivity|]. split; [exact Hv|].
           cbn [nd_shape nd_dtype]. rewrite Hv, ?Hrgb.
           cbn [negb List.length Nat.eqb andb]. run_pure.
           rewrite (fliplr_grid _ _ _ _ _ Hh). run_pure.
           rewrite map_rev_rev. reflexivity.
        -- rewrite (flipud_grid _ _ _ _ g Hn1 Hrest Hg). run_pure.
           eexists. split; [reflexivity|]. split; [exact Hv|].
           cbn [nd_shape nd_dtype]. rewrite Hv, ?Hrgb.
           cbn [negb List.length Nat.eqb andb]. run_pure.
           rewrite (flipud_grid _ _ _ _ _ Hn1 Hrest (rev_regular _ _ _ _ Hg)). run_pure.
           rewrite rev_involutive. reflexivity.
        -- eexists. split; [reflexivity|]. split; [exact Hv|].
           cbn [nd_shape nd_dtype]. rewrite Hv, ?Hrgb. reflexivity.
      * cbn [andb]. destruct transpose.
        -- rewrite (transpose_10_grid n0 n1 [] dt g Hg). run_pure.
           eexists. split; [reflexivity|].
           split; [apply valid_swap; exact Hv|].
           cbn [nd_shape nd_dtype].
           rewrite (valid_swap _ _ _ _ Hv), (rgb_type_swap n0 n1 [] dt), Hrgb.
           cbn [negb List.length Nat.eqb andb].
           rewrite (transpose_10_grid n1 n0 [] dt _ (transpose_regular _ _ _ g Hg)).
           rewrite (transpose_involutive _ _ _ g Hg). reflexivity.
        -- eexists. split; [reflexivity|]. split; [exact Hv|].
           cbn [nd_shape nd_dtype]. rewrite Hv. reflexivity.
    + (* any other array is left as it is *)
      rewrite Hv. cbn [negb]. rewrite !andb_false_r.
      exists (mk_ndarray s dt buf).
      split; [destruct transpose; reflexivity|]. split; [exact Hv|].
      cbn [nd_shape nd_dtype]. rewrite Hv, ?Hrgb, H2. cbn [negb].
      rewrite !andb_false_r. destruct transpose; reflexivity.
Qed.

(** X28.  [function_transpose_flip] applied twice with the same flags,
    the transpose alone or flips alone, to a valid, well-formed,
    calibrated input gives back the input: payload (two-axis array,
    colour image or any other), calibrations and metadata. *)
Theorem function_transpose_flip_twice (dm : DM) (d : ndarray) (cals : list Calib)
    (transpose flip_v flip_h : bool)
    (Hd : data dm = Some d) (Hv : Image.is_data_valid d = true)
    (Hw : well_formed d)
    (Hc : dimensional_calibrations dm = Some cals)
    (Hf : transpose = false \/ (flip_v = false /\ flip_h = false)) :
  exists r : DM,
    function_transpose_flip dm transpose flip_v flip_h = ([], Ok (Some r))
    /\ function_transpose_flip r transpose flip_v flip_h = ([], Ok (Some dm)).
Proof.
  destruct dm as [dd ic dc md]. cbn [data dimensional_calibrations] in Hd, Hc.
  subst dd dc.
  set (cals1 := if transpose then rev cals else cals).
  destruct (transpose_flip_data_twice d transpose flip_v flip_h
              ic ic (Some cals) (Some cals1) md md Hv Hw Hf) as (d1 & E1 & Hv1 & E2).
  exists (DataAndMetadata.mk (Some d1) ic (Some cals1) md).
  unfold function_transpose_flip, data_shape, data_dtype.
  cbn [data option_map dimensional_calibrations intensity_calibration metadata].
  unfold Image.is_data_valid in Hv, Hv1. rewrite Hv, Hv1. cbn [negb].
  rewrite E1, E2. subst cals1. split.
  - destruct transpose; reflexivity.
  - destruct transpose; [rewrite rev_involutive|]; reflexivity.
Qed.

Lemma function_transpose_flip_twice_2x3 :
  (exists r : DM,
     function_transpose_flip dm_image_2x3 true false false = ([], Ok (Some r))
     /\ function_transpose_flip r true false false = ([], Ok (Some dm_image_2x3)))
  /\ exists r : DM,
       function_transpose_flip dm_image_2x3 false true true = ([], Ok (Some r))
       /\ function_transpose_flip r false true true = ([], Ok (Some dm_image_2x3)).
Proof.
  split.
  - apply (function_transpose_flip_twice dm_image_2x3 image_2x3 _ true false false
             eq_refl eq_refl eq_refl eq_refl). right. split; reflexivity.
  - apply (function_transpose_flip_twice dm_image_2x3 image_2x3 _ false true true
             eq_refl eq_refl eq_refl eq_refl). left. reflexivity.
Defined.

(** ** Sums of colour images *)

(** X29.  [function_sum] of a valid RGB image: whatever [axis] is
    asked for, the payload is the mean over the first axis, computed
    by one call of numpy.average on each of the three colour planes;
    it is a uint8 array that has lost the first axis of the source,
    and its three colour planes are what numpy.average returned for
    the three planes of the source, in their order (numpy.average
    returning one element per column). *)
Theorem function_sum_rgb_averages (R : ArrayRoutines) (dm : DM) (d : ndarray)
    (cals : list Calib)
    (Hd : data dm = Some d) (Hv : Image.is_data_valid d = true)
    (Hrgb : Image.is_data_rgb d = true)
    (Hc : dimensional_calibrations dm = Some cals)
    (Ha : averages_per_column R d) :
  exists c : ndarray,
    nd_shape c = tl (nd_shape d)
    /\ nd_dtype c = uint8
    /\ (forall j : nat, (j < 3)%nat ->
          nd_buf (Numpy.channel c j) = r_average0_uint8 R (Numpy.channel d j))
    /\ forall axis : axis_arg,
         exists r : DM,
           function_sum R dm axis
           = ([KernelCall "numpy.average" [Numpy.channel d 0];
               KernelCall "numpy.average" [Numpy.channel d 1];
               KernelCall "numpy.average" [Numpy.channel d 2]], Ok (Some r))
           /\ data r = Some c.
Proof.
  pose proof Hrgb as Hrgb'.
  unfold Image.is_data_rgb, Image.is_shape_and_dtype_rgb in Hrgb'.
  apply andb_true_iff in Hrgb'. destruct Hrgb' as [Hrgb' H3].
  apply andb_true_iff in Hrgb'. destruct Hrgb' as [_ Hlen].
  apply Z.eqb_eq in H3. apply Nat.eqb_eq in Hlen.
  set (plane := fun j : nat =>
         mk_ndarray (tl (nd_shape (Numpy.channel d j))) uint8
           (r_average0_uint8 R (Numpy.channel d j))).
  exists (Numpy.stack_channels (removelast (tl (nd_shape d)))
            [plane 0%nat; plane 1%nat; plane 2%nat]).
  assert (Hs : forall j, tl (nd_shape (Numpy.channel d j)) = removelast (tl (nd_shape d))).
  { intros j. unfold Numpy.channel. cbn [nd_shape].
    destruct (nd_shape d) as [|n0 [|n1 [|ch [|x rest]]]]; try discriminate Hlen.
    reflexivity. }
  split; [|split; [reflexivity|split]].
  - cbn [Numpy.stack_channels nd_shape List.length Z.of_nat Pos.of_succ_nat Pos.succ].
    destruct (nd_shape d) as [|n0 [|n1 [|ch [|x rest]]]]; try discriminate Hlen.
    cbn [last] in H3. subst ch. reflexivity.
  - intros j Hj.
    rewrite (channel_stack_channels _ _ j (plane j)).
    + reflexivity.
    + destruct j as [|[|[|j]]]; [reflexivity|reflexivity|reflexivity|lia].
    + unfold plane. cbn [nd_buf]. rewrite (Ha j Hj), Hs. reflexivity.
  - intros axis. unfold function_sum, function_sum_calculate_data.
    rewrite Hc, (valid_data_shape dm d Hd Hv), Hd, Hv. cbn [negb].
    unfold Image.is_data_rgb in Hrgb.
    unfold Image.is_shape_and_dtype_rgb_type. rewrite Hrgb. cbn [orb].
    unfold numpy_average0, invoke, bind, ret, new_data_and_metadata. cbn [app].
    eexists. split; reflexivity.
Qed.

Lemma function_sum_rgb_averages_1x2 :
  exists c : ndarray,
    nd_shape c = [2; 3]
    /\ nd_dtype c = uint8
    /\ nd_buf (Numpy.channel c 1) = [SInt 20; SInt 50]
    /\ option_map data (match result (function_sum plain_routines dm_rgb (AxisInt 1)) with
                        | Ok r => r
                        | Raise _ => None
                        end) = Some (Some c).
Proof.
  assert (Ha : averages_per_column plain_routines image_rgb).
  { intros j Hj. destruct j as [|[|[|j]]]; [reflexivity|reflexivity|reflexivity|lia]. }
  destruct (function_sum_rgb_averages plain_routines dm_rgb image_rgb [nm; nm]
              eq_refl eq_refl eq_refl eq_refl Ha) as (c & Hs & Ht & Hp & Hall).
  exists c. split; [exact Hs|]. split; [exact Ht|].
  split; [rewrite (Hp 1%nat) by lia; reflexivity|].
  destruct (Hall (AxisInt 1)) as (r & Hr & Hdata).
  rewrite Hr. cbn [result snd option_map]. rewrite Hdata. reflexivity.
Defined.
